(** * Earthquake forecasting pipeline (api.py): alignment, features, forecast

    A shallow embedding of [src/api.py].  A pandas DataFrame is a list of
    rows in frame order; a cell that pandas shows as NaN / NaT / None is
    [None].  Real numbers are exact rationals ([Q]); timestamps are
    integers (seconds since the epoch, timezone-naive) and calendar days
    are integers (days since the epoch).  The square root used by the
    rolling standard deviation and the CatBoost model are parameters. *)

From Stdlib Require Import List ZArith QArith Qreduction Bool Ascii String Lia Permutation.
Import ListNotations.

Local Open Scope Z_scope.

(** ** Exceptions and the memoisation state *)

Inductive error : Type :=
| KeyError        (* [split(..., expand=True)[1]]: no column 1 *)
| ValueError      (* [pd.date_range]: neither start nor end can be NaT *)
| AttributeError. (* [df.index.day] on an index that is not a DatetimeIndex *)

Inductive result (A : Type) : Type :=
| Ok (a : A)
| Raise (e : error).
Arguments Ok {A} a.
Arguments Raise {A} e.

Definition is_raise {A} (r : result A) : bool :=
  match r with Ok _ => false | Raise _ => true end.

Definition result_map {A B} (f : A -> B) (r : result A) : result B :=
  match r with Ok a => Ok (f a) | Raise e => Raise e end.

(** ** Region canonicalizer (api.py 79-81 and 130-132) *)

Module Canon.

Local Open Scope string_scope.

(** Python's [s.split(", ")]: the pieces between the non-overlapping
    occurrences of the two-character delimiter, scanned left to right. *)
Fixpoint split (s : string) : list string :=
  match s with
  | EmptyString => [EmptyString]
  | String c rest =>
    let keep :=
      match split rest with
      | p :: ps => String c p :: ps
      | [] => [String c EmptyString]
      end in
    if Ascii.eqb c ","%char then
      match rest with
      | String c2 rest' =>
        if Ascii.eqb c2 " "%char then EmptyString :: split rest' else keep
      | EmptyString => keep
      end
    else keep
  end.

(** [s] contains the delimiter [", "]. *)
Fixpoint has_delim (s : string) : bool :=
  match s with
  | EmptyString => false
  | String c rest =>
    (Ascii.eqb c ","%char
     && match rest with String c2 _ => Ascii.eqb c2 " "%char | EmptyString => false end)
    || has_delim rest
  end.

(** [.replace({"CA": "California", "B.C.": "Baja California"})]: whole
    values only. *)
Definition replace (r : string) : string :=
  if String.eqb r "CA" then "California"
  else if String.eqb r "B.C." then "Baja California"
  else r.

(** One cell of [split(", ", expand=True)[1]]: the second piece, NaN when
    the place has a single piece. *)
Definition column1 (place : string) : option string :=
  match split place with
  | _ :: r :: _ => Some r
  | _ => None
  end.

(** [region.fillna(place)] followed by [replace]. *)
Definition region_of_place (place : string) : string :=
  replace (match column1 place with Some r => r | None => place end).

(** The region column of a whole table.  [expand=True] builds as many
    columns as the longest split, so column [1] exists only when some
    place of the table contains the delimiter; a missing place (NaN) stays
    missing through [split], [fillna] and [replace]. *)
Definition regions_of (places : list (option string)) : result (list (option string)) :=
  if existsb (fun p => match p with Some s => has_delim s | None => false end) places
  then Ok (map (option_map region_of_place) places)
  else Raise KeyError.

(** The spec's reading of the candidate region: everything after the
    first delimiter, the whole string when there is none. *)
Fixpoint after_first_delim (s : string) : option string :=
  match s with
  | EmptyString => None
  | String c rest =>
    if Ascii.eqb c ","%char then
      match rest with
      | String c2 rest' =>
        if Ascii.eqb c2 " "%char then Some rest' else after_first_delim rest
      | EmptyString => None
      end
    else after_first_delim rest
  end.

Definition region_spec (place : string) : string :=
  replace (match after_first_delim place with Some r => r | None => place end).

End Canon.

(** ** Tables *)

(** One record of the catalog (the columns of the CSV that the pipeline
    reads).  Every cell but the timestamp may be empty in the CSV. *)
Record RawEvent : Type := {
  time : Z;
  place : option string;
  raw_mag : option Q;
  raw_depth : option Q;
  raw_latitude : option Q;
  raw_longitude : option Q
}.

(** One row of the daily frame: the index is the calendar day. *)
Record Row : Type := {
  index : Z;
  region : option string;
  mag : option Q;
  depth : option Q;
  latitude : option Q;
  longitude : option Q
}.

Definition _START_LAG : nat := 3.
Definition _END_LAG : nat := 10.

(** Python's [range(a, b)]. *)
Definition range (a b : nat) : list nat := seq a (b - a).

(** A row of the feature table: the columns of the extended grid and the
    columns [create_features] adds.  [mag_lag] and [depth_lag] hold the
    columns [mag_lag_3 .. mag_lag_10] in the order the loops create them. *)
Record FeatureRow : Type := {
  base : Row;
  day : Z;
  dayofweek : Z;
  dayofyear : Z;
  mag_lag : list (option Q);
  depth_lag : list (option Q);
  mag_rolling_mean_3 : option Q;
  mag_rolling_std_3 : option Q;
  depth_rolling_mean_3 : option Q;
  depth_rolling_std_3 : option Q;
  mag_rolling_mean_10 : option Q;
  mag_rolling_std_10 : option Q;
  depth_rolling_mean_10 : option Q;
  depth_rolling_std_10 : option Q
}.

(** The column [mag_lag_i] (resp. [depth_lag_i]) of a feature row. *)
Definition mag_lag_ (i : nat) (r : FeatureRow) : option Q :=
  nth (i - _START_LAG) (mag_lag r) None.
Definition depth_lag_ (i : nat) (r : FeatureRow) : option Q :=
  nth (i - _START_LAG) (depth_lag r) None.

(** A row of the table [get_forecast] returns. *)
Record ForecastRow : Type := {
  Date : Z;
  Magnitude : option Q;
  Magnitude_Forecast : option Q;
  Depth : option Q;
  Depth_Forecast : option Q;
  Region : option string;
  Latitude : option Q;
  Longitude : option Q
}.

(** ** pandas primitives *)

Definition orelse {A} (a b : option A) : option A :=
  match a with Some _ => a | None => b end.

Definition is_some {A} (a : option A) : bool :=
  match a with Some _ => true | None => false end.

(** The non-missing cells of a column. *)
Definition present {A} (l : list (option A)) : list A :=
  flat_map (fun o => match o with Some a => [a] | None => [] end) l.

Definition Qsum (l : list Q) : Q := fold_right Qplus 0%Q l.

(** Arithmetic mean; NaN for no observation. *)
Definition mean (l : list Q) : option Q :=
  match l with
  | [] => None
  | _ => Some (Qred (Qsum l / inject_Z (Z.of_nat (List.length l))))
  end.

(** Sample variance ([ddof=1]); NaN for fewer than two observations. *)
Definition var (l : list Q) : option Q :=
  match mean l with
  | Some m =>
    if (List.length l <=? 1)%nat then None
    else Some (Qred (Qsum (map (fun x => (x - m) * (x - m))%Q l)
                     / inject_Z (Z.of_nat (List.length l - 1))))
  | None => None
  end.

(** [Index.min()]: NaT for an empty index. *)
Definition index_min (df : list Row) : option Z :=
  match map index df with
  | [] => None
  | d :: ds => Some (fold_right Z.min d ds)
  end.

(** [pd.date_range(start, end, freq="d")]: every day from [start] to
    [end] inclusive, none when [end < start]. *)
Definition date_range (start_date end_date : Z) : list Z :=
  map (fun k => start_date + Z.of_nat k) (seq 0 (Z.to_nat (end_date - start_date + 1))).

(** The all-NaN row [DataFrame.reindex] creates for a new label. *)
Definition nan_row (d : Z) : Row :=
  {| index := d; region := None; mag := None; depth := None;
     latitude := None; longitude := None |}.

(** [df.reindex(date_range)] on a frame whose index has no duplicates.
    (On a repeated label pandas raises [ValueError]; the groups the
    pipeline aligns are daily means, one row per day.) *)
Definition df_reindex (df : list Row) (days : list Z) : list Row :=
  map (fun d => match find (fun r => index r =? d) df with
                | Some r => r
                | None => nan_row d
                end) days.

(** One step of a forward fill: the cells of [cur] that are missing take
    the value of the (already filled) row above. *)
Definition fill (prev cur : Row) : Row :=
  {| index := index cur;
     region := orelse (region cur) (region prev);
     mag := orelse (mag cur) (mag prev);
     depth := orelse (depth cur) (depth prev);
     latitude := orelse (latitude cur) (latitude prev);
     longitude := orelse (longitude cur) (longitude prev) |}.

(** The same for the [region] column alone. *)
Definition fill_region (prev cur : Row) : Row :=
  {| index := index cur;
     region := orelse (region cur) (region prev);
     mag := mag cur; depth := depth cur;
     latitude := latitude cur; longitude := longitude cur |}.

Fixpoint ffill_from (step : Row -> Row -> Row) (prev : Row) (df : list Row) : list Row :=
  match df with
  | [] => []
  | r :: t => let r' := step prev r in r' :: ffill_from step r' t
  end.

Definition ffill_with (step : Row -> Row -> Row) (df : list Row) : list Row :=
  match df with
  | [] => []
  | r :: t => r :: ffill_from step r t
  end.

(** [df.ffill()] *)
Definition ffill : list Row -> list Row := ffill_with fill.

(** [df.region = df.region.ffill()] *)
Definition ffill_region : list Row -> list Row := ffill_with fill_region.

Section Sorting.
Context {A : Type} (le : A -> A -> bool).

Fixpoint insert (x : A) (l : list A) : list A :=
  match l with
  | [] => [x]
  | y :: t => if le x y then x :: l else y :: insert x t
  end.

Definition sort (l : list A) : list A := fold_right insert [] l.
End Sorting.

Definition region_is (k : string) (r : option string) : bool :=
  match r with Some s => String.eqb s k | None => false end.

(** The group keys of [groupby("region")]: the distinct labels in
    increasing order; rows with a missing label belong to no group. *)
Definition group_keys (labels : list (option string)) : list string :=
  sort String.leb (nodup string_dec (present labels)).

Definition rows_of (k : string) (df : list Row) : list Row :=
  filter (fun r => region_is k (region r)) df.

(** [df.groupby("region")[[...]].apply(f, include_groups=False)
       .reset_index(0, drop=True)]: the frames [f] returns for the
    groups, one below the other in key order; an exception of [f]
    propagates. *)
Definition groupby_apply (f : list Row -> result (list Row)) (df : list Row)
  : result (list Row) :=
  fold_right
    (fun k acc =>
       match f (rows_of k df) with
       | Ok g => result_map (app g) acc
       | Raise e => Raise e
       end)
    (Ok []) (group_keys (map region df)).

(** ** Daily resampling (api.py 134-142) *)

(** The calendar day of a timestamp. *)
Definition day_of (t : Z) : Z := t / 86400.

Definition events_of (k : string) (df : list (RawEvent * option string))
  : list (RawEvent * option string) :=
  filter (fun e => region_is k (snd e)) df.

Definition event_days (g : list (RawEvent * option string)) : list Z :=
  map (fun e => day_of (time (fst e))) g.

(** [resample("d").mean()] of one group: one bin per day from the day of
    the first event to the day of the last one; each column is the mean of
    the non-missing cells of the events of that day. *)
Definition resample_mean (k : string) (g : list (RawEvent * option string)) : list Row :=
  match event_days g with
  | [] => []
  | d :: ds =>
    map (fun b =>
           let es := map fst (filter (fun e => day_of (time (fst e)) =? b) g) in
           {| index := b; region := Some k;
              mag := mean (present (map raw_mag es));
              depth := mean (present (map raw_depth es));
              latitude := mean (present (map raw_latitude es));
              longitude := mean (present (map raw_longitude es)) |})
        (date_range (fold_right Z.min d ds) (fold_right Z.max d ds))
  end.

(** [df.groupby("region").resample("d").mean().reset_index()
       .set_index("time")] *)
Definition groupby_resample_mean (df : list (RawEvent * option string)) : list Row :=
  flat_map (fun k => resample_mean k (events_of k df)) (group_keys (map snd df)).

(** ** Calendar fields of a DatetimeIndex *)

Module Calendar.

(** Year, month and day of month of a day number (proleptic Gregorian
    calendar, day 0 = 1970-01-01). *)
Definition civil_from_days (z0 : Z) : Z * Z * Z :=
  let z := z0 + 719468 in
  let era := z / 146097 in
  let doe := z - era * 146097 in
  let yoe := (doe - doe / 1460 + doe / 36524 - doe / 146096) / 365 in
  let doy := doe - (365 * yoe + yoe / 4 - yoe / 100) in
  let mp := (5 * doy + 2) / 153 in
  let d := doy - (153 * mp + 2) / 5 + 1 in
  let m := if mp <? 10 then mp + 3 else mp - 9 in
  let y := yoe + era * 400 + (if m <=? 2 then 1 else 0) in
  (y, m, d).

Definition days_from_civil (y0 m d : Z) : Z :=
  let y := if m <=? 2 then y0 - 1 else y0 in
  let era := y / 400 in
  let yoe := y - era * 400 in
  let doy := (153 * (if 2 <? m then m - 3 else m + 9) + 2) / 5 + d - 1 in
  let doe := yoe * 365 + yoe / 4 - yoe / 100 + doy in
  era * 146097 + doe - 719468.

(** [index.day] *)
Definition day (z : Z) : Z := snd (civil_from_days z).

(** [index.dayofweek]: Monday is 0; day 0 was a Thursday. *)
Definition dayofweek (z : Z) : Z := (z + 3) mod 7.

(** [index.dayofyear]: 1 on the first of January. *)
Definition dayofyear (z : Z) : Z :=
  z - days_from_civil (fst (fst (civil_from_days z))) 1 1 + 1.

End Calendar.

(** ** Lag and rolling features (api.py 190-216)

    [groupby("region").col.shift(i)] and
    [groupby("region").col.transform(lambda x: x.rolling(window=W)...)]
    work by position inside each group and write the result back at the
    row's own position.  Both are functions of the row's history: the row
    itself followed by the rows of its group above it, nearest first. *)

Definition same_group (x y : Row) : bool :=
  match region x, region y with
  | Some a, Some b => String.eqb a b
  | _, _ => false
  end.

(** [seen] holds the rows above [x] in the frame, nearest first.  A row
    with a missing label belongs to no group. *)
Definition history (seen : list Row) (x : Row) : list Row :=
  x :: filter (same_group x) seen.

(** [shift(i)]: the cell [i] positions up in the group, NaN above the
    group's first row. *)
Definition shift (col : Row -> option Q) (i : nat) (hist : list Row) : option Q :=
  match nth_error hist i with
  | Some r => col r
  | None => None
  end.

(** [rolling(window=W).agg()]: [min_periods] defaults to [W], so the
    statistic needs [W] non-missing cells in the [W] trailing positions. *)
Definition rolling (W : nat) (agg : list Q -> option Q) (col : Row -> option Q)
    (hist : list Row) : option Q :=
  let window := map col (firstn W hist) in
  if (List.length window <? W)%nat then None
  else if forallb is_some window then agg (rev (present window))
  else None.

(** ** The memoised catalog query and the pipeline monad

    [st.cache_data] keeps the table of the first call and hands a fresh
    copy to every caller; the pipeline only ever makes the call with the
    default arguments, so the cache is one optional table. *)

Definition Cache : Type := option (list RawEvent).

Definition M (A : Type) : Type := Cache -> result A * Cache.

Definition ret {A} (a : A) : M A := fun c => (Ok a, c).

Definition raise {A} (e : error) : M A := fun c => (Raise e, c).

Definition lift {A} (r : result A) : M A := fun c => (r, c).

Definition bind {A B} (m : M A) (f : A -> M B) : M B :=
  fun c =>
    match m c with
    | (Ok a, c') => f a c'
    | (Raise e, c') => (Raise e, c')
    end.

Notation "x <- m ;; k" := (bind m (fun x => k))
  (at level 61, m at next level, right associativity).

(** The static list of recognised region names of [get_regions]. *)
Definition known_regions : list string :=
  [ "California"; "Alaska"; "Nevada"; "Hawaii"; "Washington"; "Utah";
    "Montana"; "Puerto Rico"; "Indonesia"; "Chile"; "Baja California";
    "Oklahoma"; "Japan"; "Greece"; "Papua New Guinea"; "Philippines";
    "Mexico"; "Italy"; "Russia"; "Idaho"; "Aleutian Islands"; "Tonga";
    "Oregon"; "Wyoming"; "Turkey" ]%string.

(** [Series.isin(regions)] *)
Definition isin (r : option string) (regions : list string) : bool :=
  match r with
  | Some s => existsb (String.eqb s) regions
  | None => false
  end.

(** ** The pipeline *)

Section Pipeline.

(** The calendar day the clock shows ([datetime.now().date()],
    [datetime.today().date()], [pd.Timestamp.now().normalize()]). *)
Variable today : Z.

(** The table the catalog service returns for the default query. *)
Variable usgs : list RawEvent.

(** The square root of the rolling standard deviation. *)
Variable sqrt : Q -> Q.

(** [model.predict]: one (magnitude, depth) pair per input row; an input
    row is the ordered numeric features and the categorical [region]. *)
Variable model : list (list (option Q) * option string) -> list (Q * Q).

(** [get_recent_earthquakes()] under [st.cache_data]. *)
Definition get_recent_earthquakes : M (list RawEvent) :=
  fun c =>
    match c with
    | Some df => (Ok df, c)
    | None => (Ok usgs, Some usgs)
    end.

(** [get_regions()]: the recognised names among the labels observed in
    the recent sample. *)
Definition get_regions : M (list string) :=
  df <- get_recent_earthquakes ;;
  observed <- lift (Canon.regions_of (map place df)) ;;
  ret (filter (fun k => existsb (region_is k) observed) known_regions).

(** [reindex(group, delta)] *)
Definition reindex (group : list Row) (delta : Z) : result (list Row) :=
  match index_min group with
  | None => Raise ValueError
  | Some start_date =>
    let end_date := today + delta in
    let date_range := date_range start_date end_date in
    Ok (ffill (df_reindex group date_range))
  end.

(** api.py 130-142: label, sort by time, daily means per region. *)
Definition daily_means (df : list RawEvent) : result (list Row) :=
  result_map
    (fun labels =>
       let df := combine df labels in
       let df := sort (fun a b => time (fst a) <=? time (fst b)) df in
       groupby_resample_mean df)
    (Canon.regions_of (map place df)).

Definition preprocess_data (df : list RawEvent) (region_arg : option string)
  : M (list Row) :=
  df <- lift (daily_means df) ;;
  match region_arg with
  | None =>
    regions <- get_regions ;;
    let df := filter (fun r => isin (region r) regions) df in
    lift (groupby_apply (fun group => reindex group 0) df)
  | Some rg =>
    let df := rows_of rg df in
    match index_min df with
    | None => raise ValueError
    | Some start_date =>
      let end_date := today in
      let date_range := date_range start_date end_date in
      let df := df_reindex df date_range in
      ret (ffill df)
    end
  end.

(** The columns [create_features] adds to the row [x] whose group
    history is [hist]. *)
Definition feature_row (hist : list Row) (x : Row) : FeatureRow :=
  let std := fun l => option_map sqrt (var l) in
  {| base := x;
     day := Calendar.day (index x);
     dayofweek := Calendar.dayofweek (index x);
     dayofyear := Calendar.dayofyear (index x);
     mag_lag := map (fun i => shift mag i hist) (range _START_LAG (_END_LAG + 1));
     depth_lag := map (fun i => shift depth i hist) (range _START_LAG (_END_LAG + 1));
     mag_rolling_mean_3 := rolling _START_LAG mean mag hist;
     mag_rolling_std_3 := rolling _START_LAG std mag hist;
     depth_rolling_mean_3 := rolling _START_LAG mean depth hist;
     depth_rolling_std_3 := rolling _START_LAG std depth hist;
     mag_rolling_mean_10 := rolling _END_LAG mean mag hist;
     mag_rolling_std_10 := rolling _END_LAG std mag hist;
     depth_rolling_mean_10 := rolling _END_LAG mean depth hist;
     depth_rolling_std_10 := rolling _END_LAG std depth hist |}.

Fixpoint features_from (seen : list Row) (df : list Row) : list FeatureRow :=
  match df with
  | [] => []
  | x :: t => feature_row (history seen x) x :: features_from (x :: seen) t
  end.

(** api.py 186-216 on the extended grid. *)
Definition add_features (df : list Row) : list FeatureRow := features_from [] df.

(** api.py 169-184: the horizon extension.  In the all-regions branch a
    frame assembled from no group at all has lost its DatetimeIndex, and
    [df.index.day] raises. *)
Definition extend (df : list Row) (region_arg : option string) : M (list Row) :=
  match region_arg with
  | None =>
    regions <- get_regions ;;
    let df := filter (fun r => isin (region r) regions) df in
    df' <- lift (groupby_apply (fun group => reindex group 3) df) ;;
    match group_keys (map region df) with
    | [] => raise AttributeError
    | _ => ret df'
    end
  | Some _ =>
    match index_min df with
    | None => raise ValueError
    | Some start_date =>
      let end_date := today + 3 in
      let date_range := date_range start_date end_date in
      let df := df_reindex df date_range in
      ret (ffill_region df)
    end
  end.

Definition create_features (df : list Row) (region_arg : option string)
  : M (list FeatureRow) :=
  df <- extend df region_arg ;;
  ret (add_features df).

(** [load_model()] *)
Definition load_model : M (list (list (option Q) * option string) -> list (Q * Q)) :=
  ret model.

(** The columns [df[features + cat_features]] hands to the model. *)
Definition features (r : FeatureRow) : list (option Q) :=
  [ Some (inject_Z (day r)); Some (inject_Z (dayofweek r));
    Some (inject_Z (dayofyear r));
    mag_rolling_mean_3 r; mag_rolling_std_3 r;
    depth_rolling_mean_3 r; depth_rolling_std_3 r;
    mag_rolling_mean_10 r; mag_rolling_std_10 r;
    depth_rolling_mean_10 r; depth_rolling_std_10 r ]
  ++ map (fun i => mag_lag_ i r) (range _START_LAG (_END_LAG + 1))
  ++ map (fun i => depth_lag_ i r) (range _START_LAG (_END_LAG + 1)).

(** [df.reset_index().join(df_forecast)] and the projection and renaming
    of the columns: both frames carry a fresh 0..n-1 index, so row [k]
    takes prediction [k], or NaN when the model returned fewer rows. *)
Fixpoint join (df : list FeatureRow) (forecast : list (Q * Q)) : list ForecastRow :=
  match df with
  | [] => []
  | r :: t =>
    {| Date := index (base r);
       Magnitude := mag (base r);
       Magnitude_Forecast := option_map fst (hd_error forecast);
       Depth := depth (base r);
       Depth_Forecast := option_map snd (hd_error forecast);
       Region := region (base r);
       Latitude := latitude (base r);
       Longitude := longitude (base r) |} :: join t (tl forecast)
  end.

(** api.py 222-258: the assembled table, before any window. *)
Definition assemble (region_arg : option string) : M (list ForecastRow) :=
  model <- load_model ;;
  df <- get_recent_earthquakes ;;
  df <- preprocess_data df region_arg ;;
  df <- create_features df region_arg ;;
  let forecast := model (map (fun r => (features r, region (base r))) df) in
  ret (join df forecast).

Definition get_forecast (region_arg : option string) : M (list ForecastRow) :=
  df <- assemble region_arg ;;
  let date := today - 7 in
  ret (filter (fun r => date <=? Date r) df).

Definition forecast_earthquakes : M (list ForecastRow) :=
  df <- get_forecast None ;;
  ret (filter (fun r => today <=? Date r) df).

End Pipeline.

(** ** Reading a frame *)

(** The cell of column [col] in the row of region [k] and day [d], missing
    when the frame has no such row. *)
Definition cell (col : Row -> option Q) (df : list Row) (k : string) (d : Z) : option Q :=
  match find (fun r => region_is k (region r) && (index r =? d)) df with
  | Some r => col r
  | None => None
  end.

(** The frame [reindex] builds for a group, nothing for no group. *)
Definition grid (today : Z) (delta : Z) (group : list Row) : list Row :=
  match reindex today group delta with
  | Ok g => g
  | Raise _ => []
  end.

(** A dense group: the days [first .. today] in order, one label,
    forward-filled. *)
Definition dense (today : Z) (R : string) (first : Z) (G : list Row) : Prop :=
  map index G = date_range first today
  /\ first <= today
  /\ (forall r, In r G -> region r = Some R)
  /\ ffill G = G.

(** The table a call of [get_recent_earthquakes] sees, and the cache it
    leaves. *)
Definition cached (usgs : list RawEvent) (c : Cache) : list RawEvent :=
  match c with Some df => df | None => usgs end.

Definition warm (usgs : list RawEvent) (c : Cache) : Cache := Some (cached usgs c).

(** The label [preprocess_data] gives an event. *)
Definition label (e : RawEvent) : option string :=
  option_map Canon.region_of_place (place e).

(** [first] is the earliest day on which the table has an event labelled
    [R]. *)
Definition earliest_day (df : list RawEvent) (R : string) (first : Z) : Prop :=
  (exists e, In e df /\ label e = Some R /\ day_of (time e) = first)
  /\ (forall e, In e df -> label e = Some R -> first <= day_of (time e)).

(** Some place of the table contains the delimiter. *)
Definition some_delim (df : list RawEvent) : bool :=
  existsb (fun p => match p with Some s => Canon.has_delim s | None => false end)
          (map place df).

(** The labelled events in time order, as [daily_means] groups them. *)
Definition labelled (df : list RawEvent) : list (RawEvent * option string) :=
  sort (fun a b => time (fst a) <=? time (fst b)) (combine df (map label df)).

(** The fill of the horizon extension: every column in the all-regions
    branch ([reindex(group, 3)]), the label alone in the single-region
    branch. *)
Definition horizon_fill (region_arg : option string) : Row -> Row -> Row :=
  match region_arg with
  | None => fill
  | Some _ => fill_region
  end.

(** The rows the extension appends below a region's dense rows [G]. *)
Definition horizon_rows (today : Z) (region_arg : option string) (G : list Row)
  : list Row :=
  ffill_from (horizon_fill region_arg) (last G (nan_row 0))
             (map nan_row (date_range (today + 1) (today + 3))).

(** The rows of region [R] in a feature table. *)
Definition feature_rows_of (R : string) (fr : list FeatureRow) : list FeatureRow :=
  filter (fun x => region_is R (region (base x))) fr.

(** ** Scenarios *)

Module Scenario.

Local Open Scope string_scope.

(** Twelve consecutive days of one event each near "CA", magnitudes
    1.0, 1.1, ..., 2.1; day [k] is calendar day [19999 + k]. *)
Definition event (k : nat) : RawEvent :=
  {| time := (19999 + Z.of_nat k) * 86400 + 3600;
     place := Some "7 km NW of The Geysers, CA";
     raw_mag := Some (Qmake (9 + Z.of_nat k) 10);
     raw_depth := Some (Qmake (Z.of_nat k) 1);
     raw_latitude := Some (Qmake 388 10);
     raw_longitude := Some (Qmake (-1228) 10) |}.

Definition california : list RawEvent := map event (seq 1 12).

Definition today : Z := 19999 + 12.

(** A stand-in for the square root where a run needs one. *)
Definition sqrt (q : Q) : Q := Qmake (Z.sqrt (Qnum q * Zpos (Qden q))) (Qden q).

Definition at_day (d : nat) (rows : list FeatureRow) : option FeatureRow :=
  find (fun r => (index (base r) =? 19999 + Z.of_nat d)%Z) rows.

(** A second region next to the first: eight days of events in Nevada,
    of magnitude [m] / 10. *)
Definition nevada (m : Z) (k : nat) : RawEvent :=
  {| time := (19999 + Z.of_nat k) * 86400 + 7200;
     place := Some "20 km S of Tonopah, Nevada";
     raw_mag := Some (Qmake (m + Z.of_nat k) 10);
     raw_depth := Some (Qmake 7 2);
     raw_latitude := Some (Qmake 380 10);
     raw_longitude := Some (Qmake (-1172) 10) |}.

Definition two_regions (m : Z) : list RawEvent :=
  california ++ map (nevada m) (seq 5 8).

(** Ten days of history whose first event has no magnitude on record. *)
Definition sparse : list RawEvent :=
  [ {| time := (19999 + 3) * 86400 + 60;
       place := Some "3 km E of Ridgecrest, CA";
       raw_mag := None;
       raw_depth := Some (Qmake 5 1);
       raw_latitude := Some (Qmake 356 10);
       raw_longitude := Some (Qmake (-1176) 10) |};
    event 12 ].

(** The stages of a run on the table [df], which is also the table the
    cache holds. *)
Definition dense_grid (df : list RawEvent) (region_arg : option string) : list Row :=
  match fst (preprocess_data today df df region_arg (Some df)) with
  | Ok g => g
  | Raise _ => []
  end.

Definition features_on (usgs : list RawEvent) (g : list Row)
    (region_arg : option string) : list FeatureRow :=
  match fst (create_features today usgs sqrt g region_arg (Some usgs)) with
  | Ok fr => fr
  | Raise _ => []
  end.

Definition run (df : list RawEvent) (region_arg : option string) : list FeatureRow :=
  features_on df (dense_grid df region_arg) region_arg.

(** The feature row of day [d], a blank row when the table has none. *)
Definition pick (d : nat) (rows : list FeatureRow) : FeatureRow :=
  match at_day d rows with
  | Some x => x
  | None => feature_row sqrt [] (nan_row 0)
  end.

(** A model that predicts the constant pair (2, 10). *)
Definition model (rows : list (list (option Q) * option string)) : list (Q * Q) :=
  map (fun _ => (Qmake 2 1, Qmake 10 1)) rows.

End Scenario.

(** ** Reference readings used by the further properties *)

(** Python's [", ".join(pieces)]. *)
Fixpoint join_pieces (pieces : list string) : string :=
  match pieces with
  | [] => EmptyString
  | [p] => p
  | p :: ps => (p ++ ", " ++ join_pieces ps)%string
  end.

(** The events of the table labelled [R] that fall on day [d], and the
    mean of one of their columns (no value when none of them has one). *)
Definition events_on (df : list RawEvent) (R : string) (d : Z) : list RawEvent :=
  filter (fun e => region_is R (label e) && (day_of (time e) =? d)) df.

Definition daily_mean (col : RawEvent -> option Q) (df : list RawEvent)
    (R : string) (d : Z) : option Q :=
  mean (present (map col (events_on df R d))).

(** The numeric columns of the daily frame, each with the catalog column
    it is the daily mean of. *)
Definition columns : list ((Row -> option Q) * (RawEvent -> option Q)) :=
  [ (mag, raw_mag); (depth, raw_depth);
    (latitude, raw_latitude); (longitude, raw_longitude) ].

(** The most recent value of [f] on the days [first .. first + n]. *)
Fixpoint carried (f : Z -> option Q) (first : Z) (n : nat) : option Q :=
  match n with
  | O => f first
  | S m => orelse (f (first + Z.of_nat (S m))) (carried f first m)
  end.

(** The cells of column [col] for region [R] on the [W] days ending at
    [D], most recent first, and the statistic of a full window. *)
Definition day_window (col : Row -> option Q) (df : list Row) (R : string)
    (D : Z) (W : nat) : list (option Q) :=
  map (fun i => cell col df R (D - Z.of_nat i)) (seq 0 W).

Definition window_stat (agg : list Q -> option Q) (col : Row -> option Q)
    (df : list Row) (R : string) (D : Z) (W : nat) : option Q :=
  if forallb is_some (day_window col df R D W)
  then agg (rev (present (day_window col df R D W)))
  else None.

(** ** Further scenario helpers *)

Module ScenarioMore.
Import Scenario.

(** The dense grid of the table [df] when the cache holds [usgs]. *)
Definition aligned (usgs df : list RawEvent) (region_arg : option string) : list Row :=
  match fst (preprocess_data today usgs df region_arg (Some usgs)) with
  | Ok g => g
  | Raise _ => []
  end.

(** The assembled table and the two views of a run on the table [df]. *)
Definition assembled (df : list RawEvent) (region_arg : option string)
  : list ForecastRow :=
  match fst (assemble today df sqrt model region_arg (Some df)) with
  | Ok rows => rows
  | Raise _ => []
  end.

Definition forecast (df : list RawEvent) (region_arg : option string)
  : list ForecastRow :=
  match fst (get_forecast today df sqrt model region_arg (Some df)) with
  | Ok rows => rows
  | Raise _ => []
  end.

Definition blank_forecast : ForecastRow :=
  {| Date := 0; Magnitude := None; Magnitude_Forecast := None; Depth := None;
     Depth_Forecast := None; Region := None; Latitude := None; Longitude := None |}.

End ScenarioMore.

(** * Properties *)

(** ** The definitions on small inputs *)

Module Examples.
Import Scenario.
Local Open Scope string_scope.

Example split_pieces : Canon.split "a,, b, " = ["a,"; "b"; ""].
Proof. reflexivity. Qed.

Example region_one_delimiter :
  Canon.region_of_place "7 km NW of The Geysers, CA" = "California".
Proof. reflexivity. Qed.

Example region_no_delimiter :
  Canon.region_of_place "south of the Fiji Islands" = "south of the Fiji Islands".
Proof. reflexivity. Qed.

Example regions_of_no_column_1 :
  Canon.regions_of [Some "Fiji region"; None; Some "Banda Sea"] = Raise KeyError.
Proof. reflexivity. Qed.

Example regions_of_table :
  Canon.regions_of [Some "Fiji region"; None; Some "1 km E of Mina, Nevada"]
  = Ok [Some "Fiji region"; None; Some "Nevada"].
Proof. reflexivity. Qed.

Example calendar_epoch :
  (Calendar.day 0, Calendar.dayofweek 0, Calendar.dayofyear 0) = (1, 3, 1).
Proof. reflexivity. Qed.

Example calendar_leap_day :
  (Calendar.civil_from_days 19782, Calendar.dayofweek 19782, Calendar.dayofyear 19782)
  = ((2024, 2, 29), 3, 60).
Proof. reflexivity. Qed.

Example calendar_new_year_eve :
  (Calendar.civil_from_days 19722, Calendar.dayofweek 19722, Calendar.dayofyear 19722)
  = ((2023, 12, 31), 6, 365).
Proof. reflexivity. Qed.

Example date_range_three : date_range 5 7 = [5; 6; 7].
Proof. reflexivity. Qed.

Example date_range_empty : date_range 5 4 = [].
Proof. reflexivity. Qed.

Example whitelist_california :
  fst (get_regions california None) = Ok ["California"].
Proof. vm_compute. reflexivity. Qed.

(** The dashboard's table on the twelve-day California catalog: today and
    the three days after it; the wider view starts seven days back. *)
Example forecast_earthquakes_days :
  result_map (map Date) (fst (forecast_earthquakes today california sqrt model None))
  = Ok [20011; 20012; 20013; 20014].
Proof. vm_compute. reflexivity. Qed.

Example get_forecast_days :
  result_map (map Date)
    (fst (get_forecast today california sqrt model (Some "California") None))
  = Ok (date_range (today - 7) (today + 3)).
Proof. vm_compute. reflexivity. Qed.

Example get_forecast_predictions :
  result_map (map Magnitude_Forecast)
    (fst (forecast_earthquakes today california sqrt model None))
  = Ok [Some (2 # 1)%Q; Some (2 # 1)%Q; Some (2 # 1)%Q; Some (2 # 1)%Q].
Proof. vm_compute. reflexivity. Qed.

Example empty_table_raises :
  fst (get_forecast today [] sqrt model None None) = Raise KeyError.
Proof. reflexivity. Qed.

End Examples.

(** ** Days and indexes *)

Lemma date_range_nil (a b : Z) : b < a -> date_range a b = [].
Proof.
  intros H. unfold date_range.
  replace (Z.to_nat (b - a + 1)) with 0%nat by lia. reflexivity.
Qed.

Lemma date_range_cons (a b : Z) :
  a <= b -> date_range a b = a :: date_range (a + 1) b.
Proof.
  intros H. unfold date_range.
  replace (Z.to_nat (b - a + 1)) with (S (Z.to_nat (b - (a + 1) + 1))) by lia.
  cbn [seq map]. f_equal; [lia|].
  rewrite <- seq_shift, map_map.
  apply map_ext. intros k. lia.
Qed.

Lemma date_range_length (a b : Z) :
  List.length (date_range a b) = Z.to_nat (b - a + 1).
Proof. unfold date_range. now rewrite length_map, length_seq. Qed.

Lemma date_range_In (a b d : Z) : In d (date_range a b) <-> a <= d <= b.
Proof.
  unfold date_range. rewrite in_map_iff. split.
  - intros (k & <- & Hk). apply in_seq in Hk. lia.
  - intros H. exists (Z.to_nat (d - a)). split; [lia|]. apply in_seq. lia.
Qed.

Lemma seq_offset (s n : nat) :
  seq s n = map (fun k => (s + k)%nat) (seq 0 n).
Proof.
  induction n as [|n IH] in s |- *; [reflexivity|].
  cbn [seq map]. f_equal; [lia|].
  rewrite (IH (S s)), <- (seq_shift n 0), map_map.
  apply map_ext. intros k. lia.
Qed.

Lemma date_range_app (a m b : Z) :
  a <= m + 1 -> m <= b ->
  date_range a b = date_range a m ++ date_range (m + 1) b.
Proof.
  intros H1 H2. unfold date_range.
  replace (Z.to_nat (b - a + 1))
    with (Z.to_nat (m - a + 1) + Z.to_nat (b - (m + 1) + 1))%nat by lia.
  rewrite seq_app, map_app. f_equal. cbn [Nat.add].
  rewrite (seq_offset (Z.to_nat (m - a + 1))), map_map.
  apply map_ext. intros k. lia.
Qed.

Lemma date_range_nth_error (a b : Z) (n : nat) :
  nth_error (date_range a b) n =
  if (n <? Z.to_nat (b - a + 1))%nat then Some (a + Z.of_nat n) else None.
Proof.
  unfold date_range.
  destruct (Nat.ltb_spec n (Z.to_nat (b - a + 1))) as [H|H].
  - rewrite nth_error_map, nth_error_nth' with (d := 0%nat) by now rewrite length_seq.
    rewrite seq_nth by assumption. reflexivity.
  - apply nth_error_None. now rewrite length_map, length_seq.
Qed.

Lemma fold_min_spec (d : Z) (ds : list Z) :
  In (fold_right Z.min d ds) (d :: ds)
  /\ forall x, In x (d :: ds) -> fold_right Z.min d ds <= x.
Proof.
  induction ds as [|y ds [IH1 IH2]]; cbn [fold_right].
  - split; [now left|]. intros x [<-|[]]. lia.
  - split.
    + destruct (Z.min_spec y (fold_right Z.min d ds)) as [[_ ->]|[_ ->]].
      * right; now left.
      * destruct IH1 as [H|H]; [now left | right; now right].
    + intros x [<-|[<-|H]].
      * specialize (IH2 d (or_introl eq_refl)). lia.
      * lia.
      * specialize (IH2 x (or_intror H)). lia.
Qed.

Lemma fold_max_spec (d : Z) (ds : list Z) :
  In (fold_right Z.max d ds) (d :: ds)
  /\ forall x, In x (d :: ds) -> x <= fold_right Z.max d ds.
Proof.
  induction ds as [|y ds [IH1 IH2]]; cbn [fold_right].
  - split; [now left|]. intros x [<-|[]]. lia.
  - split.
    + destruct (Z.max_spec y (fold_right Z.max d ds)) as [[_ ->]|[_ ->]].
      * destruct IH1 as [H|H]; [now left | right; now right].
      * right; now left.
    + intros x [<-|[<-|H]].
      * specialize (IH2 d (or_introl eq_refl)). lia.
      * lia.
      * specialize (IH2 x (or_intror H)). lia.
Qed.

Lemma index_min_None (df : list Row) : index_min df = None <-> df = [].
Proof.
  unfold index_min. destruct df; cbn [map]; split; congruence.
Qed.

Lemma index_min_Some (df : list Row) (m : Z) :
  index_min df = Some m <->
  In m (map index df) /\ forall d, In d (map index df) -> m <= d.
Proof.
  unfold index_min. destruct (map index df) as [|d ds].
  - split; [discriminate | intros [[] _]].
  - destruct (fold_min_spec d ds) as [H1 H2]. split.
    + intros [= <-]. split; assumption.
    + intros [H3 H4]. f_equal.
      specialize (H2 m H3). specialize (H4 _ H1). lia.
Qed.

Lemma index_min_range (df : list Row) (a b : Z) :
  map index df = date_range a b -> a <= b -> index_min df = Some a.
Proof.
  intros H Hab. apply index_min_Some. rewrite H. split.
  - apply date_range_In. lia.
  - intros d Hd. apply date_range_In in Hd. lia.
Qed.

Lemma find_range (L : list Row) (a b d : Z) :
  map index L = date_range a b ->
  find (fun r => index r =? d) L =
  if (a <=? d) && (d <=? b) then nth_error L (Z.to_nat (d - a)) else None.
Proof.
  induction L as [|r L IH] in a |- *; intros H.
  - destruct ((a <=? d) && (d <=? b)); [|reflexivity].
    now rewrite nth_error_nil.
  - destruct (Z_lt_le_dec b a) as [Hlt|Hle].
    { rewrite date_range_nil in H by assumption. discriminate. }
    rewrite date_range_cons in H by assumption.
    cbn [map] in H. injection H as Hr HL.
    cbn [find]. destruct (Z.eqb_spec (index r) d) as [Heq|Hne].
    + subst d. rewrite Hr, Z.leb_refl, Z.sub_diag.
      destruct (Z.leb_spec a b); [reflexivity | lia].
    + rewrite (IH _ HL).
      destruct (Z.leb_spec (a + 1) d), (Z.leb_spec a d), (Z.leb_spec d b);
        cbn [andb]; try reflexivity; try lia.
      replace (Z.to_nat (d - a)) with (S (Z.to_nat (d - (a + 1)))) by lia.
      reflexivity.
Qed.

Lemma df_reindex_index (df : list Row) (days : list Z) :
  map index (df_reindex df days) = days.
Proof.
  unfold df_reindex. rewrite map_map.
  rewrite <- (map_id days) at 2. apply map_ext. intros d.
  destruct (find _ df) as [r|] eqn:E; [|reflexivity].
  apply find_some in E. now apply Z.eqb_eq.
Qed.

Lemma df_reindex_app (df : list Row) (l1 l2 : list Z) :
  df_reindex df (l1 ++ l2) = df_reindex df l1 ++ df_reindex df l2.
Proof. apply map_app. Qed.

Lemma df_reindex_self (L : list Row) (a b : Z) :
  map index L = date_range a b -> df_reindex L (date_range a b) = L.
Proof.
  intros H. apply nth_error_ext. intros n.
  unfold df_reindex. rewrite nth_error_map, date_range_nth_error.
  assert (Hlen : List.length L = Z.to_nat (b - a + 1)).
  { rewrite <- (length_map index), H. apply date_range_length. }
  destruct (Nat.ltb_spec n (Z.to_nat (b - a + 1))) as [Hn|Hn]; cbn [option_map].
  - rewrite (find_range L a b _ H).
    destruct (Z.leb_spec a (a + Z.of_nat n)), (Z.leb_spec (a + Z.of_nat n) b);
      try lia. cbn [andb].
    replace (Z.to_nat (a + Z.of_nat n - a)) with n by lia.
    destruct (nth_error L n) eqn:E; [reflexivity|].
    apply nth_error_None in E. lia.
  - symmetry. apply nth_error_None. lia.
Qed.

Lemma df_reindex_outside (L : list Row) (days : list Z) :
  (forall r d, In r L -> In d days -> index r <> d) ->
  df_reindex L days = map nan_row days.
Proof.
  intros H. unfold df_reindex. apply map_ext_in. intros d Hd.
  destruct (find _ L) as [r|] eqn:E; [|reflexivity].
  apply find_some in E. destruct E as [Hr E]. apply Z.eqb_eq in E.
  now destruct (H r d Hr Hd).
Qed.

Lemma df_reindex_cases (L : list Row) (days : list Z) (x : Row) :
  In x (df_reindex L days) ->
  In x L \/ (x = nan_row (index x) /\ forall r, In r L -> index r <> index x).
Proof.
  unfold df_reindex. intros H. apply in_map_iff in H. destruct H as (d & <- & _).
  destruct (find _ L) as [r|] eqn:E.
  - left. now apply find_some in E.
  - right. split; [reflexivity|]. cbn [nan_row index].
    intros r Hr. specialize (find_none _ _ E r Hr). cbn beta.
    intros H. now apply Z.eqb_neq in H.
Qed.

(** ** Forward fill *)

Lemma last_cons {A} (a d : A) (l : list A) : last (a :: l) d = last l a.
Proof.
  induction l as [|b l IH] in a, d |- *; [reflexivity|].
  change (last (a :: b :: l) d) with (last (b :: l) d).
  now rewrite (IH b d), (IH b a).
Qed.

Section Fill.
Variable step : Row -> Row -> Row.
Hypothesis step_index : forall p c, index (step p c) = index c.
Hypothesis step_region : forall p c, region (step p c) = orelse (region c) (region p).

Lemma ffill_from_index (p : Row) (l : list Row) :
  map index (ffill_from step p l) = map index l.
Proof.
  induction l as [|r l IH] in p |- *; [reflexivity|].
  cbn [ffill_from map]. now rewrite step_index, IH.
Qed.

Lemma ffill_with_index (l : list Row) :
  map index (ffill_with step l) = map index l.
Proof.
  destruct l as [|r l]; [reflexivity|].
  cbn [ffill_with map]. now rewrite ffill_from_index.
Qed.

Lemma ffill_from_app (p : Row) (l1 l2 : list Row) :
  ffill_from step p (l1 ++ l2) =
  ffill_from step p l1 ++ ffill_from step (last (ffill_from step p l1) p) l2.
Proof.
  induction l1 as [|r l1 IH] in p |- *; [reflexivity|].
  cbn [ffill_from app]. rewrite IH. f_equal. f_equal. f_equal.
  now rewrite last_cons.
Qed.

Lemma ffill_with_app (d : Row) (l1 l2 : list Row) :
  l1 <> [] ->
  ffill_with step (l1 ++ l2) =
  ffill_with step l1 ++ ffill_from step (last (ffill_with step l1) d) l2.
Proof.
  destruct l1 as [|r l1]; [congruence|]. intros _.
  cbn [ffill_with app]. rewrite ffill_from_app. f_equal. f_equal. f_equal.
  now rewrite last_cons.
Qed.

Lemma ffill_from_region (k : string) (p : Row) (l : list Row) :
  region p = Some k ->
  (forall r, In r l -> region r = Some k \/ region r = None) ->
  forall r, In r (ffill_from step p l) -> region r = Some k.
Proof.
  induction l as [|x l IH] in p |- *; intros Hp Hl r Hr; [destruct Hr|].
  cbn [ffill_from] in Hr.
  assert (Hx : region (step p x) = Some k).
  { rewrite step_region.
    destruct (Hl x (or_introl eq_refl)) as [-> | ->]; [reflexivity | exact Hp]. }
  destruct Hr as [<-|Hr]; [exact Hx|].
  apply (IH (step p x)); auto. intros y Hy. apply Hl. now right.
Qed.

Lemma ffill_with_region (k : string) (l : list Row) :
  (forall x t, l = x :: t -> region x = Some k) ->
  (forall r, In r l -> region r = Some k \/ region r = None) ->
  forall r, In r (ffill_with step l) -> region r = Some k.
Proof.
  destruct l as [|x l]; intros H1 H2 r Hr; [destruct Hr|].
  cbn [ffill_with] in Hr. destruct Hr as [<-|Hr]; [now apply (H1 x l)|].
  apply (ffill_from_region k x l); auto.
  - now apply (H1 x l).
  - intros y Hy. apply H2. now right.
Qed.

(** Over the all-NaN rows of new days, the label of the row above is
    carried along. *)
Lemma ffill_from_nan_region (p : Row) (ds : list Z) :
  forall r, In r (ffill_from step p (map nan_row ds)) -> region r = region p.
Proof.
  induction ds as [|d ds IH] in p |- *; intros r Hr; [destruct Hr|].
  cbn [map ffill_from] in Hr.
  assert (H : region (step p (nan_row d)) = region p) by now rewrite step_region.
  destruct Hr as [<-|Hr]; [exact H|].
  rewrite <- H. now apply IH.
Qed.
End Fill.

Lemma fill_index (p c : Row) : index (fill p c) = index c.
Proof. reflexivity. Qed.

Lemma fill_region_index (p c : Row) : index (fill_region p c) = index c.
Proof. reflexivity. Qed.

Lemma fill_label (p c : Row) : region (fill p c) = orelse (region c) (region p).
Proof. reflexivity. Qed.

Lemma fill_region_label (p c : Row) :
  region (fill_region p c) = orelse (region c) (region p).
Proof. reflexivity. Qed.

Lemma orelse_idem {A} (a b : option A) : orelse (orelse a b) b = orelse a b.
Proof. destruct a, b; reflexivity. Qed.

Lemma ffill_from_idem (p : Row) (l : list Row) :
  ffill_from fill p (ffill_from fill p l) = ffill_from fill p l.
Proof.
  induction l as [|r l IH] in p |- *; [reflexivity|].
  cbn [ffill_from].
  assert (H : fill p (fill p r) = fill p r).
  { unfold fill; cbn [index region mag depth latitude longitude].
    now rewrite !orelse_idem. }
  now rewrite H, IH.
Qed.

Lemma ffill_idem (l : list Row) : ffill (ffill l) = ffill l.
Proof.
  destruct l as [|r l]; [reflexivity|].
  unfold ffill. cbn [ffill_with]. f_equal.
  induction l as [|x l IH] in r |- *; [reflexivity|].
  cbn [ffill_from].
  assert (H : fill r (fill r x) = fill r x).
  { unfold fill; cbn [index region mag depth latitude longitude].
    now rewrite !orelse_idem. }
  rewrite H. f_equal. apply ffill_from_idem.
Qed.

Lemma fill_region_labelled (p r : Row) :
  region r <> None -> fill_region p r = r.
Proof.
  destruct r as [i [k|] m d la lo]; cbn; intros H; [reflexivity | congruence].
Qed.

Lemma ffill_region_labelled (l : list Row) :
  (forall r, In r l -> region r <> None) -> ffill_region l = l.
Proof.
  destruct l as [|x l]; [reflexivity|]. intros H.
  unfold ffill_region. cbn [ffill_with]. f_equal.
  assert (Hl : forall r, In r l -> region r <> None) by (intros; apply H; now right).
  clear H. induction l as [|y l IH] in x, Hl |- *; [reflexivity|].
  cbn [ffill_from]. rewrite fill_region_labelled by (apply Hl; now left).
  f_equal. apply IH. intros; apply Hl; now right.
Qed.

(** Rows that a forward fill creates for new days repeat the row above
    (all columns), or stay empty (label-only fill). *)
Lemma ffill_from_nan_fill (p : Row) (ds : list Z) (r : Row) :
  In r (ffill_from fill p (map nan_row ds)) ->
  In (index r) ds /\ region r = region p /\ mag r = mag p /\ depth r = depth p
  /\ latitude r = latitude p /\ longitude r = longitude p.
Proof.
  induction ds as [|d ds IH] in p |- *; intros Hr; [destruct Hr|].
  cbn [map ffill_from] in Hr. destruct Hr as [<-|Hr].
  - cbn. repeat split; auto.
  - apply IH in Hr. cbn in Hr. destruct Hr as (H0 & H1 & H2 & H3 & H4 & H5).
    repeat split; auto. now right.
Qed.

Lemma ffill_from_nan_fill_region (p : Row) (ds : list Z) (r : Row) :
  In r (ffill_from fill_region p (map nan_row ds)) ->
  In (index r) ds /\ region r = region p /\ mag r = None /\ depth r = None
  /\ latitude r = None /\ longitude r = None.
Proof.
  induction ds as [|d ds IH] in p |- *; intros Hr; [destruct Hr|].
  cbn [map ffill_from] in Hr. destruct Hr as [<-|Hr].
  - cbn. repeat split; auto.
  - apply IH in Hr. cbn in Hr. destruct Hr as (H0 & H1 & H2 & H3 & H4 & H5).
    repeat split; auto. now right.
Qed.

(** Once a column has a value, every later row of a forward-filled frame
    has one. *)
Section FillColumn.
Variable col : Row -> option Q.
Hypothesis col_fill : forall p c, col (fill p c) = orelse (col c) (col p).

Lemma ffill_from_present (p : Row) (l : list Row) :
  col p <> None -> forall z, In z (ffill_from fill p l) -> col z <> None.
Proof.
  induction l as [|r l IH] in p |- *; intros Hp z Hz; [destruct Hz|].
  cbn [ffill_from] in Hz.
  assert (H : col (fill p r) <> None).
  { rewrite col_fill. destruct (col r); [discriminate | exact Hp]. }
  destruct Hz as [<-|Hz]; [exact H|]. now apply (IH (fill p r)).
Qed.

Lemma ffill_from_monotone (p : Row) (l l1 l2 : list Row) (y : Row) :
  ffill_from fill p l = l1 ++ y :: l2 ->
  col y <> None -> forall z, In z l2 -> col z <> None.
Proof.
  induction l as [|r l IH] in p, l1 |- *; intros E Hy z Hz.
  - destruct l1; discriminate.
  - cbn [ffill_from] in E. destruct l1 as [|x l1]; cbn [app] in E.
    + injection E as E1 E2. subst y l2.
      now apply (ffill_from_present (fill p r) l).
    + injection E as _ E2. now apply (IH (fill p r) l1).
Qed.

Lemma ffill_monotone (l l1 l2 : list Row) (y : Row) :
  ffill l = l1 ++ y :: l2 ->
  col y <> None -> forall z, In z l2 -> col z <> None.
Proof.
  destruct l as [|r l]; intros E Hy z Hz.
  - destruct l1; discriminate.
  - unfold ffill in E. cbn [ffill_with] in E.
    destruct l1 as [|x l1]; cbn [app] in E.
    + injection E as E1 E2. subst y l2.
      now apply (ffill_from_present r l).
    + injection E as _ E2. now apply (ffill_from_monotone r l l1 l2 y).
Qed.
End FillColumn.

(** ** Sorting and group keys *)

Lemma insert_perm {A} (le : A -> A -> bool) (x : A) (l : list A) :
  Permutation (insert le x l) (x :: l).
Proof.
  induction l as [|y l IH]; cbn [insert]; [reflexivity|].
  destruct (le x y); [reflexivity|].
  rewrite IH. apply perm_swap.
Qed.

Lemma sort_perm {A} (le : A -> A -> bool) (l : list A) :
  Permutation (sort le l) l.
Proof.
  induction l as [|x l IH]; cbn; [reflexivity|].
  unfold sort in IH. now rewrite insert_perm, IH.
Qed.

Lemma present_In {A} (a : A) (l : list (option A)) :
  In a (present l) <-> In (Some a) l.
Proof.
  unfold present. rewrite in_flat_map. split.
  - intros ([b|] & H1 & H2); [|destruct H2].
    destruct H2 as [<-|[]]. exact H1.
  - intros H. exists (Some a). split; [exact H | now left].
Qed.

Lemma group_keys_In (k : string) (labels : list (option string)) :
  In k (group_keys labels) <-> In (Some k) labels.
Proof.
  unfold group_keys. split; intros H.
  - apply present_In, (nodup_In string_dec).
    exact (Permutation_in _ (sort_perm _ _) H).
  - apply (Permutation_in (l := nodup string_dec (present labels))).
    + symmetry. apply sort_perm.
    + now apply nodup_In, present_In.
Qed.

Lemma group_keys_NoDup (labels : list (option string)) :
  NoDup (group_keys labels).
Proof.
  unfold group_keys.
  apply (Permutation_NoDup (l := nodup string_dec (present labels))).
  - symmetry. apply sort_perm.
  - apply NoDup_nodup.
Qed.

Lemma region_is_true (k : string) (r : option string) :
  region_is k r = true <-> r = Some k.
Proof.
  destruct r as [s|]; cbn; [|split; discriminate].
  rewrite String.eqb_eq. split; congruence.
Qed.

Lemma rows_of_In (k : string) (df : list Row) (r : Row) :
  In r (rows_of k df) <-> In r df /\ region r = Some k.
Proof. unfold rows_of. now rewrite filter_In, region_is_true. Qed.

Lemma rows_of_all (k : string) (df : list Row) :
  (forall r, In r df -> region r = Some k) -> rows_of k df = df.
Proof.
  intros H. apply forallb_filter_id. apply forallb_forall.
  intros r Hr. apply region_is_true. auto.
Qed.

Lemma rows_of_none (k : string) (df : list Row) :
  (forall r, In r df -> region r <> Some k) -> rows_of k df = [].
Proof.
  intros H. unfold rows_of. induction df as [|r df IH]; [reflexivity|].
  cbn [filter]. destruct (region_is k (region r)) eqn:E.
  - apply region_is_true in E. destruct (H r (or_introl eq_refl) E).
  - apply IH. intros; apply H; now right.
Qed.

Lemma rows_of_keys (k : string) (df : list Row) :
  rows_of k df <> [] <-> In k (group_keys (map region df)).
Proof.
  rewrite group_keys_In, in_map_iff. split.
  - intros H. destruct (rows_of k df) as [|r l] eqn:E; [congruence|].
    assert (Hr : In r (rows_of k df)) by (rewrite E; now left).
    apply rows_of_In in Hr. exists r. tauto.
  - intros (r & H1 & H2) E.
    assert (Hr : In r (rows_of k df)) by now apply rows_of_In.
    rewrite E in Hr. destruct Hr.
Qed.

(** ** Grouped application *)

Lemma result_map_app_ok (g : list Row) (r : result (list Row)) (l : list Row) :
  r = Ok l -> result_map (app g) r = Ok (g ++ l).
Proof. now intros ->. Qed.

Lemma groupby_apply_ok (f : list Row -> result (list Row))
    (g : string -> list Row) (df : list Row) :
  (forall k, In k (group_keys (map region df)) -> f (rows_of k df) = Ok (g k)) ->
  groupby_apply f df = Ok (flat_map g (group_keys (map region df))).
Proof.
  unfold groupby_apply. generalize (group_keys (map region df)) as ks.
  induction ks as [|k ks IH]; intros H; [reflexivity|].
  cbn [fold_right flat_map]. rewrite (H k (or_introl eq_refl)).
  apply result_map_app_ok. apply IH. intros; apply H; now right.
Qed.

Lemma rows_of_app (k : string) (l1 l2 : list Row) :
  rows_of k (l1 ++ l2) = rows_of k l1 ++ rows_of k l2.
Proof. apply filter_app. Qed.

Lemma rows_of_flat_map (g : string -> list Row) (ks : list string) (R : string) :
  NoDup ks ->
  (forall k r, In k ks -> In r (g k) -> region r = Some k) ->
  rows_of R (flat_map g ks) = if in_dec string_dec R ks then g R else [].
Proof.
  induction ks as [|k ks IH]; intros Hnd Hg; [reflexivity|].
  inversion Hnd as [|? ? Hk Hks]; subst.
  cbn [flat_map]. rewrite rows_of_app, IH; auto.
  2:{ intros k' r Hk' Hr. apply (Hg k' r); [now right | exact Hr]. }
  destruct (string_dec k R) as [->|Hne].
  - rewrite rows_of_all by (intros r Hr; apply (Hg R r); [now left | exact Hr]).
    destruct (in_dec string_dec R ks) as [Hin|_]; [contradiction|].
    destruct (in_dec string_dec R (R :: ks)) as [_|Hn]; [apply app_nil_r|].
    destruct Hn. now left.
  - rewrite rows_of_none.
    2:{ intros r Hr E. rewrite (Hg k r (or_introl eq_refl) Hr) in E. congruence. }
    cbn [app].
    destruct (in_dec string_dec R ks) as [Hin|Hn],
             (in_dec string_dec R (k :: ks)) as [Hin'|Hn']; try reflexivity.
    + destruct Hn'. now right.
    + destruct Hin' as [E|E]; [congruence | contradiction].
Qed.

Lemma rows_of_filter_isin (R : string) (regions : list string) (df : list Row) :
  rows_of R (filter (fun r => isin (region r) regions) df) =
  if isin (Some R) regions then rows_of R df else [].
Proof.
  unfold rows_of. induction df as [|r df IH].
  - now destruct (isin (Some R) regions).
  - cbn [filter].
    destruct (region_is R (region r)) eqn:E.
    + apply region_is_true in E. rewrite E.
      destruct (isin (Some R) regions) eqn:Ei.
      * cbn [filter]. rewrite E. cbn [region_is]. rewrite String.eqb_refl.
        f_equal. exact IH.
      * exact IH.
    + destruct (isin (region r) regions); [cbn [filter]; rewrite E|]; exact IH.
Qed.

(** ** The memoised query *)

Section Memo.
Variable usgs : list RawEvent.

Lemma get_recent_earthquakes_run (c : Cache) :
  get_recent_earthquakes usgs c = (Ok (cached usgs c), warm usgs c).
Proof. now destruct c. Qed.

Lemma get_regions_cache (c : Cache) :
  snd (get_regions usgs c) = warm usgs c.
Proof.
  unfold get_regions, bind, lift, ret. rewrite get_recent_earthquakes_run.
  now destruct (Canon.regions_of _).
Qed.

Lemma get_regions_warm (c : Cache) :
  get_regions usgs (warm usgs c) = get_regions usgs c.
Proof.
  unfold get_regions, bind. now rewrite !get_recent_earthquakes_run.
Qed.

Lemma get_regions_run (c c' : Cache) (r : result (list string)) :
  get_regions usgs c = (r, c') ->
  c' = warm usgs c /\ get_regions usgs c' = (r, c').
Proof.
  intros H. pose proof (get_regions_cache c) as Hc. rewrite H in Hc.
  cbn in Hc. subst c'. split; [reflexivity|].
  now rewrite get_regions_warm.
Qed.
End Memo.

Lemma bind_Ok {A B} (m : M A) (f : A -> M B) (c c' : Cache) (b : B) :
  bind m f c = (Ok b, c') ->
  exists a c1, m c = (Ok a, c1) /\ f a c1 = (Ok b, c').
Proof.
  unfold bind. destruct (m c) as [[a|e] c1]; [|discriminate].
  intros H. now exists a, c1.
Qed.

Lemma lift_Ok {A} (r : result A) (c c' : Cache) (a : A) :
  lift r c = (Ok a, c') -> r = Ok a /\ c' = c.
Proof. unfold lift. intros [= -> ->]. auto. Qed.

(** ** One group on the daily grid *)

Section Grid.
Variable today : Z.

Lemma grid_eq (delta : Z) (G : list Row) (m : Z) :
  index_min G = Some m ->
  reindex today G delta = Ok (grid today delta G)
  /\ grid today delta G = ffill (df_reindex G (date_range m (today + delta))).
Proof. unfold grid, reindex. now intros ->. Qed.

Lemma grid_nil (delta : Z) : grid today delta [] = [].
Proof. reflexivity. Qed.

Lemma grid_index (delta : Z) (G : list Row) (m : Z) :
  index_min G = Some m ->
  map index (grid today delta G) = date_range m (today + delta).
Proof.
  intros H. destruct (grid_eq delta G m H) as [_ ->].
  unfold ffill. rewrite (ffill_with_index fill fill_index).
  apply df_reindex_index.
Qed.

Lemma find_index_Some (G : list Row) (m : Z) :
  In m (map index G) ->
  exists r, find (fun r => index r =? m) G = Some r /\ In r G.
Proof.
  intros H. apply in_map_iff in H. destruct H as (x & Hx & Hin).
  destruct (find (fun r => index r =? m) G) as [r|] eqn:E.
  - exists r. split; [reflexivity|]. now apply find_some in E.
  - specialize (find_none _ _ E x Hin). cbn beta. rewrite Hx, Z.eqb_refl.
    discriminate.
Qed.

(** Reindexing a group from its own first day keeps the group's label
    in every row: the first row is a row of the group, and the fill
    carries its label into the rows of the new days. *)
Lemma reindexed_region (step : Row -> Row -> Row) (G : list Row) (k : string)
    (m e : Z) :
  (forall p c, region (step p c) = orelse (region c) (region p)) ->
  (forall r, In r G -> region r = Some k) ->
  index_min G = Some m ->
  forall r, In r (ffill_with step (df_reindex G (date_range m e))) ->
            region r = Some k.
Proof.
  intros Hstep HG Hm. apply index_min_Some in Hm. destruct Hm as [Hm _].
  apply ffill_with_region; [exact Hstep | |].
  - intros x t E.
    destruct (Z_lt_le_dec e m) as [Hlt|Hle].
    { rewrite date_range_nil in E by assumption. discriminate. }
    rewrite date_range_cons in E by assumption.
    unfold df_reindex in E. cbn [map] in E. injection E as E _.
    destruct (find_index_Some G m Hm) as (r & Hr & Hin).
    rewrite Hr in E. subst x. now apply HG.
  - intros r Hr. apply df_reindex_cases in Hr.
    destruct Hr as [Hr|[Hr _]]; [left; now apply HG | right].
    now rewrite Hr.
Qed.

Lemma grid_region (delta : Z) (G : list Row) (k : string) :
  (forall r, In r G -> region r = Some k) ->
  forall r, In r (grid today delta G) -> region r = Some k.
Proof.
  intros HG r Hr. destruct (index_min G) as [m|] eqn:Hm.
  - destruct (grid_eq delta G m Hm) as [_ E]. rewrite E in Hr.
    now apply (reindexed_region fill G k m (today + delta) fill_label HG Hm).
  - apply index_min_None in Hm. subst G. destruct Hr.
Qed.

Lemma grid_filled (delta : Z) (G : list Row) :
  ffill (grid today delta G) = grid today delta G.
Proof.
  destruct (index_min G) as [m|] eqn:Hm.
  - destruct (grid_eq delta G m Hm) as [_ ->]. apply ffill_idem.
  - apply index_min_None in Hm. now subst G.
Qed.

(** [groupby(...).apply(reindex)] never raises, and the rows of a region
    in its result are the grid of the region's group. *)
Lemma groupby_apply_reindex (delta : Z) (df : list Row) :
  exists out,
    groupby_apply (fun group => reindex today group delta) df = Ok out
    /\ (forall R, rows_of R out = grid today delta (rows_of R df))
    /\ (forall r, In r out -> exists k, region r = Some k).
Proof.
  exists (flat_map (fun k => grid today delta (rows_of k df))
                   (group_keys (map region df))).
  split; [|split].
  - apply groupby_apply_ok. intros k Hk. apply rows_of_keys in Hk.
    destruct (index_min (rows_of k df)) as [m|] eqn:Hm.
    + now destruct (grid_eq delta _ m Hm).
    + apply index_min_None in Hm. contradiction.
  - intros R. rewrite rows_of_flat_map.
    + destruct (in_dec string_dec R _) as [_|Hn]; [reflexivity|].
      assert (E : rows_of R df = []).
      { destruct (rows_of R df) eqn:E; [reflexivity|].
        destruct Hn. apply rows_of_keys. congruence. }
      now rewrite E.
    + apply group_keys_NoDup.
    + intros k r _ Hr. apply (grid_region delta (rows_of k df) k); [|exact Hr].
      intros x Hx. now apply rows_of_In in Hx.
  - intros r Hr. apply in_flat_map in Hr. destruct Hr as (k & _ & Hr).
    exists k. apply (grid_region delta (rows_of k df) k); [|exact Hr].
    intros x Hx. now apply rows_of_In in Hx.
Qed.

(** Extending a dense group by [n] days keeps its rows and appends the
    filled rows of the new days. *)
Lemma extend_dense (step : Row -> Row -> Row) (R : string) (first n : Z)
    (G : list Row) :
  dense today R first G -> 0 <= n ->
  ffill_with step G = G ->
  ffill_with step (df_reindex G (date_range first (today + n))) =
  G ++ ffill_from step (last G (nan_row 0))
         (map nan_row (date_range (today + 1) (today + n))).
Proof.
  intros (Hidx & Hle & Hreg & _) Hn Hstep.
  rewrite (date_range_app first today (today + n)) by lia.
  rewrite df_reindex_app, (df_reindex_self G first today Hidx).
  rewrite df_reindex_outside.
  2:{ intros r d Hr Hd E. apply date_range_In in Hd.
      assert (Hi : In (index r) (map index G)) by now apply in_map.
      rewrite Hidx in Hi. apply date_range_In in Hi. lia. }
  assert (HG : G <> []).
  { intros ->. rewrite date_range_cons in Hidx by assumption. discriminate. }
  rewrite (ffill_with_app step (nan_row 0)) by assumption.
  now rewrite Hstep.
Qed.

Lemma dense_index_min (R : string) (first : Z) (G : list Row) :
  dense today R first G -> index_min G = Some first.
Proof. intros (Hidx & Hle & _). now apply (index_min_range G first today). Qed.

Lemma dense_last (R : string) (first : Z) (G : list Row) :
  dense today R first G ->
  In (last G (nan_row 0)) G /\ index (last G (nan_row 0)) = today.
Proof.
  intros (Hidx & Hle & _).
  assert (HG : G <> []).
  { intros ->. rewrite date_range_cons in Hidx by assumption. discriminate. }
  destruct (exists_last HG) as (G' & y & ->).
  rewrite last_last. split; [apply in_or_app; right; now left|].
  assert (E : nth_error (map index (G' ++ [y])) (List.length G') = Some (index y)).
  { rewrite nth_error_map, nth_error_app2, Nat.sub_diag by lia. reflexivity. }
  rewrite Hidx, date_range_nth_error in E.
  assert (Hlen : List.length (G' ++ [y]) = Z.to_nat (today - first + 1)).
  { rewrite <- (length_map index), Hidx. apply date_range_length. }
  rewrite length_app in Hlen. cbn in Hlen.
  destruct (Nat.ltb_spec (List.length G') (Z.to_nat (today - first + 1)));
    [|lia].
  injection E as E. lia.
Qed.

Lemma grid_dense (R : string) (G : list Row) (first : Z) :
  (forall r, In r G -> region r = Some R) ->
  index_min G = Some first -> first <= today ->
  dense today R first (grid today 0 G).
Proof.
  intros HG Hm Hle. repeat split.
  - rewrite (grid_index 0 G first Hm). now rewrite Z.add_0_r.
  - exact Hle.
  - now apply grid_region.
  - apply grid_filled.
Qed.

Lemma grid_empty (G : list Row) (first delta : Z) :
  index_min G = Some first -> today + delta < first -> grid today delta G = [].
Proof.
  intros Hm Hlt. apply map_eq_nil with (f := index).
  rewrite (grid_index delta G first Hm). now apply date_range_nil.
Qed.
End Grid.

(** ** Daily means *)

Lemma combine_map {A B} (f : A -> B) (l : list A) :
  combine l (map f l) = map (fun a => (a, f a)) l.
Proof. induction l as [|a l IH]; cbn; [reflexivity | now rewrite IH]. Qed.

Lemma labelled_In (df : list RawEvent) (e : RawEvent) (l : option string) :
  In (e, l) (labelled df) <-> In e df /\ l = label e.
Proof.
  unfold labelled. rewrite combine_map. split.
  - intros H. apply (Permutation_in _ (sort_perm _ _)) in H.
    apply in_map_iff in H. destruct H as (a & [= -> ->] & Ha). auto.
  - intros [H ->]. apply (Permutation_in (l := map (fun a => (a, label a)) df)).
    + symmetry. apply sort_perm.
    + apply in_map_iff. now exists e.
Qed.

Lemma daily_means_eq (df : list RawEvent) :
  daily_means df =
  if some_delim df then Ok (groupby_resample_mean (labelled df)) else Raise KeyError.
Proof.
  unfold daily_means, Canon.regions_of, some_delim, labelled, label.
  destruct (existsb _ (map place df)); [|reflexivity].
  cbn [result_map]. now rewrite map_map.
Qed.

Lemma resample_mean_region (k : string) (g : list (RawEvent * option string)) (r : Row) :
  In r (resample_mean k g) -> region r = Some k.
Proof.
  unfold resample_mean. destruct (event_days g); [intros []|].
  intros H. apply in_map_iff in H. now destruct H as (b & <- & _).
Qed.

Lemma resample_mean_index (k : string) (g : list (RawEvent * option string))
    (d : Z) (ds : list Z) :
  event_days g = d :: ds ->
  map index (resample_mean k g) =
  date_range (fold_right Z.min d ds) (fold_right Z.max d ds).
Proof.
  intros E. unfold resample_mean. rewrite E, map_map. cbn [index].
  apply map_id.
Qed.

Lemma events_of_In (k : string) (df : list (RawEvent * option string))
    (e : RawEvent * option string) :
  In e (events_of k df) <-> In e df /\ snd e = Some k.
Proof. unfold events_of. now rewrite filter_In, region_is_true. Qed.

Lemma rows_of_daily_means (R : string) (ev : list (RawEvent * option string)) :
  rows_of R (groupby_resample_mean ev) = resample_mean R (events_of R ev).
Proof.
  unfold groupby_resample_mean. rewrite rows_of_flat_map.
  - destruct (in_dec string_dec R _) as [_|Hn]; [reflexivity|].
    destruct (events_of R ev) as [|e g] eqn:E; [reflexivity|].
    destruct Hn. apply group_keys_In, in_map_iff. exists e.
    assert (He : In e (events_of R ev)) by (rewrite E; now left).
    apply events_of_In in He. tauto.
  - apply group_keys_NoDup.
  - intros k r _. apply resample_mean_region.
Qed.

(** The first day of a region's daily means is the day of its earliest
    event. *)
Lemma daily_means_first (df : list RawEvent) (R : string) :
  rows_of R (groupby_resample_mean (labelled df)) <> [] ->
  exists first,
    earliest_day df R first
    /\ index_min (rows_of R (groupby_resample_mean (labelled df))) = Some first.
Proof.
  rewrite rows_of_daily_means. intros Hne.
  destruct (event_days (events_of R (labelled df))) as [|d ds] eqn:E.
  { unfold resample_mean in Hne. now rewrite E in Hne. }
  destruct (fold_min_spec d ds) as [Hin Hlow].
  destruct (fold_max_spec d ds) as [Hin' Hup].
  exists (fold_right Z.min d ds). split.
  - split.
    + rewrite <- E in Hin. unfold event_days in Hin.
      apply in_map_iff in Hin. destruct Hin as ([e l] & Hd & He).
      apply events_of_In in He. destruct He as [He Hl]. cbn in Hl. subst l.
      apply labelled_In in He. destruct He as [He Hl]. exists e. cbn in Hd.
      repeat split; [exact He | now symmetry | exact Hd].
    + intros e He Hl. apply Hlow. rewrite <- E. unfold event_days.
      apply in_map_iff. exists (e, Some R). split; [reflexivity|].
      apply events_of_In. split; [|reflexivity].
      apply labelled_In. auto.
  - apply (index_min_range _ _ (fold_right Z.max d ds)).
    + now apply resample_mean_index.
    + apply Hup. exact Hin.
Qed.

Lemma daily_means_absent (df : list RawEvent) (R : string) :
  (forall e, In e df -> label e <> Some R) ->
  rows_of R (groupby_resample_mean (labelled df)) = [].
Proof.
  intros H. rewrite rows_of_daily_means.
  destruct (events_of R (labelled df)) as [|[e l] g] eqn:E; [reflexivity|].
  assert (He : In (e, l) (events_of R (labelled df))) by (rewrite E; now left).
  apply events_of_In in He. destruct He as [He Hl]. cbn in Hl. subst l.
  apply labelled_In in He. destruct He as [He Hl]. now destruct (H e He).
Qed.

(** ** The two stages, region by region *)

Section Stages.
Variable today : Z.
Variable usgs : list RawEvent.

Lemma preprocess_all_dense (df : list RawEvent) (c c' : Cache) (g : list Row) :
  preprocess_data today usgs df None c = (Ok g, c') ->
  exists regions,
    get_regions usgs c' = (Ok regions, c')
    /\ (forall r, In r g -> exists k, region r = Some k)
    /\ forall R, rows_of R g <> [] ->
         isin (Some R) regions = true
         /\ exists first, earliest_day df R first
                          /\ dense today R first (rows_of R g).
Proof.
  unfold preprocess_data. intros H.
  apply bind_Ok in H. destruct H as (dm & c0 & Hdm & H).
  apply lift_Ok in Hdm. destruct Hdm as [Hdm ->].
  apply bind_Ok in H. destruct H as (regions & c1 & Hreg & H).
  apply lift_Ok in H. destruct H as [H ->].
  destruct (get_regions_run usgs _ _ _ Hreg) as [_ Hreg'].
  exists regions. split; [exact Hreg'|].
  destruct (groupby_apply_reindex today 0
              (filter (fun r => isin (region r) regions) dm))
    as (out & Hout & Hrows & Hlab).
  rewrite Hout in H. injection H as ->.
  split; [exact Hlab|].
  intros R HR. rewrite Hrows, rows_of_filter_isin in HR |- *.
  destruct (isin (Some R) regions); [|now rewrite grid_nil in HR].
  split; [reflexivity|].
  rewrite daily_means_eq in Hdm.
  destruct (some_delim df); [|discriminate]. injection Hdm as <-.
  destruct (daily_means_first df R) as (first & Hfirst & Hmin).
  { intros E. rewrite E, grid_nil in HR. congruence. }
  exists first. split; [exact Hfirst|].
  apply grid_dense; [|exact Hmin|].
  - intros r Hr. now apply rows_of_In in Hr.
  - destruct (Z_lt_le_dec today first) as [Hlt|Hle]; [|exact Hle].
    rewrite (grid_empty today _ first 0 Hmin) in HR by lia. congruence.
Qed.

Lemma preprocess_single_dense (df : list RawEvent) (rg : string)
    (c c' : Cache) (g : list Row) :
  preprocess_data today usgs df (Some rg) c = (Ok g, c') ->
  c' = c
  /\ (g = [] \/ exists first, earliest_day df rg first /\ dense today rg first g).
Proof.
  unfold preprocess_data. intros H.
  apply bind_Ok in H. destruct H as (dm & c0 & Hdm & H).
  apply lift_Ok in Hdm. destruct Hdm as [Hdm ->].
  destruct (index_min (rows_of rg dm)) as [first|] eqn:Hmin; [|discriminate].
  unfold ret in H. injection H as <- <-. split; [reflexivity|].
  rewrite daily_means_eq in Hdm.
  destruct (some_delim df); [|discriminate]. injection Hdm as <-.
  destruct (daily_means_first df rg) as (first' & Hfirst & Hmin').
  { intros E. rewrite E in Hmin. discriminate. }
  assert (first' = first) by congruence. subst first'.
  destruct (grid_eq today 0 _ first Hmin) as [_ Hg].
  rewrite Z.add_0_r in Hg. rewrite <- Hg.
  destruct (Z_lt_le_dec today first) as [Hlt|Hle].
  - left. apply (grid_empty today _ first 0 Hmin). lia.
  - right. exists first. split; [exact Hfirst|].
    apply grid_dense; [|exact Hmin|exact Hle].
    intros r Hr. now apply rows_of_In in Hr.
Qed.

Lemma dense_nonempty (R : string) (first : Z) (G : list Row) :
  dense today R first G -> G <> [].
Proof.
  intros (Hidx & Hle & _) ->.
  rewrite date_range_cons in Hidx by assumption. discriminate.
Qed.

Lemma horizon_rows_region (region_arg : option string) (R : string) (first : Z)
    (G : list Row) (r : Row) :
  dense today R first G -> In r (horizon_rows today region_arg G) ->
  region r = Some R /\ today < index r.
Proof.
  intros HG Hr. destruct (dense_last today R first G HG) as [Hin Hlast].
  destruct HG as (_ & _ & Hreg & _). unfold horizon_rows in Hr.
  assert (H : In (index r) (date_range (today + 1) (today + 3))
              /\ region r = region (last G (nan_row 0))).
  { destruct region_arg; cbn [horizon_fill] in Hr.
    - apply ffill_from_nan_fill_region in Hr. tauto.
    - apply ffill_from_nan_fill in Hr. tauto. }
  destruct H as [Hd Hl]. apply date_range_In in Hd.
  rewrite Hl, (Hreg _ Hin). split; [reflexivity | lia].
Qed.

(** The extension, region by region: a region absent from the dense
    grid stays absent; the rows of a region present in it are kept and
    followed by the rows of the three new days. *)
Lemma pipeline_extension (df : list RawEvent) (region_arg : option string)
    (c c1 c2 : Cache) (g g' : list Row) :
  preprocess_data today usgs df region_arg c = (Ok g, c1) ->
  extend today usgs g region_arg c1 = (Ok g', c2) ->
  forall R,
    (rows_of R g = [] /\ rows_of R g' = [])
    \/ (exists first,
          earliest_day df R first
          /\ dense today R first (rows_of R g)
          /\ rows_of R g' =
             rows_of R g ++ horizon_rows today region_arg (rows_of R g)).
Proof.
  intros Hp He R. destruct region_arg as [rg|].
  - apply preprocess_single_dense in Hp. destruct Hp as [-> Hg].
    unfold extend in He.
    destruct (index_min g) as [m|] eqn:Hm; [|discriminate].
    unfold ret in He. injection He as <- <-.
    destruct Hg as [->|(first & Hfirst & Hd)]; [discriminate|].
    rewrite (dense_index_min today rg first g Hd) in Hm. injection Hm as <-.
    assert (Hreg : forall r, In r g -> region r = Some rg) by apply Hd.
    assert (E : ffill_region (df_reindex g (date_range first (today + 3))) =
                g ++ horizon_rows today (Some rg) g).
    { apply (extend_dense today fill_region rg first 3 g Hd); [lia|].
      apply ffill_region_labelled. intros r Hr. rewrite (Hreg r Hr). discriminate. }
    rewrite E. destruct (string_dec R rg) as [->|Hne].
    + right. exists first. rewrite (rows_of_all rg g Hreg).
      split; [exact Hfirst|]. split; [exact Hd|].
      apply rows_of_all. intros r Hr. apply in_app_or in Hr.
      destruct Hr as [Hr|Hr]; [now apply Hreg|].
      now apply (horizon_rows_region (Some rg) rg first g r Hd).
    + left. split; apply rows_of_none; intros r Hr Er.
      * rewrite (Hreg r Hr) in Er. congruence.
      * apply in_app_or in Hr. destruct Hr as [Hr|Hr].
        -- rewrite (Hreg r Hr) in Er. congruence.
        -- apply (horizon_rows_region (Some rg) rg first g r Hd) in Hr.
           destruct Hr as [Hr _]. congruence.
  - apply preprocess_all_dense in Hp.
    destruct Hp as (regions & Hreg & _ & Hp).
    unfold extend in He.
    apply bind_Ok in He. destruct He as (regions' & c0 & Hreg' & He).
    rewrite Hreg in Hreg'. injection Hreg' as <- <-.
    apply bind_Ok in He. destruct He as (out & c0 & Hout & He).
    apply lift_Ok in Hout. destruct Hout as [Hout ->].
    destruct (group_keys _); [discriminate|].
    unfold ret in He. injection He as <- <-.
    destruct (groupby_apply_reindex today 3
                (filter (fun r => isin (region r) regions) g))
      as (out' & Hout' & Hrows & _).
    rewrite Hout in Hout'. injection Hout' as <-.
    rewrite Hrows, rows_of_filter_isin.
    destruct (rows_of R g) as [|x G] eqn:EG.
    + left. split; [reflexivity|]. now destruct (isin (Some R) regions).
    + right. destruct (Hp R) as (Hin & first & Hfirst & Hd).
      { rewrite EG. discriminate. }
      rewrite EG in Hd. rewrite Hin.
      exists first. split; [exact Hfirst|]. split; [exact Hd|].
      destruct (grid_eq today 3 _ first (dense_index_min today R first _ Hd))
        as [_ ->].
      apply (extend_dense today fill R first 3 _ Hd); [lia|].
      apply Hd.
Qed.

Lemma create_features_Ok (sqrt : Q -> Q) (g : list Row)
    (region_arg : option string) (c c' : Cache) (fr : list FeatureRow) :
  create_features today usgs sqrt g region_arg c = (Ok fr, c') ->
  exists g', extend today usgs g region_arg c = (Ok g', c')
             /\ fr = add_features sqrt g'.
Proof.
  unfold create_features. intros H.
  apply bind_Ok in H. destruct H as (g' & c0 & He & H).
  unfold ret in H. injection H as <- <-. now exists g'.
Qed.
End Stages.

(** ** Features by position and by day *)

Lemma find_filter {A} (f g : A -> bool) (l : list A) :
  find (fun r => f r && g r) l = find g (filter f l).
Proof.
  induction l as [|a l IH]; [reflexivity|].
  cbn [find filter]. destruct (f a); cbn [andb find]; [|exact IH].
  destruct (g a); [reflexivity | exact IH].
Qed.

Lemma cell_rows_of (col : Row -> option Q) (df : list Row) (R : string) (d : Z) :
  cell col df R d =
  match find (fun r => index r =? d) (rows_of R df) with
  | Some r => col r
  | None => None
  end.
Proof. unfold cell, rows_of. now rewrite find_filter. Qed.

Lemma cell_In (col : Row -> option Q) (df : list Row) (R : string) (d : Z) :
  cell col df R d <> None ->
  exists r, In r df /\ region r = Some R /\ index r = d /\ cell col df R d = col r.
Proof.
  rewrite cell_rows_of.
  destruct (find _ (rows_of R df)) as [r|] eqn:E; [|congruence].
  intros _. apply find_some in E. destruct E as [Hr E].
  apply rows_of_In in Hr. apply Z.eqb_eq in E. now exists r.
Qed.

Lemma same_group_rows_of (x : Row) (R : string) (l : list Row) :
  region x = Some R -> filter (same_group x) l = rows_of R l.
Proof.
  intros Hx. apply filter_ext. intros y. unfold same_group. rewrite Hx.
  destruct (region y) as [b|]; [apply String.eqb_sym | reflexivity].
Qed.

Section Features.
Variable sqrt : Q -> Q.

Lemma features_from_base (seen df : list Row) :
  map base (features_from sqrt seen df) = df.
Proof.
  induction df as [|x df IH] in seen |- *; [reflexivity|].
  cbn [features_from map]. now rewrite IH.
Qed.

Lemma add_features_base (df : list Row) : map base (add_features sqrt df) = df.
Proof. apply features_from_base. Qed.

Lemma features_from_In (seen df : list Row) (fx : FeatureRow) :
  In fx (features_from sqrt seen df) ->
  exists pre post,
    df = pre ++ base fx :: post
    /\ fx = feature_row sqrt (history (rev pre ++ seen) (base fx)) (base fx).
Proof.
  induction df as [|x df IH] in seen |- *; intros H; [destruct H|].
  cbn [features_from] in H. destruct H as [<-|H].
  - exists [], df. split; reflexivity.
  - apply IH in H. destruct H as (pre & post & E & Hfx).
    exists (x :: pre), post. split; [cbn; now rewrite <- E|].
    cbn [rev]. now rewrite <- app_assoc.
Qed.

Lemma lag_columns (hist : list Row) (x : Row) (i : nat) :
  (3 <= i <= 10)%nat ->
  mag_lag_ i (feature_row sqrt hist x) = shift mag i hist
  /\ depth_lag_ i (feature_row sqrt hist x) = shift depth i hist.
Proof.
  intros Hi. unfold mag_lag_, depth_lag_, feature_row; cbn [mag_lag depth_lag].
  do 11 (destruct i as [|i]; [try lia; split; reflexivity|]). lia.
Qed.

(** In a frame where the rows of [R] are the days [a .. b] in order, the
    cell [i] positions up in the group is the cell of the day [i] days
    earlier. *)
Lemma shift_is_day_shift (col : Row -> option Q) (df pre post : list Row)
    (x : Row) (R : string) (a b : Z) (i : nat) :
  df = pre ++ x :: post ->
  region x = Some R ->
  map index (rows_of R df) = date_range a b ->
  (1 <= i)%nat ->
  shift col i (history (rev pre) x) = cell col df R (index x - Z.of_nat i).
Proof.
  intros -> Hx Hidx Hi.
  rewrite cell_rows_of, (find_range _ a b _ Hidx).
  unfold history. rewrite (same_group_rows_of x R _ Hx).
  unfold rows_of at 1. rewrite filter_rev. fold (rows_of R pre).
  rewrite rows_of_app in Hidx |- *. unfold rows_of at 2 in Hidx.
  unfold rows_of at 3. cbn [filter] in Hidx |- *.
  assert (Ex : region_is R (region x) = true) by now apply region_is_true.
  rewrite Ex in Hidx |- *. fold (rows_of R post) in Hidx |- *.
  set (P := rows_of R pre) in *. set (Q0 := rows_of R post) in *.
  assert (Hlen : List.length (P ++ x :: Q0) = Z.to_nat (b - a + 1)).
  { rewrite <- (length_map index), Hidx. apply date_range_length. }
  rewrite length_app in Hlen. cbn [List.length] in Hlen.
  assert (Hix : index x = a + Z.of_nat (List.length P)).
  { assert (E : nth_error (map index (P ++ x :: Q0)) (List.length P)
                = Some (index x)).
    { rewrite nth_error_map, nth_error_app2, Nat.sub_diag by lia. reflexivity. }
    rewrite Hidx, date_range_nth_error in E.
    destruct (Nat.ltb_spec (List.length P) (Z.to_nat (b - a + 1))); [|lia].
    now injection E as <-. }
  unfold shift. destruct i as [|i]; [lia|]. cbn [nth_error].
  rewrite nth_error_rev.
  destruct (Nat.ltb_spec i (List.length P)) as [Hlt|Hge].
  - destruct (Z.leb_spec a (index x - Z.of_nat (S i))); [|lia].
    destruct (Z.leb_spec (index x - Z.of_nat (S i)) b); [|lia].
    cbn [andb].
    replace (Z.to_nat (index x - Z.of_nat (S i) - a))
      with (List.length P - S i)%nat by lia.
    rewrite nth_error_app1 by lia. reflexivity.
  - destruct (Z.leb_spec a (index x - Z.of_nat (S i))); [lia|]. reflexivity.
Qed.
End Features.

(** ** The extended grid of a run *)

Section Runs.
Variable today : Z.
Variable usgs : list RawEvent.
Variable sqrt : Q -> Q.

Lemma horizon_rows_index (region_arg : option string) (G : list Row) :
  map index (horizon_rows today region_arg G) =
  date_range (today + 1) (today + 3).
Proof.
  unfold horizon_rows.
  rewrite ffill_from_index by (intros; destruct region_arg; reflexivity).
  rewrite map_map. apply map_id.
Qed.

Lemma extended_index (region_arg : option string) (R : string) (first : Z)
    (G : list Row) :
  dense today R first G ->
  map index (G ++ horizon_rows today region_arg G) = date_range first (today + 3).
Proof.
  intros (Hidx & Hle & _).
  rewrite map_app, Hidx, horizon_rows_index.
  symmetry. apply date_range_app; lia.
Qed.

Lemma earliest_day_unique (df : list RawEvent) (R : string) (d1 d2 : Z) :
  earliest_day df R d1 -> earliest_day df R d2 -> d1 = d2.
Proof.
  intros [(e1 & H1 & L1 & E1) B1] [(e2 & H2 & L2 & E2) B2].
  specialize (B1 e2 H2 L2). specialize (B2 e1 H1 L1). lia.
Qed.

(** Every row of the extended grid carries a label. *)
Lemma extended_labelled (df : list RawEvent) (region_arg : option string)
    (c c1 c2 : Cache) (g g' : list Row) :
  preprocess_data today usgs df region_arg c = (Ok g, c1) ->
  extend today usgs g region_arg c1 = (Ok g', c2) ->
  forall r, In r g' -> exists R, region r = Some R.
Proof.
  intros Hp He r Hr. destruct region_arg as [rg|].
  - destruct (pipeline_extension today usgs df (Some rg) c c1 c2 g g' Hp He rg)
      as [[Hg _]|(first & _ & Hd & E)].
    + apply preprocess_single_dense in Hp. destruct Hp as [_ Hp].
      unfold extend in He.
      destruct (index_min g) as [m|] eqn:Hm; [|discriminate].
      destruct Hp as [->|(first & _ & Hd)]; [discriminate|].
      rewrite (rows_of_all rg g) in Hg by apply Hd.
      now destruct (dense_nonempty today rg first g Hd).
    + apply preprocess_single_dense in Hp. destruct Hp as [-> Hp].
      unfold extend in He.
      destruct (index_min g) as [m|] eqn:Hm; [|discriminate].
      unfold ret in He. injection He as <- <-.
      exists rg.
      apply (reindexed_region fill_region g rg m (today + 3)
               fill_region_label); [|exact Hm|exact Hr].
      destruct Hp as [->|(first' & _ & Hd')]; [intros ? []|apply Hd'].
  - unfold extend in He.
    apply bind_Ok in He. destruct He as (regions & c0 & _ & He).
    apply bind_Ok in He. destruct He as (out & c3 & Hout & He).
    apply lift_Ok in Hout. destruct Hout as [Hout ->].
    destruct (group_keys _); [discriminate|].
    unfold ret in He. injection He as <- <-.
    destruct (groupby_apply_reindex today 3
                (filter (fun r => isin (region r) regions) g))
      as (out' & Hout' & _ & Hlab).
    rewrite Hout in Hout'. injection Hout' as <-. now apply Hlab.
Qed.

(** The rows of a region in the extended grid: its dense rows followed
    by the rows of the three new days. *)
Lemma extended_rows (df : list RawEvent) (region_arg : option string)
    (c c1 c2 : Cache) (g g' : list Row) (r : Row) (R : string) :
  preprocess_data today usgs df region_arg c = (Ok g, c1) ->
  extend today usgs g region_arg c1 = (Ok g', c2) ->
  In r g' -> region r = Some R ->
  exists first,
    earliest_day df R first
    /\ dense today R first (rows_of R g)
    /\ rows_of R g' = rows_of R g ++ horizon_rows today region_arg (rows_of R g)
    /\ map index (rows_of R g') = date_range first (today + 3).
Proof.
  intros Hp He Hr HR.
  destruct (pipeline_extension today usgs df region_arg c c1 c2 g g' Hp He R)
    as [[_ E]|(first & Hfirst & Hd & E)].
  - assert (H : In r (rows_of R g')) by now apply rows_of_In.
    rewrite E in H. destruct H.
  - exists first. split; [exact Hfirst|]. split; [exact Hd|].
    split; [exact E|].
    rewrite E. now apply (extended_index region_arg R first).
Qed.

(** The lag columns of a run, by day. *)
Lemma pipeline_lags (df : list RawEvent) (region_arg : option string)
    (c c1 c2 : Cache) (g g' : list Row) (x : FeatureRow) (R : string) (i : nat) :
  preprocess_data today usgs df region_arg c = (Ok g, c1) ->
  extend today usgs g region_arg c1 = (Ok g', c2) ->
  In x (add_features sqrt g') -> region (base x) = Some R ->
  (3 <= i <= 10)%nat ->
  mag_lag_ i x = cell mag g' R (index (base x) - Z.of_nat i)
  /\ depth_lag_ i x = cell depth g' R (index (base x) - Z.of_nat i).
Proof.
  intros Hp He Hx HR Hi.
  apply features_from_In in Hx. destruct Hx as (pre & post & Eg & Ex).
  rewrite app_nil_r in Ex.
  remember (base x) as bx eqn:Hb.
  assert (Hin : In bx g').
  { rewrite Eg. apply in_or_app. right. now left. }
  destruct (extended_rows df region_arg c c1 c2 g g' bx R Hp He Hin HR)
    as (first & _ & _ & _ & Hidx).
  rewrite Ex.
  destruct (lag_columns sqrt (history (rev pre) bx) bx i Hi) as [-> ->].
  split; apply (shift_is_day_shift _ g' pre post bx R first (today + 3));
    auto; lia.
Qed.
End Runs.

(** Progress: once [preprocess_data] has returned a grid in which some
    region is present, [create_features] returns a feature table and
    leaves the cache as it found it. *)
Lemma create_features_succeeds (today : Z) (usgs : list RawEvent) (sqrt : Q -> Q)
    (df : list RawEvent) (region_arg : option string) (c c1 : Cache)
    (g : list Row) (R : string) :
  preprocess_data today usgs df region_arg c = (Ok g, c1) ->
  rows_of R g <> [] ->
  exists fr, create_features today usgs sqrt g region_arg c1 = (Ok fr, c1).
Proof.
  intros Hp HR. unfold create_features, extend. destruct region_arg as [rg|].
  - destruct (index_min g) as [m|] eqn:Hm.
    + eexists. reflexivity.
    + apply index_min_None in Hm. subst g. now destruct HR.
  - destruct (preprocess_all_dense today usgs df c c1 g Hp)
      as (regions & Hreg & _ & Hdense).
    destruct (Hdense R HR) as [Hin _].
    destruct (groupby_apply_reindex today 3
                (filter (fun r => isin (region r) regions) g))
      as (out & Hout & _ & _).
    assert (Hkeys : In R (group_keys
                            (map region (filter (fun r => isin (region r) regions) g)))).
    { apply rows_of_keys. now rewrite rows_of_filter_isin, Hin. }
    unfold bind, lift, ret. rewrite Hreg, Hout.
    destruct (group_keys _); [destruct Hkeys|].
    eexists. reflexivity.
Qed.

(** * The specification, property by property *)


(** C3.  In the feature table of a run, for every row of region [R] at
    day [D] and every lag [i] in 3..10, the columns [mag_lag_i] and
    [depth_lag_i] hold the magnitude and depth that the extended grid
    stores in the row of the same region [R] at day [D - i]; they are
    missing when [D - i] is before every day of [R] in the grid. *)
Theorem lag_reads_same_region_day :
  forall (today : Z) (usgs : list RawEvent) (sqrt : Q -> Q)
         (df : list RawEvent) (region_arg : option string)
         (c c1 c2 : Cache) (g : list Row) (fr : list FeatureRow),
    preprocess_data today usgs df region_arg c = (Ok g, c1) ->
    create_features today usgs sqrt g region_arg c1 = (Ok fr, c2) ->
    forall (x : FeatureRow) (R : string) (i : nat),
      In x fr -> region (base x) = Some R -> (3 <= i <= 10)%nat ->
      let D := index (base x) in
      mag_lag_ i x = cell mag (map base fr) R (D - Z.of_nat i)
      /\ depth_lag_ i x = cell depth (map base fr) R (D - Z.of_nat i)
      /\ ((forall y, In y fr -> region (base y) = Some R ->
                     D - Z.of_nat i < index (base y)) ->
          mag_lag_ i x = None /\ depth_lag_ i x = None).
Proof.
  intros today usgs sqrt df region_arg c c1 c2 g fr Hp Hc x R i Hx HR Hi D.
  apply create_features_Ok in Hc. destruct Hc as (g' & He & ->).
  rewrite add_features_base.
  destruct (pipeline_lags today usgs sqrt df region_arg c c1 c2 g g' x R i
              Hp He Hx HR Hi) as [Hm Hdp].
  fold D in Hm, Hdp. split; [exact Hm|]. split; [exact Hdp|].
  intros Hfirst. rewrite Hm, Hdp.
  assert (Hnone : forall col, cell col g' R (D - Z.of_nat i) = None).
  { intros col. destruct (cell col g' R (D - Z.of_nat i)) eqn:E; [|reflexivity].
    destruct (cell_In col g' R (D - Z.of_nat i)) as (r & Hr & Hreg & Hidx & _).
    { rewrite E. discriminate. }
    rewrite <- (add_features_base sqrt g') in Hr.
    apply in_map_iff in Hr. destruct Hr as (y & <- & Hy).
    specialize (Hfirst y Hy Hreg). lia. }
  now rewrite !Hnone.
Qed.

Lemma find_app {A} (p : A -> bool) (l1 l2 : list A) :
  find p (l1 ++ l2) =
  match find p l1 with Some x => Some x | None => find p l2 end.
Proof.
  induction l1 as [|a l1 IH]; [reflexivity|].
  cbn [app find]. destruct (p a); [reflexivity | exact IH].
Qed.

Section Past.
Variable today : Z.
Variable usgs : list RawEvent.

(** On the days up to today the extended grid holds what the dense grid
    holds. *)
Lemma extended_cell_past (col : Row -> option Q) (df : list RawEvent)
    (region_arg : option string) (c c1 c2 : Cache) (g g' : list Row)
    (r : Row) (R : string) (d : Z) :
  preprocess_data today usgs df region_arg c = (Ok g, c1) ->
  extend today usgs g region_arg c1 = (Ok g', c2) ->
  In r g' -> region r = Some R -> d <= today ->
  cell col g' R d = cell col g R d.
Proof.
  intros Hp He Hr HR Hd.
  destruct (extended_rows today usgs df region_arg c c1 c2 g g' r R Hp He Hr HR)
    as (first & _ & _ & E & _).
  rewrite !cell_rows_of, E, find_app.
  destruct (find _ (rows_of R g)); [reflexivity|].
  destruct (find _ (horizon_rows today region_arg (rows_of R g))) as [y|] eqn:Ey;
    [|reflexivity].
  apply find_some in Ey. destruct Ey as [Hy Ey]. apply Z.eqb_eq in Ey.
  assert (Hi : In (index y) (map index (horizon_rows today region_arg (rows_of R g))))
    by now apply in_map.
  rewrite horizon_rows_index in Hi. apply date_range_In in Hi. lia.
Qed.

(** In a dense group a column that has a value on some day has one on
    every later day. *)
Lemma dense_cell_monotone (col : Row -> option Q) (g : list Row) (R : string)
    (first d1 d2 : Z) :
  (forall p c, col (fill p c) = orelse (col c) (col p)) ->
  dense today R first (rows_of R g) ->
  cell col g R d1 <> None -> d1 <= d2 <= today ->
  cell col g R d2 <> None.
Proof.
  intros Hcol Hd H1 Hle. destruct Hd as (Hidx & Hft & _ & Hfill).
  rewrite cell_rows_of, (find_range _ first today d1 Hidx) in H1.
  rewrite cell_rows_of, (find_range _ first today d2 Hidx).
  destruct (Z.leb_spec first d1), (Z.leb_spec d1 today); cbn [andb] in H1;
    try congruence.
  destruct (Z.leb_spec first d2), (Z.leb_spec d2 today); try lia. cbn [andb].
  assert (Hlen : List.length (rows_of R g) = Z.to_nat (today - first + 1)).
  { rewrite <- (length_map index), Hidx. apply date_range_length. }
  destruct (nth_error (rows_of R g) (Z.to_nat (d1 - first))) as [y|] eqn:E1;
    [|congruence].
  destruct (nth_error (rows_of R g) (Z.to_nat (d2 - first))) as [z|] eqn:E2.
  2:{ apply nth_error_None in E2. lia. }
  destruct (Z.eq_dec d1 d2) as [->|Hne]; [congruence|].
  apply nth_error_split in E1. destruct E1 as (l1 & l2 & El & Hl1).
  apply (ffill_monotone col Hcol (rows_of R g) l1 l2 y);
    [now rewrite Hfill | exact H1 |].
  rewrite El in E2. rewrite nth_error_app2 in E2 by lia.
  replace (Z.to_nat (d2 - first) - List.length l1)%nat
    with (S (Z.to_nat (d2 - first) - List.length l1 - 1)) in E2 by lia.
  cbn [nth_error] in E2. now apply nth_error_In in E2.
Qed.
End Past.

(** The rows of the days after today, branch by branch.  In the feature
    table of a run every such row carries a region label.  In the
    single-region branch its magnitude, depth, latitude and longitude are
    missing.  In the all-regions branch they repeat the values of the
    region's row for today: [reindex(group, 3)] forward-fills every
    column, which is where that branch departs from the other one. *)
Theorem horizon_fill_by_branch :
  forall (today : Z) (usgs : list RawEvent) (sqrt : Q -> Q)
         (df : list RawEvent) (region_arg : option string)
         (c c1 c2 : Cache) (g : list Row) (fr : list FeatureRow),
    preprocess_data today usgs df region_arg c = (Ok g, c1) ->
    create_features today usgs sqrt g region_arg c1 = (Ok fr, c2) ->
    forall x, In x fr -> today < index (base x) ->
      region (base x) <> None
      /\ match region_arg with
         | Some _ =>
           mag (base x) = None /\ depth (base x) = None
           /\ latitude (base x) = None /\ longitude (base x) = None
         | None =>
           exists y, In y fr /\ index (base y) = today
                     /\ region (base y) = region (base x)
                     /\ mag (base x) = mag (base y)
                     /\ depth (base x) = depth (base y)
                     /\ latitude (base x) = latitude (base y)
                     /\ longitude (base x) = longitude (base y)
         end.
Proof.
  intros today usgs sqrt df region_arg c c1 c2 g fr Hp Hc x Hx Hday.
  apply create_features_Ok in Hc. destruct Hc as (g' & He & ->).
  assert (Hin : In (base x) g').
  { rewrite <- (add_features_base sqrt g'). now apply in_map. }
  destruct (extended_labelled today usgs df region_arg c c1 c2 g g' Hp He _ Hin)
    as (R & HR).
  split; [congruence|].
  destruct (extended_rows today usgs df region_arg c c1 c2 g g' _ R Hp He Hin HR)
    as (first & _ & Hd & E & _).
  assert (Hx' : In (base x) (rows_of R g')) by now apply rows_of_In.
  rewrite E in Hx'. apply in_app_or in Hx'. destruct Hx' as [Hx'|Hx'].
  { apply (in_map index) in Hx'. destruct Hd as (Hidx & _).
    rewrite Hidx in Hx'. apply date_range_In in Hx'. lia. }
  destruct (dense_last today R first _ Hd) as [Hlast Hlday].
  unfold horizon_rows in Hx'. destruct region_arg as [rg|]; cbn [horizon_fill] in Hx'.
  - apply ffill_from_nan_fill_region in Hx'. tauto.
  - apply ffill_from_nan_fill in Hx'.
    destruct Hx' as (_ & H1 & H2 & H3 & H4 & H5).
    assert (Hy : In (last (rows_of R g) (nan_row 0)) g').
    { assert (H : In (last (rows_of R g) (nan_row 0)) (rows_of R g')).
      { rewrite E. apply in_or_app. now left. }
      now apply rows_of_In in H. }
    rewrite <- (add_features_base sqrt g') in Hy.
    apply in_map_iff in Hy. destruct Hy as (y & Ey & Hy).
    exists y. rewrite Ey. repeat split; auto.
Qed.

(** C4 (amended).  For a region whose dense grid has at least 10 days and
    holds a magnitude and a depth in its row for the day today - 9, every
    row of a day after today has all the columns [mag_lag_3 .. mag_lag_10]
    and [depth_lag_3 .. depth_lag_10] defined. *)
Theorem future_lags_defined :
  forall (today : Z) (usgs : list RawEvent) (sqrt : Q -> Q)
         (df : list RawEvent) (region_arg : option string)
         (c c1 c2 : Cache) (g : list Row) (fr : list FeatureRow) (R : string),
    preprocess_data today usgs df region_arg c = (Ok g, c1) ->
    create_features today usgs sqrt g region_arg c1 = (Ok fr, c2) ->
    (10 <= List.length (rows_of R g))%nat ->
    cell mag g R (today - 9) <> None ->
    cell depth g R (today - 9) <> None ->
    forall (x : FeatureRow) (i : nat),
      In x fr -> region (base x) = Some R -> today < index (base x) ->
      (3 <= i <= 10)%nat ->
      mag_lag_ i x <> None /\ depth_lag_ i x <> None.
Proof.
  intros today usgs sqrt df region_arg c c1 c2 g fr R Hp Hc _ Hmag Hdepth
         x i Hx HR Hday Hi.
  apply create_features_Ok in Hc. destruct Hc as (g' & He & ->).
  assert (Hin : In (base x) g').
  { rewrite <- (add_features_base sqrt g'). now apply in_map. }
  destruct (pipeline_lags today usgs sqrt df region_arg c c1 c2 g g' x R i
              Hp He Hx HR Hi) as [-> ->].
  destruct (extended_rows today usgs df region_arg c c1 c2 g g' _ R Hp He Hin HR)
    as (first & _ & Hd & _ & Hidx).
  assert (Hup : index (base x) <= today + 3).
  { assert (H : In (index (base x)) (map index (rows_of R g'))).
    { apply in_map. now apply rows_of_In. }
    rewrite Hidx in H. apply date_range_In in H. lia. }
  rewrite !(extended_cell_past today usgs _ df region_arg c c1 c2 g g' _ R _
              Hp He Hin HR) by lia.
  split.
  - apply (dense_cell_monotone today mag g R first (today - 9)); auto; lia.
  - apply (dense_cell_monotone today depth g R first (today - 9)); auto; lia.
Qed.

(** The feature rows of a region can be computed from the region's rows
    alone. *)
Lemma features_from_rows (sqrt : Q -> Q) (R : string) (seen df : list Row) :
  feature_rows_of R (features_from sqrt seen df) =
  features_from sqrt (rows_of R seen) (rows_of R df).
Proof.
  unfold feature_rows_of.
  induction df as [|x df IH] in seen |- *; [reflexivity|].
  cbn [features_from filter base feature_row]. unfold rows_of at 2. cbn [filter].
  fold (rows_of R df).
  destruct (region_is R (region x)) eqn:E.
  - cbn [features_from]. f_equal.
    + f_equal. unfold history. f_equal. apply region_is_true in E.
      rewrite !(same_group_rows_of x R _ E). unfold rows_of.
      symmetry. apply forallb_filter_id. apply forallb_forall.
      intros y Hy. now apply filter_In in Hy.
    + rewrite IH. unfold rows_of at 1. cbn [filter]. now rewrite E.
  - rewrite IH. unfold rows_of at 1. cbn [filter]. now rewrite E.
Qed.

(** C7.  Non-interference between regions: two frames that hold the same
    rows for region [R], whatever they hold for the other regions, give
    the same feature rows for [R] (lags, rolling statistics, calendar
    fields and grid columns) in the all-regions branch of
    [create_features]. *)
Theorem features_ignore_other_regions :
  forall (today : Z) (usgs : list RawEvent) (sqrt : Q -> Q) (c c1 c2 : Cache)
         (df1 df2 : list Row) (R : string) (fr1 fr2 : list FeatureRow),
    rows_of R df1 = rows_of R df2 ->
    create_features today usgs sqrt df1 None c = (Ok fr1, c1) ->
    create_features today usgs sqrt df2 None c = (Ok fr2, c2) ->
    feature_rows_of R fr1 = feature_rows_of R fr2.
Proof.
  intros today usgs sqrt c c1 c2 df1 df2 R fr1 fr2 Hsame H1 H2.
  assert (Hext : forall df fr c', create_features today usgs sqrt df None c = (Ok fr, c') ->
            exists regions,
              fst (get_regions usgs c) = Ok regions
              /\ feature_rows_of R fr =
                 features_from sqrt []
                   (grid today 3 (rows_of R (filter (fun r => isin (region r) regions) df)))).
  { intros df fr c' H. apply create_features_Ok in H.
    destruct H as (g' & He & ->). unfold extend in He.
    apply bind_Ok in He. destruct He as (regions & c0 & Hreg & He).
    apply bind_Ok in He. destruct He as (out & c3 & Hout & He).
    apply lift_Ok in Hout. destruct Hout as [Hout ->].
    destruct (group_keys _); [discriminate|].
    unfold ret in He. injection He as <- <-.
    destruct (groupby_apply_reindex today 3
                (filter (fun r => isin (region r) regions) df))
      as (out' & Hout' & Hrows & _).
    rewrite Hout in Hout'. injection Hout' as <-.
    exists regions. rewrite Hreg. split; [reflexivity|].
    unfold add_features. now rewrite features_from_rows, Hrows. }
  destruct (Hext df1 fr1 c1 H1) as (regions & Hr1 & ->).
  destruct (Hext df2 fr2 c2 H2) as (regions' & Hr2 & ->).
  assert (regions' = regions) by congruence. subst regions'.
  now rewrite !rows_of_filter_isin, Hsame.
Qed.

Lemma filter_implied {A} (f g : A -> bool) (l : list A) :
  (forall x, f x = true -> g x = true) ->
  filter f (filter g l) = filter f l.
Proof.
  intros H. induction l as [|a l IH]; [reflexivity|].
  cbn [filter]. destruct (g a) eqn:Eg; cbn [filter].
  - now rewrite IH.
  - destruct (f a) eqn:Ef; [|exact IH].
    rewrite (H a Ef) in Eg. discriminate.
Qed.

(** C6.  [get_forecast] returns the rows of the assembled table dated
    today - 7 or later, [forecast_earthquakes] the rows of the same
    assembled table dated today or later, and every row
    [forecast_earthquakes] returns is a row [get_forecast] returns (both
    raise the same exception when the assembly raises). *)
Theorem forecast_windows :
  forall (today : Z) (usgs : list RawEvent) (sqrt : Q -> Q)
         (model : list (list (option Q) * option string) -> list (Q * Q))
         (region_arg : option string) (c : Cache),
    get_forecast today usgs sqrt model region_arg c =
      (result_map (filter (fun r => today - 7 <=? Date r))
                  (fst (assemble today usgs sqrt model region_arg c)),
       snd (assemble today usgs sqrt model region_arg c))
    /\ forecast_earthquakes today usgs sqrt model c =
         (result_map (filter (fun r => today <=? Date r))
                     (fst (assemble today usgs sqrt model None c)),
          snd (assemble today usgs sqrt model None c))
    /\ match fst (forecast_earthquakes today usgs sqrt model c),
             fst (get_forecast today usgs sqrt model None c) with
       | Ok rows, Ok rows' => incl rows rows'
       | Raise e, Raise e' => e = e'
       | _, _ => False
       end.
Proof.
  intros today usgs sqrt model region_arg c.
  assert (Hg : forall ra,
             get_forecast today usgs sqrt model ra c =
             (result_map (filter (fun r => today - 7 <=? Date r))
                         (fst (assemble today usgs sqrt model ra c)),
              snd (assemble today usgs sqrt model ra c))).
  { intros ra. unfold get_forecast, bind, ret.
    now destruct (assemble today usgs sqrt model ra c) as [[a|e] c0]. }
  split; [apply Hg|]. split.
  - unfold forecast_earthquakes, bind, ret. rewrite (Hg None).
    destruct (assemble today usgs sqrt model None c) as [[a|e] c0];
      cbn [fst snd result_map]; [|reflexivity].
    f_equal. f_equal. apply filter_implied.
    intros x Hx. apply Z.leb_le in Hx. apply Z.leb_le. lia.
  - unfold forecast_earthquakes, bind, ret.
    destruct (get_forecast today usgs sqrt model None c) as [[a|e] c0];
      cbn [fst]; [|reflexivity].
    intros x Hx. now apply filter_In in Hx.
Qed.

(** ** The cache across runs *)

Section Reruns.
Variable today : Z.
Variable usgs : list RawEvent.

Lemma get_regions_keeps (c : Cache) :
  snd (get_regions usgs (warm usgs c)) = warm usgs c.
Proof. now rewrite get_regions_cache. Qed.

Lemma groupby_branch_keeps {A} (k : list string -> M A) (c : Cache) :
  (forall regions c0, snd (k regions c0) = c0) ->
  snd (bind (get_regions usgs) k (warm usgs c)) = warm usgs c.
Proof.
  intros Hk. unfold bind.
  pose proof (get_regions_keeps c) as H.
  destruct (get_regions usgs (warm usgs c)) as [[regions|e] c0]; cbn in H; subst c0.
  - apply Hk.
  - reflexivity.
Qed.

Lemma preprocess_data_keeps (df : list RawEvent) (region_arg : option string)
    (c : Cache) :
  snd (preprocess_data today usgs df region_arg (warm usgs c)) = warm usgs c.
Proof.
  unfold preprocess_data. unfold bind at 1. unfold lift at 1.
  destruct (daily_means df) as [dm|e]; [|reflexivity].
  destruct region_arg as [rg|].
  - now destruct (index_min (rows_of rg dm)).
  - apply groupby_branch_keeps. reflexivity.
Qed.

Lemma extend_keeps (g : list Row) (region_arg : option string) (c : Cache) :
  snd (extend today usgs g region_arg (warm usgs c)) = warm usgs c.
Proof.
  unfold extend. destruct region_arg as [rg|].
  - now destruct (index_min g).
  - apply groupby_branch_keeps. intros regions c0. unfold bind, lift.
    destruct (groupby_apply _ _); [|reflexivity].
    now destruct (group_keys _).
Qed.

Lemma create_features_keeps (sqrt : Q -> Q) (g : list Row)
    (region_arg : option string) (c : Cache) :
  snd (create_features today usgs sqrt g region_arg (warm usgs c)) = warm usgs c.
Proof.
  unfold create_features, bind.
  pose proof (extend_keeps g region_arg c) as H.
  destruct (extend today usgs g region_arg (warm usgs c)) as [[g'|e] c0];
    cbn in H; subst c0; reflexivity.
Qed.

Lemma bind_run {A B} (m : M A) (f : A -> M B) (c : Cache) :
  bind m f c =
  match m c with
  | (Ok a, c') => f a c'
  | (Raise e, c') => (Raise e, c')
  end.
Proof. reflexivity. Qed.

(** After the memoised query, a run continues from the warm cache on
    the cached table. *)
Lemma assemble_run (sqrt : Q -> Q)
    (model : list (list (option Q) * option string) -> list (Q * Q))
    (region_arg : option string) (c : Cache) :
  assemble today usgs sqrt model region_arg c =
  bind (preprocess_data today usgs (cached usgs c) region_arg)
       (fun df => bind (create_features today usgs sqrt df region_arg)
          (fun df => ret (join df (model (map (fun r => (features r, region (base r))) df)))))
       (warm usgs c).
Proof.
  unfold assemble, load_model.
  rewrite (bind_run (ret model)). unfold ret at 1.
  rewrite (bind_run (get_recent_earthquakes usgs)).
  rewrite get_recent_earthquakes_run. reflexivity.
Qed.

Lemma assemble_keeps (sqrt : Q -> Q)
    (model : list (list (option Q) * option string) -> list (Q * Q))
    (region_arg : option string) (c : Cache) :
  snd (assemble today usgs sqrt model region_arg c) = warm usgs c.
Proof.
  rewrite assemble_run. unfold bind.
  pose proof (preprocess_data_keeps (cached usgs c) region_arg c) as Hp.
  destruct (preprocess_data today usgs (cached usgs c) region_arg (warm usgs c))
    as [[g|e] c0]; cbn in Hp; subst c0; [|reflexivity].
  pose proof (create_features_keeps sqrt g region_arg c) as Hc.
  destruct (create_features today usgs sqrt g region_arg (warm usgs c))
    as [[fr|e] c0]; cbn in Hc; subst c0; reflexivity.
Qed.

(** A run behaves as a run from the warmed cache, and leaves the cache
    warm. *)
Lemma get_forecast_warm (sqrt : Q -> Q)
    (model : list (list (option Q) * option string) -> list (Q * Q))
    (region_arg : option string) (c : Cache) :
  get_forecast today usgs sqrt model region_arg (warm usgs c) =
  get_forecast today usgs sqrt model region_arg c
  /\ snd (get_forecast today usgs sqrt model region_arg c) = warm usgs c.
Proof.
  unfold get_forecast. split.
  - rewrite !(bind_run (assemble today usgs sqrt model region_arg)).
    now rewrite !assemble_run.
  - rewrite (bind_run (assemble today usgs sqrt model region_arg)).
    pose proof (assemble_keeps sqrt model region_arg c) as H.
    destruct (assemble today usgs sqrt model region_arg c) as [[a|e] c0];
      cbn in H; subst c0; reflexivity.
Qed.
End Reruns.

(** C9.  Two executions of [get_forecast] in a row, on the same catalog
    table, clock and model, return the same result (the same table, or
    the same exception): the only state a run leaves behind is the
    memoised catalog table, which the second run reads back unchanged. *)
Theorem pipeline_rerun_identical :
  forall (today : Z) (usgs : list RawEvent) (sqrt : Q -> Q)
         (model : list (list (option Q) * option string) -> list (Q * Q))
         (region_arg : option string) (c : Cache),
    let first_run := get_forecast today usgs sqrt model region_arg c in
    let second_run := get_forecast today usgs sqrt model region_arg (snd first_run) in
    fst second_run = fst first_run
    /\ snd second_run = snd first_run
    /\ snd first_run = Some (cached usgs c).
Proof.
  intros today usgs sqrt model region_arg c first_run second_run.
  destruct (get_forecast_warm today usgs sqrt model region_arg c) as [Hw Hs].
  subst second_run first_run. rewrite Hs, Hw. auto.
Qed.

(** C10.  When a single region is requested and no event of the table is
    labelled with it, [preprocess_data] raises: the [ValueError] of
    [pd.date_range] on a missing start date (or, when no place of the
    table contains the delimiter at all, the [KeyError] of the labelling
    step); it never returns an empty grid.  The single-region branch
    consults neither the whitelist nor the cache: its result is the same
    for every catalog and cache. *)
Theorem unknown_region_raises :
  forall (today : Z) (usgs : list RawEvent) (df : list RawEvent) (R : string)
         (c : Cache),
    (forall e, In e df -> label e <> Some R) ->
    preprocess_data today usgs df (Some R) c =
      (Raise (if some_delim df then ValueError else KeyError), c)
    /\ forall df' usgs' c',
         preprocess_data today usgs' df' (Some R) c' =
         (fst (preprocess_data today usgs df' (Some R) c), c').
Proof.
  intros today usgs df R c Habsent. split.
  - unfold preprocess_data, bind, lift. rewrite daily_means_eq.
    destruct (some_delim df); [|reflexivity].
    now rewrite (daily_means_absent df R Habsent).
  - intros df' usgs' c'. unfold preprocess_data, bind, lift.
    destruct (daily_means df'); [|reflexivity].
    now destruct (index_min _).
Qed.

(** ** The region label of a place *)

Module CanonFacts.
Import Canon.
Local Open Scope string_scope.

Lemma split_cons (c : ascii) (rest : string) :
  split (String c rest) =
  let keep :=
    match split rest with
    | p :: ps => String c p :: ps
    | [] => [String c EmptyString]
    end in
  if Ascii.eqb c ","%char then
    match rest with
    | String c2 rest' =>
      if Ascii.eqb c2 " "%char then EmptyString :: split rest' else keep
    | EmptyString => keep
    end
  else keep.
Proof. reflexivity. Qed.

(** Up to the first delimiter the split yields the text before it. *)
Lemma split_app (a s : string) :
  has_delim a = false -> split (a ++ ", " ++ s) = a :: split s.
Proof.
  induction a as [|c a IH]; intros H; [reflexivity|].
  cbn [has_delim] in H. apply orb_false_iff in H. destruct H as [Hc Ha].
  change (String c a ++ ", " ++ s) with (String c (a ++ ", " ++ s)).
  rewrite split_cons, (IH Ha). cbv zeta.
  destruct (Ascii.eqb c ",") eqn:Ec; [|reflexivity].
  cbn [andb] in Hc. destruct a as [|c2 a]; cbn [append].
  - reflexivity.
  - now rewrite Hc.
Qed.

Lemma split_single (a : string) : has_delim a = false -> split a = [a].
Proof.
  induction a as [|c a IH]; intros H; [reflexivity|].
  cbn [has_delim] in H. apply orb_false_iff in H. destruct H as [Hc Ha].
  rewrite split_cons, (IH Ha). cbv zeta.
  destruct (Ascii.eqb c ",") eqn:Ec; [|reflexivity].
  cbn [andb] in Hc. destruct a as [|c2 a]; [reflexivity | now rewrite Hc].
Qed.

End CanonFacts.

(** C2 (amended).  A place without the delimiter [", "] is its own
    candidate region; otherwise the candidate is the text between the
    first delimiter and the second one (the second piece of the split),
    which is everything after the first delimiter only when there is no
    second delimiter.  The candidate is then renamed: exactly "CA" to
    "California" and exactly "B.C." to "Baja California", anything else
    is kept. *)
Theorem region_is_second_piece :
  forall a b rest : string,
    Canon.has_delim a = false -> Canon.has_delim b = false ->
    Canon.region_of_place a = Canon.replace a
    /\ Canon.region_of_place (a ++ ", " ++ b) = Canon.replace b
    /\ Canon.region_of_place (a ++ ", " ++ b ++ ", " ++ rest) = Canon.replace b
    /\ Canon.replace "CA" = "California"%string
    /\ Canon.replace "B.C." = "Baja California"%string
    /\ forall r : string, r <> "CA"%string -> r <> "B.C."%string -> Canon.replace r = r.
Proof.
  intros a b rest Ha Hb. unfold Canon.region_of_place, Canon.column1.
  rewrite (CanonFacts.split_single a Ha).
  rewrite (CanonFacts.split_app a _ Ha), (CanonFacts.split_single b Hb).
  rewrite (CanonFacts.split_app a _ Ha), (CanonFacts.split_app b _ Hb).
  repeat split.
  intros r H1 H2. unfold Canon.replace.
  apply String.eqb_neq in H1, H2. now rewrite H1, H2.
Qed.

(** * The scenarios, evaluated *)

Module ScenarioFacts.
Import Scenario.
Local Open Scope string_scope.

Lemma preprocess_run (df : list RawEvent) (region_arg : option string) :
  is_raise (fst (preprocess_data today df df region_arg (Some df))) = false ->
  preprocess_data today df df region_arg (Some df) =
  (Ok (dense_grid df region_arg), Some df).
Proof.
  intros H. unfold dense_grid.
  pose proof (preprocess_data_keeps today df df region_arg (Some df)) as Hc.
  change (warm df (Some df)) with (Some df) in Hc.
  destruct (preprocess_data today df df region_arg (Some df)) as [[g|e] c];
    cbn in H, Hc |- *; [now subst c | discriminate].
Qed.

Lemma features_run (usgs : list RawEvent) (g : list Row) (region_arg : option string) :
  is_raise (fst (create_features today usgs sqrt g region_arg (Some usgs))) = false ->
  create_features today usgs sqrt g region_arg (Some usgs) =
  (Ok (features_on usgs g region_arg), Some usgs).
Proof.
  intros H. unfold features_on.
  pose proof (create_features_keeps today usgs sqrt g region_arg (Some usgs)) as Hc.
  change (warm usgs (Some usgs)) with (Some usgs) in Hc.
  destruct (create_features today usgs sqrt g region_arg (Some usgs)) as [[fr|e] c];
    cbn in H, Hc |- *; [now subst c | discriminate].
Qed.

Lemma pick_In (d : nat) (rows : list FeatureRow) :
  is_some (at_day d rows) = true -> In (pick d rows) rows.
Proof.
  unfold pick, at_day. intros H.
  destruct (find _ rows) as [x|] eqn:E; [|discriminate].
  now apply find_some in E.
Qed.

End ScenarioFacts.

(** C1.  The code departs from the claim in the all-regions branch: on
    the twelve-day California table the row of day 13, the first day after
    today, holds the magnitude, depth, latitude and longitude of day 12. *)
Lemma horizon_all_regions_fills_values :
  let x := Scenario.pick 13 (Scenario.run Scenario.california None) in
  In x (Scenario.run Scenario.california None)
  /\ Scenario.today < index (base x)
  /\ mag (base x) = Some (21 # 10)%Q
  /\ depth (base x) = Some (12 # 1)%Q
  /\ latitude (base x) = Some (194 # 5)%Q
  /\ longitude (base x) = Some (-614 # 5)%Q.
Proof.
  split; [apply ScenarioFacts.pick_In; vm_compute; reflexivity|].
  vm_compute. repeat split; reflexivity.
Qed.

(** C2, as stated, fails on a place with two delimiters: the code yields
    the piece between them, not everything after the first. *)
Lemma region_not_after_first_delim :
  Canon.region_of_place "Tecate, B.C., MX" = "Baja California"%string
  /\ Canon.region_spec "Tecate, B.C., MX" = "B.C., MX"%string
  /\ Canon.region_of_place "Tecate, B.C., MX" <> Canon.region_spec "Tecate, B.C., MX".
Proof.
  split; [reflexivity|]. split; [reflexivity|]. vm_compute. discriminate.
Qed.

(** C4, as stated, fails when magnitudes are missing: the region has ten
    days of history in the dense grid, and the first future row has no
    [mag_lag_10] (nor any other magnitude lag), in both branches. *)
Lemma future_lag_absent_without_magnitude :
  List.length (rows_of "California" (Scenario.dense_grid Scenario.sparse None)) = 10%nat
  /\ List.length (rows_of "California"
                    (Scenario.dense_grid Scenario.sparse (Some "California"%string))) = 10%nat
  /\ (let x := Scenario.pick 13 (Scenario.run Scenario.sparse None) in
      In x (Scenario.run Scenario.sparse None)
      /\ region (base x) = Some "California"%string
      /\ Scenario.today < index (base x)
      /\ mag_lag_ 10 x = None)
  /\ (let x := Scenario.pick 13 (Scenario.run Scenario.sparse (Some "California"%string)) in
      In x (Scenario.run Scenario.sparse (Some "California"%string))
      /\ region (base x) = Some "California"%string
      /\ Scenario.today < index (base x)
      /\ mag_lag_ 10 x = None).
Proof.
  split; [vm_compute; reflexivity|]. split; [vm_compute; reflexivity|].
  split; (split; [apply ScenarioFacts.pick_In; vm_compute; reflexivity|]);
    vm_compute; repeat split; reflexivity.
Qed.

(** C5 (amended).  On the twelve-day California table, in both branches,
    the [mag_lag_3] of the day-13 row is the day-10 magnitude 1.9.  Its
    [mag_rolling_mean_3] is the trailing mean of the grid's own magnitude
    column over the row's day and the two days before, days 11-13, and is
    missing when one of these cells is missing; with the day-13 magnitude
    missing, as in the single-region branch, it is missing.  On day 12,
    the last observed day, it is the mean of the magnitudes of days
    10-12 in both branches. *)
Theorem scenario_day13 :
  let single := Scenario.run Scenario.california (Some "California"%string) in
  let all := Scenario.run Scenario.california None in
  let m rows d := option_map (fun x => mag (base x)) (Scenario.at_day d rows) in
  let window rows d :=
    window_stat mean mag (map base rows) "California"
                (Scenario.today - 12 + Z.of_nat d) 3 in
  (m single 10%nat = Some (Some (19 # 10)%Q)
   /\ option_map (mag_lag_ 3) (Scenario.at_day 13 single) = m single 10%nat
   /\ option_map mag_rolling_mean_3 (Scenario.at_day 13 single)
      = Some (window single 13%nat)
   /\ m single 13%nat = Some None
   /\ option_map mag_rolling_mean_3 (Scenario.at_day 13 single) = Some None
   /\ option_map mag_rolling_mean_3 (Scenario.at_day 12 single)
      = Some (mean [(19 # 10)%Q; (2 # 1)%Q; (21 # 10)%Q]))
  /\ (m all 10%nat = Some (Some (19 # 10)%Q)
      /\ option_map (mag_lag_ 3) (Scenario.at_day 13 all) = m all 10%nat
      /\ option_map mag_rolling_mean_3 (Scenario.at_day 13 all)
         = Some (window all 13%nat)
      /\ option_map mag_rolling_mean_3 (Scenario.at_day 12 all)
         = Some (mean [(19 # 10)%Q; (2 # 1)%Q; (21 # 10)%Q])).
Proof. vm_compute. repeat split; reflexivity. Qed.

(** C5, as stated, fails: the mean of the magnitudes of days 8-10 is 1.8,
    and the [mag_rolling_mean_3] of the day-13 row is missing in the
    single-region branch and 31/15 in the all-regions branch. *)
Lemma scenario_rolling_mean_not_lagged :
  let single := Scenario.run Scenario.california (Some "California"%string) in
  let all := Scenario.run Scenario.california None in
  let m rows d := option_map (fun x => mag (base x)) (Scenario.at_day d rows) in
  m all 8%nat = Some (Some (17 # 10)%Q)
  /\ m all 9%nat = Some (Some (9 # 5)%Q)
  /\ m all 10%nat = Some (Some (19 # 10)%Q)
  /\ mean [(17 # 10)%Q; (9 # 5)%Q; (19 # 10)%Q] = Some (9 # 5)%Q
  /\ option_map mag_rolling_mean_3 (Scenario.at_day 13 single) = Some None
  /\ option_map mag_rolling_mean_3 (Scenario.at_day 13 all) = Some (Some (31 # 15)%Q)
  /\ ~ (31 # 15 == 9 # 5)%Q.
Proof.
  vm_compute. repeat split; try reflexivity. intros H. discriminate H.
Qed.

(** * The theorems at the scenarios *)

Module Witness.
Import Scenario.
Local Open Scope string_scope.

Ltac by_run := vm_compute; reflexivity.

Lemma horizon_fill_by_branch_witness :
  let x := pick 13 (run california (Some "California")) in
  today < index (base x)
  /\ region (base x) <> None
  /\ mag (base x) = None /\ depth (base x) = None
  /\ latitude (base x) = None /\ longitude (base x) = None.
Proof.
  intros x.
  assert (Hday : today < index (base x)) by by_run.
  split; [exact Hday|].
  exact (horizon_fill_by_branch today california sqrt california
           (Some "California") (Some california) (Some california)
           (Some california) (dense_grid california (Some "California"))
           (run california (Some "California"))
           (ScenarioFacts.preprocess_run california (Some "California") ltac:(by_run))
           (ScenarioFacts.features_run california
              (dense_grid california (Some "California")) (Some "California")
              ltac:(by_run))
           x (ScenarioFacts.pick_In 13 (run california (Some "California"))
                ltac:(by_run)) Hday).
Defined.

Lemma region_is_second_piece_witness :
  Canon.has_delim "Tecate" = false /\ Canon.has_delim "B.C." = false
  /\ Canon.region_of_place "Tecate" = Canon.replace "Tecate"
  /\ Canon.region_of_place ("Tecate" ++ ", " ++ "B.C.") = Canon.replace "B.C."
  /\ Canon.region_of_place ("Tecate" ++ ", " ++ "B.C." ++ ", " ++ "MX")
     = Canon.replace "B.C.".
Proof.
  split; [reflexivity|]. split; [reflexivity|].
  destruct (region_is_second_piece "Tecate" "B.C." "MX" eq_refl eq_refl)
    as (H1 & H2 & H3 & _).
  auto.
Defined.

Lemma lag_reads_same_region_day_witness :
  let fr := run california None in
  let x := pick 13 fr in
  mag_lag_ 3 x = cell mag (map base fr) "California" (index (base x) - 3)
  /\ depth_lag_ 3 x = cell depth (map base fr) "California" (index (base x) - 3).
Proof.
  intros fr x.
  assert (HR : region (base x) = Some "California") by by_run.
  destruct (lag_reads_same_region_day today california sqrt california None
              (Some california) (Some california) (Some california)
              (dense_grid california None) fr
              (ScenarioFacts.preprocess_run california None ltac:(by_run))
              (ScenarioFacts.features_run california (dense_grid california None) None
              ltac:(by_run))
              x "California" 3%nat
              (ScenarioFacts.pick_In 13 (run california None) ltac:(by_run)) HR
              ltac:(lia)) as (H1 & H2 & _).
  split; [exact H1 | exact H2].
Defined.

Lemma future_lags_defined_witness :
  let x := pick 13 (run california None) in
  mag_lag_ 10 x <> None /\ depth_lag_ 10 x <> None.
Proof.
  intros x.
  assert (Hlen : (10 <= List.length (rows_of "California" (dense_grid california None)))%nat).
  { assert (E : List.length (rows_of "California" (dense_grid california None))
                = 12%nat) by by_run.
    rewrite E. lia. }
  assert (Hmag : cell mag (dense_grid california None) "California" (today - 9) <> None)
    by (vm_compute; discriminate).
  assert (Hdepth : cell depth (dense_grid california None) "California" (today - 9) <> None)
    by (vm_compute; discriminate).
  assert (HR : region (base x) = Some "California") by by_run.
  assert (Hday : today < index (base x)) by by_run.
  exact (future_lags_defined today california sqrt california None
           (Some california) (Some california) (Some california)
           (dense_grid california None) (run california None) "California"
           (ScenarioFacts.preprocess_run california None ltac:(by_run))
           (ScenarioFacts.features_run california (dense_grid california None) None
              ltac:(by_run))
           Hlen Hmag Hdepth x 10%nat
           (ScenarioFacts.pick_In 13 (run california None) ltac:(by_run)) HR Hday ltac:(lia)).
Defined.

Lemma features_ignore_other_regions_witness :
  let usgs := two_regions 30 in
  let df1 := dense_grid (two_regions 30) None in
  let df2 := dense_grid (two_regions 45) None in
  rows_of "Nevada" df1 <> rows_of "Nevada" df2
  /\ feature_rows_of "California" (features_on usgs df1 None) =
     feature_rows_of "California" (features_on usgs df2 None).
Proof.
  intros usgs df1 df2. split; [vm_compute; discriminate|].
  assert (Hsame : rows_of "California" df1 = rows_of "California" df2) by by_run.
  exact (features_ignore_other_regions today usgs sqrt (Some usgs) (Some usgs)
           (Some usgs) df1 df2 "California"
           (features_on usgs df1 None) (features_on usgs df2 None) Hsame
           (ScenarioFacts.features_run usgs df1 None ltac:(by_run))
           (ScenarioFacts.features_run usgs df2 None ltac:(by_run))).
Defined.


Lemma unknown_region_raises_witness :
  preprocess_data today california california (Some "Nevada") None =
  (Raise (if some_delim california then ValueError else KeyError), None).
Proof.
  assert (Habsent : forall e, In e california -> label e <> Some "Nevada").
  { intros e He. vm_compute in He.
    repeat (destruct He as [<-|He]; [vm_compute; discriminate|]).
    destruct He. }
  exact (proj1 (unknown_region_raises today california california "Nevada" None
                  Habsent)).
Defined.

End Witness.


(** * Further properties of the code *)

(** ** The whitelist *)

Lemma known_regions_NoDup : NoDup known_regions.
Proof.
  unfold known_regions.
  repeat (constructor; [cbn; intros H; repeat (destruct H as [H|H]; [discriminate H|]); exact H|]).
  constructor.
Qed.

Lemma observed_label (df : list RawEvent) (k : string) :
  existsb (region_is k) (map (option_map Canon.region_of_place) (map place df)) = true
  <-> exists e, In e df /\ label e = Some k.
Proof.
  rewrite existsb_exists. split.
  - intros (l & Hl & E). apply region_is_true in E. subst l.
    rewrite map_map in Hl. apply in_map_iff in Hl.
    destruct Hl as (e & He & Hin). now exists e.
  - intros (e & Hin & He). exists (Some k). split.
    + rewrite map_map. apply in_map_iff. now exists e.
    + now apply region_is_true.
Qed.

Lemma get_regions_spec (usgs : list RawEvent) (c : Cache) :
  snd (get_regions usgs c) = Some (cached usgs c)
  /\ if some_delim (cached usgs c)
     then exists regions,
            fst (get_regions usgs c) = Ok regions
            /\ NoDup regions
            /\ forall k, In k regions <->
                         In k known_regions
                         /\ exists e, In e (cached usgs c) /\ label e = Some k
     else fst (get_regions usgs c) = Raise KeyError.
Proof.
  split; [apply get_regions_cache|].
  unfold get_regions, bind, lift, ret. rewrite get_recent_earthquakes_run.
  unfold Canon.regions_of, some_delim.
  destruct (existsb _ (map place (cached usgs c))); [|reflexivity].
  eexists. split; [reflexivity|]. split.
  - apply NoDup_filter, known_regions_NoDup.
  - intros k. rewrite filter_In, observed_label. reflexivity.
Qed.

(** X1.  [get_regions] raises [KeyError] exactly when no place of the
    cached catalog table contains the delimiter.  Otherwise it returns a
    duplicate-free collection holding exactly the names of the static
    list that label some event of that table; in both cases it leaves the
    table in the cache. *)
Theorem get_regions_whitelist :
  forall (usgs : list RawEvent) (c : Cache),
    snd (get_regions usgs c) = Some (cached usgs c)
    /\ if some_delim (cached usgs c)
       then exists regions,
              fst (get_regions usgs c) = Ok regions
              /\ NoDup regions
              /\ forall k, In k regions <->
                           In k known_regions
                           /\ exists e, In e (cached usgs c) /\ label e = Some k
       else fst (get_regions usgs c) = Raise KeyError.
Proof. exact get_regions_spec. Qed.

(** ** Splitting a place and labelling it *)

Module SplitFacts.
Import Canon.
Local Open Scope string_scope.

Lemma split_nonempty (s : string) : split s <> [].
Proof.
  destruct s as [|c rest]; [discriminate|].
  assert (Hkeep : match split rest with
                  | p :: ps => String c p :: ps
                  | [] => [String c EmptyString]
                  end <> []) by (destruct (split rest); discriminate).
  rewrite CanonFacts.split_cons. cbv zeta.
  destruct (Ascii.eqb c ","); [|exact Hkeep].
  destruct rest as [|c2 rest']; [exact Hkeep|].
  destruct (Ascii.eqb c2 " "); [discriminate | exact Hkeep].
Qed.

Lemma join_cons_char (c : ascii) (p : string) (ps : list string) :
  join_pieces (String c p :: ps) = String c (join_pieces (p :: ps)).
Proof. destruct ps; reflexivity. Qed.

Lemma join_split_bounded (n : nat) (s : string) :
  (String.length s <= n)%nat -> join_pieces (split s) = s.
Proof.
  induction n as [|n IH] in s |- *; intros Hlen.
  - destruct s; [reflexivity | cbn in Hlen; lia].
  - destruct s as [|c rest]; [reflexivity|]. cbn [String.length] in Hlen.
    assert (Hkeep : join_pieces
                      match split rest with
                      | p :: ps => String c p :: ps
                      | [] => [String c EmptyString]
                      end = String c rest).
    { pose proof (split_nonempty rest) as Hne.
      pose proof (IH rest ltac:(lia)) as Hrest.
      destruct (split rest) as [|p ps]; [congruence|].
      now rewrite join_cons_char, Hrest. }
    rewrite CanonFacts.split_cons. cbv zeta.
    destruct (Ascii.eqb_spec c ",") as [->|_]; [|exact Hkeep].
    destruct rest as [|c2 rest']; [exact Hkeep|].
    destruct (Ascii.eqb_spec c2 " ") as [->|_]; [|exact Hkeep].
    cbn [String.length] in Hlen.
    pose proof (split_nonempty rest') as Hne.
    pose proof (IH rest' ltac:(lia)) as Hrest.
    destruct (split rest') as [|p ps]; [congruence|].
    change (join_pieces (EmptyString :: p :: ps))
      with (EmptyString ++ ", " ++ join_pieces (p :: ps)).
    now rewrite Hrest.
Qed.

(** The first piece starts as the string does. *)
Lemma first_piece_head (rest p : string) (ps : list string) :
  split rest = p :: ps ->
  match p with String c2 _ => Ascii.eqb c2 " " | EmptyString => false end = true ->
  match rest with String c2 _ => Ascii.eqb c2 " " | EmptyString => false end = true.
Proof.
  destruct rest as [|c rest']; [intros [= <- _]; discriminate|].
  rewrite CanonFacts.split_cons. cbv zeta.
  assert (Hkeep : match split rest' with
                  | q :: qs => String c q :: qs
                  | [] => [String c EmptyString]
                  end = p :: ps ->
                  match p with String c2 _ => Ascii.eqb c2 " " | EmptyString => false end
                  = true -> Ascii.eqb c " " = true).
  { destruct (split rest'); intros [= <- _]; auto. }
  destruct (Ascii.eqb c ","); [|exact Hkeep].
  destruct rest' as [|c2 rest'']; [exact Hkeep|].
  destruct (Ascii.eqb c2 " "); [|exact Hkeep].
  intros [= <- _]. discriminate.
Qed.

Lemma pieces_bounded (n : nat) (s p : string) :
  (String.length s <= n)%nat -> In p (split s) -> has_delim p = false.
Proof.
  induction n as [|n IH] in s, p |- *; intros Hlen Hp.
  - destruct s; [|cbn in Hlen; lia]. destruct Hp as [<-|[]]. reflexivity.
  - destruct s as [|c rest]; [destruct Hp as [<-|[]]; reflexivity|].
    cbn [String.length] in Hlen.
    assert (Hkeep : (Ascii.eqb c ","
                     && match rest with
                        | String c2 _ => Ascii.eqb c2 " "
                        | EmptyString => false
                        end = false) ->
                    In p match split rest with
                         | q :: qs => String c q :: qs
                         | [] => [String c EmptyString]
                         end -> has_delim p = false).
    { intros Hc Hin. pose proof (split_nonempty rest) as Hne.
      destruct (split rest) as [|q qs] eqn:E; [congruence|].
      destruct Hin as [<-|Hin].
      - cbn [has_delim]. rewrite (IH rest q) by (try lia; rewrite E; now left).
        rewrite orb_false_r.
        destruct (Ascii.eqb c ","); [|reflexivity]. cbn [andb] in Hc |- *.
        destruct (match q with String c2 _ => Ascii.eqb c2 " " | EmptyString => false end)
          eqn:Eq; [|reflexivity].
        rewrite (first_piece_head rest q qs E Eq) in Hc. discriminate.
      - apply (IH rest); [lia|]. rewrite E. now right. }
    rewrite CanonFacts.split_cons in Hp. cbv zeta in Hp.
    destruct (Ascii.eqb c ",") eqn:Ec; [|now apply Hkeep].
    destruct rest as [|c2 rest']; [now apply Hkeep|].
    destruct (Ascii.eqb c2 " ") eqn:Ec2; [|now apply Hkeep].
    cbn [String.length] in Hlen.
    destruct Hp as [<-|Hp]; [reflexivity|].
    apply (IH rest'); [lia | exact Hp].
Qed.

End SplitFacts.

(** X2.  The split of a place on [", "] loses nothing and is the split on
    every occurrence: joining the pieces with the delimiter gives the place
    back, no piece contains the delimiter, and the place is a single piece
    exactly when it does not contain the delimiter. *)
Theorem split_round_trip :
  forall s : string,
    join_pieces (Canon.split s) = s
    /\ (forall p, In p (Canon.split s) -> Canon.has_delim p = false)
    /\ (Canon.split s = [s] <-> Canon.has_delim s = false).
Proof.
  intros s. split; [|split].
  - now apply (SplitFacts.join_split_bounded (String.length s)).
  - intros p. now apply (SplitFacts.pieces_bounded (String.length s)).
  - split.
    + intros E. apply (SplitFacts.pieces_bounded (String.length s) s s (le_n _)).
      rewrite E. now left.
    + apply CanonFacts.split_single.
Qed.

(** X3.  The label of a place is in normal form: it is never one of the
    abbreviations "CA" and "B.C.", it never contains the delimiter, and
    labelling is stable under the renaming ([replace] is idempotent). *)
Theorem label_normal_form :
  forall place : string,
    Canon.region_of_place place <> "CA"%string
    /\ Canon.region_of_place place <> "B.C."%string
    /\ Canon.has_delim (Canon.region_of_place place) = false
    /\ Canon.replace (Canon.region_of_place place) = Canon.region_of_place place.
Proof.
  intros place.
  assert (Hrep : forall r, Canon.replace r <> "CA"%string
                           /\ Canon.replace r <> "B.C."%string
                           /\ Canon.replace (Canon.replace r) = Canon.replace r
                           /\ (Canon.has_delim r = false ->
                               Canon.has_delim (Canon.replace r) = false)).
  { intros r.
    destruct (String.eqb_spec r "CA") as [->|H1];
      [repeat split; try reflexivity; vm_compute; discriminate|].
    destruct (String.eqb_spec r "B.C.") as [->|H2];
      [repeat split; try reflexivity; vm_compute; discriminate|].
    assert (E : Canon.replace r = r).
    { unfold Canon.replace. apply String.eqb_neq in H1, H2. now rewrite H1, H2. }
    rewrite !E. repeat split; auto. }
  unfold Canon.region_of_place.
  set (q := match Canon.column1 place with Some r => r | None => place end).
  destruct (Hrep q) as (H1 & H2 & H3 & H4).
  repeat split; auto. apply H4. subst q. unfold Canon.column1.
  pose proof (SplitFacts.pieces_bounded (String.length place) place) as Hp.
  pose proof (SplitFacts.join_split_bounded (String.length place) place (le_n _)) as Hj.
  destruct (Canon.split place) as [|a [|b l]].
  - cbn in Hj. subst place. reflexivity.
  - cbn in Hj. subst a. apply Hp; [lia | now left].
  - apply Hp; [lia | right; now left].
Qed.

(** ** The values of the dense grid *)

Lemma Permutation_filter {A} (f : A -> bool) (l l' : list A) :
  Permutation l l' -> Permutation (filter f l) (filter f l').
Proof.
  induction 1 as [|x l l' _ IH|x y l|l l' l'' _ IH1 _ IH2]; cbn [filter].
  - reflexivity.
  - destruct (f x); [now apply perm_skip | exact IH].
  - destruct (f x), (f y); try reflexivity. apply perm_swap.
  - now transitivity (filter f l').
Qed.

Lemma Permutation_present {A} (l l' : list (option A)) :
  Permutation l l' -> Permutation (present l) (present l').
Proof.
  induction 1 as [|x l l' _ IH|x y l|l l' l'' _ IH1 _ IH2]; cbn.
  - reflexivity.
  - now apply Permutation_app_head.
  - destruct x, y; cbn; try reflexivity. apply perm_swap.
  - now transitivity (present l').
Qed.

Lemma Qsum_perm (l l' : list Q) : Permutation l l' -> (Qsum l == Qsum l')%Q.
Proof.
  induction 1 as [|x l l' _ IH|x y l|l l' l'' _ IH1 _ IH2]; cbn [Qsum fold_right].
  - reflexivity.
  - fold (Qsum l) (Qsum l'). now rewrite IH.
  - fold (Qsum l). ring.
  - now rewrite IH1.
Qed.

(** The mean does not depend on the order of the observations. *)
Lemma mean_perm (l l' : list Q) : Permutation l l' -> mean l = mean l'.
Proof.
  intros H. unfold mean.
  pose proof (Permutation_length H) as Hlen.
  destruct l as [|x l], l' as [|y l']; try discriminate; [reflexivity|].
  f_equal. apply Qred_complete. rewrite Hlen, (Qsum_perm _ _ H). reflexivity.
Qed.

Lemma labelled_events_on (df : list RawEvent) (R : string) (d : Z) :
  Permutation
    (map fst (filter (fun e => day_of (time (fst e)) =? d)
                     (events_of R (labelled df))))
    (events_on df R d).
Proof.
  unfold events_of, labelled, events_on. rewrite combine_map.
  transitivity
    (map fst (filter (fun e : RawEvent * option string => day_of (time (fst e)) =? d)
                (filter (fun e => region_is R (snd e))
                   (map (fun a => (a, label a)) df)))).
  - apply Permutation_map. do 2 apply Permutation_filter. apply sort_perm.
  - induction df as [|e df IH]; [reflexivity|].
    cbn [map filter fst snd].
    destruct (region_is R (label e)); cbn [filter fst andb]; [|exact IH].
    destruct (day_of (time e) =? d); cbn [map fst]; [now apply perm_skip | exact IH].
Qed.

(** A cell of the daily means is the mean over the events of that region
    and day, also on a day without any event of the region. *)
Lemma daily_means_cell (df : list RawEvent) (R : string) (d : Z) :
  let DM := rows_of R (groupby_resample_mean (labelled df)) in
  let look (col : Row -> option Q) :=
    match find (fun r => index r =? d) DM with Some r => col r | None => None end in
  look mag = daily_mean raw_mag df R d
  /\ look depth = daily_mean raw_depth df R d
  /\ look latitude = daily_mean raw_latitude df R d
  /\ look longitude = daily_mean raw_longitude df R d.
Proof.
  intros DM look. subst look DM. rewrite rows_of_daily_means.
  assert (Hmean : forall col : RawEvent -> option Q,
             mean (present (map col (map fst
               (filter (fun e => day_of (time (fst e)) =? d)
                       (events_of R (labelled df))))))
             = daily_mean col df R d).
  { intros col. unfold daily_mean. apply mean_perm, Permutation_present,
      Permutation_map, labelled_events_on. }
  unfold resample_mean.
  destruct (event_days (events_of R (labelled df))) as [|d0 ds] eqn:E.
  - assert (Hnil : events_on df R d = []).
    { apply Permutation_nil. symmetry.
      rewrite <- (labelled_events_on df R d).
      unfold event_days in E. apply map_eq_nil in E. now rewrite E. }
    unfold daily_mean. rewrite Hnil. cbn. auto.
  - set (rows := map _ (date_range _ _)).
    destruct (find (fun r => index r =? d) rows) as [r|] eqn:Ef.
    + apply find_some in Ef. destruct Ef as [Hr Ed]. apply Z.eqb_eq in Ed.
      subst rows. apply in_map_iff in Hr. destruct Hr as (b & <- & _).
      cbn [index] in Ed. subst b. cbn [mag depth latitude longitude].
      now rewrite !Hmean.
    + assert (Hnil : events_on df R d = []).
      { apply Permutation_nil. symmetry.
        rewrite <- (labelled_events_on df R d).
        destruct (filter _ (events_of R (labelled df))) as [|e l] eqn:El;
          [reflexivity|].
        assert (He : In e (filter (fun e => day_of (time (fst e)) =? d)
                                  (events_of R (labelled df))))
          by (rewrite El; now left).
        apply filter_In in He. destruct He as [He Hd]. apply Z.eqb_eq in Hd.
        destruct (fold_min_spec d0 ds) as [_ Hlow].
        destruct (fold_max_spec d0 ds) as [_ Hup].
        assert (Hin : In d (d0 :: ds)).
        { rewrite <- E. unfold event_days. apply in_map_iff. now exists e. }
        specialize (find_none _ _ Ef
          {| index := d; region := Some R;
             mag := mean (present (map raw_mag (map fst
                     (filter (fun e => day_of (time (fst e)) =? d)
                             (events_of R (labelled df))))));
             depth := mean (present (map raw_depth (map fst
                     (filter (fun e => day_of (time (fst e)) =? d)
                             (events_of R (labelled df))))));
             latitude := mean (present (map raw_latitude (map fst
                     (filter (fun e => day_of (time (fst e)) =? d)
                             (events_of R (labelled df))))));
             longitude := mean (present (map raw_longitude (map fst
                     (filter (fun e => day_of (time (fst e)) =? d)
                             (events_of R (labelled df)))))) |}).
        cbn [index]. rewrite Z.eqb_refl. intros Hf.
        assert (Hf' : true = false); [|discriminate].
        apply Hf. subst rows. apply in_map_iff. exists d. split; [reflexivity|].
        apply date_range_In. split; [apply Hlow | apply Hup]; exact Hin. }
      unfold daily_mean. rewrite Hnil. cbn. auto.
Qed.

Lemma ffill_from_nth_succ (step : Row -> Row -> Row) (p : Row) (t : list Row)
    (n : nat) (r : Row) :
  nth_error (ffill_from step p t) (S n) = Some r ->
  exists r' x, nth_error (ffill_from step p t) n = Some r'
               /\ nth_error t (S n) = Some x /\ r = step r' x.
Proof.
  induction t as [|y t IH] in p, n |- *; intros H; [discriminate|].
  cbn [ffill_from nth_error] in H |- *.
  destruct n as [|m].
  - destruct t as [|z t]; [discriminate|].
    cbn [ffill_from nth_error] in H. injection H as <-.
    now exists (step p y), z.
  - apply IH in H. destruct H as (r' & x & H1 & H2 & H3).
    now exists r', x.
Qed.

Lemma ffill_with_nth_succ (step : Row -> Row -> Row) (L : list Row)
    (n : nat) (r : Row) :
  nth_error (ffill_with step L) (S n) = Some r ->
  exists r' x, nth_error (ffill_with step L) n = Some r'
               /\ nth_error L (S n) = Some x /\ r = step r' x.
Proof.
  destruct L as [|r0 t]; [discriminate|].
  cbn [ffill_with nth_error]. destruct n as [|m].
  - destruct t as [|x t]; [discriminate|].
    cbn [ffill_from nth_error]. intros [= <-]. now exists r0, x.
  - intros H. apply ffill_from_nth_succ in H.
    destruct H as (r' & x & H1 & H2 & H3). now exists r', x.
Qed.

Lemma carried_latest (f : Z -> option Q) (first : Z) (n : nat) (v : Q) :
  carried f first n = Some v ->
  exists k, (k <= n)%nat /\ f (first + Z.of_nat k) = Some v
            /\ forall j, (k < j <= n)%nat -> f (first + Z.of_nat j) = None.
Proof.
  induction n as [|n IH]; cbn [carried]; intros H.
  - exists 0%nat. rewrite Z.add_0_r. repeat split; auto. lia.
  - destruct (f (first + Z.of_nat (S n))) as [w|] eqn:E; cbn [orelse] in H.
    + injection H as ->. exists (S n). repeat split; auto. lia.
    + destruct (IH H) as (k & Hk & Hv & Hnone). exists k.
      repeat split; auto. intros j Hj.
      destruct (Nat.eq_dec j (S n)) as [->|Hne]; [exact E|]. apply Hnone. lia.
Qed.

Lemma carried_present (f : Z -> option Q) (first : Z) (n : nat) :
  f first <> None -> carried f first n <> None.
Proof.
  intros H. induction n as [|n IH]; cbn [carried]; [exact H|].
  destruct (f (first + Z.of_nat (S n))); [discriminate | exact IH].
Qed.

Lemma carried_first_absent (f : Z -> option Q) (first : Z) :
  carried f first 0 = f first.
Proof. reflexivity. Qed.

Section GridValues.
Variable today : Z.

(** The column [col] of a region's grid, day by day: the most recent
    value of the group at or before the day. *)
Lemma grid_carried (col : Row -> option Q) (f : Z -> option Q) (G : list Row)
    (first : Z) :
  (forall p c, col (fill p c) = orelse (col c) (col p)) ->
  (forall d, col (nan_row d) = None) ->
  (forall d, match find (fun r => index r =? d) G with
             | Some r => col r
             | None => None
             end = f d) ->
  index_min G = Some first ->
  forall n r, nth_error (grid today 0 G) n = Some r -> col r = carried f first n.
Proof.
  intros Hfill Hnan Hlook Hmin.
  destruct (grid_eq today 0 G first Hmin) as [_ ->].
  set (L := df_reindex G (date_range first (today + 0))).
  assert (HL : forall n x, nth_error L n = Some x -> col x = f (first + Z.of_nat n)).
  { intros n x Hx. subst L. unfold df_reindex in Hx.
    rewrite nth_error_map, date_range_nth_error in Hx.
    destruct (_ <? _)%nat; [|discriminate]. cbn [option_map] in Hx.
    injection Hx as <-. rewrite <- Hlook.
    destruct (find _ G); [reflexivity | apply Hnan]. }
  induction n as [|n IH]; intros r Hr.
  - unfold ffill in Hr. destruct L as [|r0 t] eqn:EL; [discriminate|].
    cbn in Hr. injection Hr as <-. cbn [carried].
    rewrite <- (Z.add_0_r first). apply (HL 0%nat). reflexivity.
  - unfold ffill in Hr. apply ffill_with_nth_succ in Hr.
    destruct Hr as (r' & x & Hr' & Hx & ->).
    cbn [carried]. rewrite Hfill, (HL _ _ Hx). f_equal. now apply IH.
Qed.
End GridValues.

Section DenseValues.
Variable today : Z.
Variable usgs : list RawEvent.

(** The rows of a present region in the dense grid are the grid of the
    region's daily means. *)
Lemma preprocess_group (df : list RawEvent) (region_arg : option string)
    (c c1 : Cache) (g : list Row) (R : string) :
  preprocess_data today usgs df region_arg c = (Ok g, c1) ->
  rows_of R g <> [] ->
  rows_of R g = grid today 0 (rows_of R (groupby_resample_mean (labelled df))).
Proof.
  unfold preprocess_data. intros H HR.
  apply bind_Ok in H. destruct H as (dm & c0 & Hdm & H).
  apply lift_Ok in Hdm. destruct Hdm as [Hdm ->].
  rewrite daily_means_eq in Hdm.
  destruct (some_delim df); [|discriminate]. injection Hdm as <-.
  destruct region_arg as [rg|].
  - destruct (index_min (rows_of rg _)) as [first|] eqn:Hmin; [|discriminate].
    unfold ret in H. injection H as <- <-.
    destruct (grid_eq today 0 _ first Hmin) as [_ Hg].
    rewrite Z.add_0_r in Hg. rewrite <- Hg in HR |- *.
    assert (Hreg : forall r, In r (grid today 0 (rows_of rg
                     (groupby_resample_mean (labelled df)))) -> region r = Some rg).
    { apply grid_region. intros r Hr. now apply rows_of_In in Hr. }
    destruct (string_dec R rg) as [->|Hne]; [now apply rows_of_all|].
    destruct HR. apply rows_of_none. intros r Hr E.
    rewrite (Hreg r Hr) in E. congruence.
  - apply bind_Ok in H. destruct H as (regions & c2 & _ & H).
    apply lift_Ok in H. destruct H as [H ->].
    destruct (groupby_apply_reindex today 0
                (filter (fun r => isin (region r) regions)
                        (groupby_resample_mean (labelled df))))
      as (out & Hout & Hrows & _).
    rewrite Hout in H. injection H as ->.
    rewrite Hrows, rows_of_filter_isin in HR |- *.
    destruct (isin (Some R) regions); [reflexivity|].
    now rewrite grid_nil in HR.
Qed.

(** The dense rows of a present region, by position. *)
Lemma dense_row_cell (col : Row -> option Q) (g : list Row) (R : string)
    (first : Z) (r : Row) :
  dense today R first (rows_of R g) -> In r g -> region r = Some R ->
  exists n, nth_error (rows_of R g) n = Some r
            /\ index r = first + Z.of_nat n
            /\ cell col g R (index r) = col r.
Proof.
  intros (Hidx & Hle & _) Hr HR.
  assert (Hin : In r (rows_of R g)) by now apply rows_of_In.
  apply In_nth_error in Hin. destruct Hin as (n & Hn). exists n.
  assert (Hi : index r = first + Z.of_nat n).
  { assert (E : nth_error (map index (rows_of R g)) n = Some (index r))
      by now rewrite nth_error_map, Hn.
    rewrite Hidx, date_range_nth_error in E.
    destruct (_ <? _)%nat; [|discriminate]. now injection E as <-. }
  split; [exact Hn|]. split; [exact Hi|].
  rewrite cell_rows_of, (find_range _ first today _ Hidx).
  assert (Hlen : (n < List.length (rows_of R g))%nat)
    by (apply nth_error_Some; congruence).
  rewrite <- (length_map index), Hidx, date_range_length in Hlen.
  destruct (Z.leb_spec first (index r)), (Z.leb_spec (index r) today); try lia.
  cbn [andb]. replace (Z.to_nat (index r - first)) with n by lia.
  now rewrite Hn.
Qed.
End DenseValues.

Section DenseColumns.
Variable today : Z.
Variable usgs : list RawEvent.

Lemma dense_columns (df : list RawEvent) (region_arg : option string)
    (c c1 : Cache) (g : list Row) (R : string) :
  preprocess_data today usgs df region_arg c = (Ok g, c1) ->
  rows_of R g <> [] ->
  exists first,
    earliest_day df R first
    /\ dense today R first (rows_of R g)
    /\ forall col rawcol, In (col, rawcol) columns ->
       forall n r, nth_error (rows_of R g) n = Some r ->
                   col r = carried (daily_mean rawcol df R) first n.
Proof.
  intros Hp HR.
  pose proof (preprocess_group today usgs df region_arg c c1 g R Hp HR) as Hg.
  set (G := rows_of R (groupby_resample_mean (labelled df))) in *.
  assert (HG : G <> []).
  { intros E. rewrite E, grid_nil in Hg. congruence. }
  destruct (daily_means_first df R HG) as (first & Hfirst & Hmin).
  fold G in Hmin.
  assert (Hle : first <= today).
  { destruct (Z_lt_le_dec today first) as [Hlt|Hle]; [|exact Hle].
    rewrite (grid_empty today G first 0 Hmin) in Hg by lia. congruence. }
  exists first. split; [exact Hfirst|]. split.
  - rewrite Hg. apply grid_dense; [|exact Hmin|exact Hle].
    intros r Hr. now apply rows_of_In in Hr.
  - intros col rawcol Hcol n r Hn. rewrite Hg in Hn.
    assert (Hlook : forall d,
               match find (fun r => index r =? d) G with
               | Some r => col r
               | None => None
               end = daily_mean rawcol df R d).
    { intros d. destruct (daily_means_cell df R d) as (H1 & H2 & H3 & H4).
      cbv zeta in H1, H2, H3, H4. fold G in H1, H2, H3, H4.
      destruct Hcol as [E|[E|[E|[E|[]]]]]; injection E as <- <-; assumption. }
    apply (grid_carried today col (daily_mean rawcol df R) G first); auto.
    + destruct Hcol as [E|[E|[E|[E|[]]]]]; injection E as <- <-; reflexivity.
    + destruct Hcol as [E|[E|[E|[E|[]]]]]; injection E as <- <-; reflexivity.
Qed.
End DenseColumns.

Lemma carried_own (f : Z -> option Q) (first : Z) (n : nat) (v : Q) :
  f (first + Z.of_nat n) = Some v -> carried f first n = Some v.
Proof.
  destruct n as [|n]; cbn [carried]; intros H.
  - now rewrite Z.add_0_r in H.
  - now rewrite H.
Qed.

(** X4.  The dense grid, cell by cell.  For a region present in the grid
    that [preprocess_data] returns, each of the columns [mag], [depth],
    [latitude], [longitude] holds on day [first + n] (up to today) the
    mean of that column over the region's events of the most recent day in
    [first .. first + n] on which some event of the region has a value,
    and nothing when there is no such day; [first] is the day of the
    region's earliest event. *)
Theorem dense_grid_values :
  forall (today : Z) (usgs df : list RawEvent) (region_arg : option string)
         (c c1 : Cache) (g : list Row) (R : string) (first : Z)
         (col : Row -> option Q) (rawcol : RawEvent -> option Q) (n : nat),
    preprocess_data today usgs df region_arg c = (Ok g, c1) ->
    rows_of R g <> [] ->
    earliest_day df R first ->
    In (col, rawcol) columns ->
    first + Z.of_nat n <= today ->
    cell col g R (first + Z.of_nat n) = carried (daily_mean rawcol df R) first n.
Proof.
  intros today usgs df region_arg c c1 g R first col rawcol n Hp HR Hfirst Hcol Hn.
  destruct (dense_columns today usgs df region_arg c c1 g R Hp HR)
    as (first' & Hfirst' & Hd & Hval).
  assert (first' = first) by exact (earliest_day_unique df R _ _ Hfirst' Hfirst).
  subst first'. destruct Hd as (Hidx & Hle & _).
  rewrite cell_rows_of, (find_range _ first today _ Hidx).
  destruct (Z.leb_spec first (first + Z.of_nat n)),
           (Z.leb_spec (first + Z.of_nat n) today); try lia.
  cbn [andb]. replace (Z.to_nat (first + Z.of_nat n - first)) with n by lia.
  destruct (nth_error (rows_of R g) n) as [r|] eqn:E.
  - now apply (Hval col rawcol Hcol n r).
  - apply nth_error_None in E.
    rewrite <- (length_map index), Hidx, date_range_length in E. lia.
Qed.

(** X5.  No look-ahead in the dense grid.  A value in a row of region [R]
    is the daily mean of a day [d] at or before the row's day, the latest
    such day with a value; and a day on which the region's events carry a
    value keeps its own daily mean.  No cell is ever filled from a later
    day or from another region's events. *)
Theorem dense_grid_no_lookahead :
  forall (today : Z) (usgs df : list RawEvent) (region_arg : option string)
         (c c1 : Cache) (g : list Row) (R : string) (r : Row)
         (col : Row -> option Q) (rawcol : RawEvent -> option Q),
    preprocess_data today usgs df region_arg c = (Ok g, c1) ->
    In r g -> region r = Some R ->
    In (col, rawcol) columns ->
    (forall v, col r = Some v ->
       exists d, d <= index r
                 /\ daily_mean rawcol df R d = Some v
                 /\ forall d', d < d' <= index r -> daily_mean rawcol df R d' = None)
    /\ (forall v, daily_mean rawcol df R (index r) = Some v -> col r = Some v).
Proof.
  intros today usgs df region_arg c c1 g R r col rawcol Hp Hr HR Hcol.
  assert (Hne : rows_of R g <> []).
  { intros E. assert (H : In r (rows_of R g)) by now apply rows_of_In.
    rewrite E in H. destruct H. }
  destruct (dense_columns today usgs df region_arg c c1 g R Hp Hne)
    as (first & Hfirst & Hd & Hval).
  destruct (dense_row_cell today col g R first r Hd Hr HR) as (n & Hn & Hi & _).
  rewrite (Hval col rawcol Hcol n r Hn), Hi. split.
  - intros v Hv. apply carried_latest in Hv.
    destruct Hv as (k & Hk & Hv & Hnone).
    exists (first + Z.of_nat k). split; [lia|]. split; [exact Hv|].
    intros d' Hd'. replace d' with (first + Z.of_nat (Z.to_nat (d' - first))) by lia.
    apply Hnone. lia.
  - intros v. apply carried_own.
Qed.

(** X6.  A column of a present region is complete in the dense grid (no
    row of the region lacks a value) exactly when some event of the
    region's earliest day carries a value in that column. *)
Theorem dense_column_complete :
  forall (today : Z) (usgs df : list RawEvent) (region_arg : option string)
         (c c1 : Cache) (g : list Row) (R : string) (first : Z)
         (col : Row -> option Q) (rawcol : RawEvent -> option Q),
    preprocess_data today usgs df region_arg c = (Ok g, c1) ->
    rows_of R g <> [] ->
    earliest_day df R first ->
    In (col, rawcol) columns ->
    ((forall r, In r g -> region r = Some R -> col r <> None)
     <-> daily_mean rawcol df R first <> None).
Proof.
  intros today usgs df region_arg c c1 g R first col rawcol Hp HR Hfirst Hcol.
  destruct (dense_columns today usgs df region_arg c c1 g R Hp HR)
    as (first' & Hfirst' & Hd & Hval).
  assert (first' = first) by exact (earliest_day_unique df R _ _ Hfirst' Hfirst).
  subst first'. split.
  - intros Hall. destruct (rows_of R g) as [|r0 l] eqn:E; [congruence|].
    assert (Hr0 : In r0 (rows_of R g)) by (rewrite E; now left).
    apply rows_of_In in Hr0. destruct Hr0 as [Hin Hreg].
    rewrite <- (carried_first_absent (daily_mean rawcol df R) first).
    rewrite <- (Hval col rawcol Hcol 0%nat r0 eq_refl). now apply Hall.
  - intros Hpres r Hr Hreg.
    destruct (dense_row_cell today col g R first r Hd Hr Hreg) as (n & Hn & _).
    rewrite (Hval col rawcol Hcol n r Hn). now apply carried_present.
Qed.

(** ** When the alignment returns *)

Lemma daily_means_present (df : list RawEvent) (R : string) :
  (exists e, In e df /\ label e = Some R) ->
  rows_of R (groupby_resample_mean (labelled df)) <> [].
Proof.
  intros (e & He & Hl). rewrite rows_of_daily_means. unfold resample_mean.
  assert (Hin : In (e, Some R) (events_of R (labelled df))).
  { apply events_of_In. split; [|reflexivity]. apply labelled_In. auto. }
  destruct (event_days (events_of R (labelled df))) as [|d ds] eqn:E.
  - unfold event_days in E. apply map_eq_nil in E. rewrite E in Hin. destruct Hin.
  - destruct (fold_min_spec d ds) as [Hmin Hlow].
    destruct (fold_max_spec d ds) as [_ Hup].
    rewrite date_range_cons by (apply Hup; exact Hmin). discriminate.
Qed.

(** X7.  The single-region alignment returns a grid exactly when some
    place of the table contains the delimiter and some event is labelled
    with the requested region.  Every row of the grid it returns carries
    the requested label and a day no later than today, and the cache is
    left untouched. *)
Theorem preprocess_single_region :
  forall (today : Z) (usgs df : list RawEvent) (R : string) (c : Cache),
    ((exists g, preprocess_data today usgs df (Some R) c = (Ok g, c))
     <-> some_delim df = true /\ exists e, In e df /\ label e = Some R)
    /\ forall g c', preprocess_data today usgs df (Some R) c = (Ok g, c') ->
         c' = c /\ forall r, In r g -> region r = Some R /\ index r <= today.
Proof.
  intros today usgs df R c. split; [split|].
  - intros (g & H). unfold preprocess_data, bind, lift in H.
    rewrite daily_means_eq in H. destruct (some_delim df); [|discriminate].
    split; [reflexivity|].
    destruct (index_min (rows_of R _)) as [first|] eqn:Hmin; [|discriminate].
    destruct (daily_means_first df R) as (first' & [He _] & _).
    { intros E. rewrite E in Hmin. discriminate. }
    destruct He as (e & He & Hl & _). now exists e.
  - intros [Hd He]. unfold preprocess_data, bind, lift.
    rewrite daily_means_eq, Hd.
    pose proof (daily_means_present df R He) as Hne.
    destruct (index_min (rows_of R _)) as [first|] eqn:Hmin.
    + eexists. reflexivity.
    + apply index_min_None in Hmin. contradiction.
  - intros g c' H.
    destruct (preprocess_single_dense today usgs df R c c' g H)
      as [-> [->|(first & _ & Hidx & _ & Hreg & _)]];
      (split; [reflexivity|]); intros r Hr; [destruct Hr|].
    split; [now apply Hreg|].
    apply (in_map index) in Hr. rewrite Hidx in Hr.
    apply date_range_In in Hr. lia.
Qed.

(** X8.  The all-regions alignment raises only [KeyError], and exactly
    when the table or the cached catalog table has no place with the
    delimiter; it never fails on a date range.  Every row of the grid it
    returns is labelled with a name of the static list that labels an event
    of the cached catalog table and an event of the table no later than
    the row's day; and no row is later than today. *)
Theorem preprocess_all_regions :
  forall (today : Z) (usgs df : list RawEvent) (c : Cache),
    if some_delim df && some_delim (cached usgs c)
    then exists g,
           preprocess_data today usgs df None c = (Ok g, Some (cached usgs c))
           /\ forall r, In r g ->
                exists k, region r = Some k
                          /\ In k known_regions
                          /\ (exists e, In e (cached usgs c) /\ label e = Some k)
                          /\ (exists e, In e df /\ label e = Some k
                                        /\ day_of (time e) <= index r)
                          /\ index r <= today
    else fst (preprocess_data today usgs df None c) = Raise KeyError.
Proof.
  intros today usgs df c.
  destruct (get_regions_spec usgs c) as [Hc Hreg].
  destruct (some_delim df) eqn:Hd; cbn [andb].
  2:{ unfold preprocess_data, bind, lift. now rewrite daily_means_eq, Hd. }
  destruct (some_delim (cached usgs c)).
  2:{ unfold preprocess_data, bind, lift. rewrite daily_means_eq, Hd.
      destruct (get_regions usgs c) as [[regions|e] c0]; cbn in Hreg; [discriminate|].
      now injection Hreg as ->. }
  destruct Hreg as (regions & Hget & _ & Hin).
  assert (Hp : exists g, preprocess_data today usgs df None c
                         = (Ok g, Some (cached usgs c))).
  { unfold preprocess_data, bind, lift. rewrite daily_means_eq, Hd.
    destruct (get_regions usgs c) as [[regions'|e] c0]; cbn in Hget, Hc;
      [|discriminate]. subst c0.
    destruct (groupby_apply_reindex today 0
                (filter (fun r => isin (region r) regions')
                        (groupby_resample_mean (labelled df))))
      as (out & -> & _). now exists out. }
  destruct Hp as (g & Hp). exists g. split; [exact Hp|].
  intros r Hr.
  destruct (preprocess_all_dense today usgs df c _ g Hp)
    as (regions' & Hget' & Hlab & Hdense).
  destruct (Hlab r Hr) as (k & Hk). exists k. split; [exact Hk|].
  assert (Hne : rows_of k g <> []).
  { intros E. assert (H : In r (rows_of k g)) by now apply rows_of_In.
    rewrite E in H. destruct H. }
  destruct (Hdense k Hne) as (Hisin & first & [(e & He & Hl & Hday) _] & Hidx & _).
  assert (regions' = regions).
  { destruct (get_regions_run usgs c _ _ (surjective_pairing _)) as [_ H].
    rewrite Hc in H. change (warm usgs c) with (Some (cached usgs c)) in Hget'.
    rewrite Hget' in H. rewrite Hget in H. congruence. }
  subst regions'.
  assert (Hk' : In k regions).
  { cbn [isin] in Hisin. apply existsb_exists in Hisin.
    destruct Hisin as (k' & Hk' & E). apply String.eqb_eq in E. now subst k'. }
  apply Hin in Hk'. destruct Hk' as [Hknown Hobs].
  assert (Hrange : In (index r) (date_range first today)).
  { rewrite <- Hidx. apply in_map. now apply rows_of_In. }
  apply date_range_In in Hrange.
  repeat split; auto; [|lia]. exists e. repeat split; auto. lia.
Qed.

(** ** Rolling statistics by day *)

Lemma firstn_shift (col : Row -> option Q) (W : nat) (l : list Row) :
  (W <= List.length l)%nat ->
  map col (firstn W l) = map (fun i => shift col i l) (seq 0 W).
Proof.
  induction W as [|W IH] in l |- *; intros H; [reflexivity|].
  destruct l as [|x l]; [cbn in H; lia|].
  cbn [firstn map seq]. f_equal.
  rewrite IH by (cbn in H; lia).
  rewrite <- seq_shift, map_map. reflexivity.
Qed.

(** The rolling statistic of a row is the statistic of the [W] cells found
    by shifting 0, 1, ..., W-1 positions up in the group, when all of them
    hold a value. *)
Lemma rolling_shift (W : nat) (agg : list Q -> option Q) (col : Row -> option Q)
    (hist : list Row) :
  rolling W agg col hist =
  if forallb is_some (map (fun i => shift col i hist) (seq 0 W))
  then agg (rev (present (map (fun i => shift col i hist) (seq 0 W))))
  else None.
Proof.
  unfold rolling. destruct (Nat.le_gt_cases W (List.length hist)) as [Hle|Hgt].
  - rewrite (firstn_shift col W hist Hle), length_map, length_seq, Nat.ltb_irrefl.
    reflexivity.
  - rewrite length_map, length_firstn, Nat.min_r by lia.
    destruct (Nat.ltb_spec (List.length hist) W); [|lia].
    destruct (forallb _ _) eqn:E; [|reflexivity].
    rewrite forallb_forall in E.
    assert (Hs : shift col (List.length hist) hist = None).
    { unfold shift.
      now rewrite (proj2 (nth_error_None hist (List.length hist)) (le_n _)). }
    assert (Hin : In None (map (fun i => shift col i hist) (seq 0 W))).
    { apply in_map_iff. exists (List.length hist).
      split; [exact Hs | apply in_seq; lia]. }
    specialize (E None Hin). discriminate E.
Qed.

Lemma contiguous_row_cell (col : Row -> option Q) (df : list Row) (R : string)
    (a b : Z) (r : Row) :
  map index (rows_of R df) = date_range a b ->
  In r df -> region r = Some R ->
  cell col df R (index r) = col r.
Proof.
  intros Hidx Hr HR.
  assert (Hin : In r (rows_of R df)) by now apply rows_of_In.
  apply In_nth_error in Hin. destruct Hin as (n & Hn).
  assert (Hlen : (n < List.length (rows_of R df))%nat)
    by (apply nth_error_Some; congruence).
  rewrite <- (length_map index), Hidx, date_range_length in Hlen.
  assert (Hi : index r = a + Z.of_nat n).
  { assert (E : nth_error (map index (rows_of R df)) n = Some (index r))
      by now rewrite nth_error_map, Hn.
    rewrite Hidx, date_range_nth_error in E.
    destruct (_ <? _)%nat; [|discriminate]. now injection E as <-. }
  rewrite cell_rows_of, (find_range _ a b _ Hidx).
  destruct (Z.leb_spec a (index r)), (Z.leb_spec (index r) b); try lia.
  cbn [andb]. replace (Z.to_nat (index r - a)) with n by lia.
  now rewrite Hn.
Qed.

Lemma shift_day (col : Row -> option Q) (df pre post : list Row)
    (x : Row) (R : string) (a b : Z) (i : nat) :
  df = pre ++ x :: post ->
  region x = Some R ->
  map index (rows_of R df) = date_range a b ->
  shift col i (history (rev pre) x) = cell col df R (index x - Z.of_nat i).
Proof.
  intros Hdf Hx Hidx. destruct i as [|i].
  - rewrite Z.sub_0_r. cbn. symmetry.
    apply (contiguous_row_cell col df R a b x Hidx); [|exact Hx].
    rewrite Hdf. apply in_or_app. right. now left.
  - apply (shift_is_day_shift col df pre post x R a b); auto. lia.
Qed.

Lemma rolling_is_day_window (W : nat) (agg : list Q -> option Q)
    (col : Row -> option Q) (df pre post : list Row) (x : Row) (R : string)
    (a b : Z) :
  df = pre ++ x :: post ->
  region x = Some R ->
  map index (rows_of R df) = date_range a b ->
  rolling W agg col (history (rev pre) x) = window_stat agg col df R (index x) W.
Proof.
  intros Hdf Hx Hidx. rewrite rolling_shift. unfold window_stat, day_window.
  assert (E : map (fun i => shift col i (history (rev pre) x)) (seq 0 W)
              = map (fun i => cell col df R (index x - Z.of_nat i)) (seq 0 W)).
  { apply map_ext. intros i. now apply (shift_day col df pre post x R a b). }
  now rewrite E.
Qed.

Section RollingRuns.
Variable today : Z.
Variable usgs : list RawEvent.
Variable sqrt : Q -> Q.

(** The rolling columns of a run, by day. *)
Lemma pipeline_rolling (df : list RawEvent) (region_arg : option string)
    (c c1 c2 : Cache) (g g' : list Row) (x : FeatureRow) (R : string) :
  preprocess_data today usgs df region_arg c = (Ok g, c1) ->
  extend today usgs g region_arg c1 = (Ok g', c2) ->
  In x (add_features sqrt g') -> region (base x) = Some R ->
  let std := fun l => option_map sqrt (var l) in
  let D := index (base x) in
  mag_rolling_mean_3 x = window_stat mean mag g' R D 3
  /\ mag_rolling_std_3 x = window_stat std mag g' R D 3
  /\ depth_rolling_mean_3 x = window_stat mean depth g' R D 3
  /\ depth_rolling_std_3 x = window_stat std depth g' R D 3
  /\ mag_rolling_mean_10 x = window_stat mean mag g' R D 10
  /\ mag_rolling_std_10 x = window_stat std mag g' R D 10
  /\ depth_rolling_mean_10 x = window_stat mean depth g' R D 10
  /\ depth_rolling_std_10 x = window_stat std depth g' R D 10.
Proof.
  intros Hp He Hx HR std D.
  apply features_from_In in Hx. destruct Hx as (pre & post & Eg & Ex).
  rewrite app_nil_r in Ex. subst D.
  remember (base x) as bx eqn:Hb.
  assert (Hin : In bx g').
  { rewrite Eg. apply in_or_app. right. now left. }
  destruct (extended_rows today usgs df region_arg c c1 c2 g g' bx R Hp He Hin HR)
    as (first & _ & _ & _ & Hidx).
  rewrite Ex. unfold feature_row.
  cbn [mag_rolling_mean_3 mag_rolling_std_3 depth_rolling_mean_3
       depth_rolling_std_3 mag_rolling_mean_10 mag_rolling_std_10
       depth_rolling_mean_10 depth_rolling_std_10].
  repeat split;
    apply (rolling_is_day_window _ _ _ g' pre post bx R first (today + 3));
    auto.
Qed.
End RollingRuns.

(** X9.  In the feature table of a run, each rolling column of a row of
    region [R] at day [D] is the statistic (mean, or standard deviation
    with one degree of freedom removed) of the magnitudes (resp. depths)
    that the extended grid stores for the same region on the days
    [D - W + 1 .. D], for [W] = 3 and 10; it is missing as soon as one of
    these days has no row for the region or no value.  The window ends at
    the row's own day: it is not shifted back by the lag. *)
Theorem rolling_reads_day_window :
  forall (today : Z) (usgs : list RawEvent) (sqrt : Q -> Q)
         (df : list RawEvent) (region_arg : option string)
         (c c1 c2 : Cache) (g : list Row) (fr : list FeatureRow),
    preprocess_data today usgs df region_arg c = (Ok g, c1) ->
    create_features today usgs sqrt g region_arg c1 = (Ok fr, c2) ->
    forall (x : FeatureRow) (R : string),
      In x fr -> region (base x) = Some R ->
      let std := fun l => option_map sqrt (var l) in
      let G := map base fr in
      let D := index (base x) in
      mag_rolling_mean_3 x = window_stat mean mag G R D 3
      /\ mag_rolling_std_3 x = window_stat std mag G R D 3
      /\ depth_rolling_mean_3 x = window_stat mean depth G R D 3
      /\ depth_rolling_std_3 x = window_stat std depth G R D 3
      /\ mag_rolling_mean_10 x = window_stat mean mag G R D 10
      /\ mag_rolling_std_10 x = window_stat std mag G R D 10
      /\ depth_rolling_mean_10 x = window_stat mean depth G R D 10
      /\ depth_rolling_std_10 x = window_stat std depth G R D 10.
Proof.
  intros today usgs sqrt df region_arg c c1 c2 g fr Hp Hc x R Hx HR std G D.
  apply create_features_Ok in Hc. destruct Hc as (g' & He & ->).
  subst G. rewrite add_features_base.
  exact (pipeline_rolling today usgs sqrt df region_arg c c1 c2 g g' x R
           Hp He Hx HR).
Qed.

Lemma window_stat_missing (agg : list Q -> option Q) (col : Row -> option Q)
    (df : list Row) (R : string) (D : Z) (W i : nat) :
  (i < W)%nat -> cell col df R (D - Z.of_nat i) = None ->
  window_stat agg col df R D W = None.
Proof.
  intros Hi Hc. unfold window_stat.
  destruct (forallb _ _) eqn:E; [|reflexivity].
  rewrite forallb_forall in E.
  assert (Hin : In None (day_window col df R D W)).
  { unfold day_window. apply in_map_iff. exists i.
    split; [exact Hc | apply in_seq; lia]. }
  specialize (E None Hin). discriminate E.
Qed.

Lemma cell_before (col : Row -> option Q) (df : list Row) (R : string)
    (a b d : Z) :
  map index (rows_of R df) = date_range a b -> d < a -> cell col df R d = None.
Proof.
  intros Hidx Hd. rewrite cell_rows_of, (find_range _ a b _ Hidx).
  destruct (Z.leb_spec a d); [lia | reflexivity].
Qed.

(** X10.  Single-region branch: every row of a day after today has none
    of the eight rolling statistics, because its own magnitude and depth
    are missing and every window ends at the row's own day. *)
Theorem single_region_future_rolling_absent :
  forall (today : Z) (usgs : list RawEvent) (sqrt : Q -> Q)
         (df : list RawEvent) (rg : string)
         (c c1 c2 : Cache) (g : list Row) (fr : list FeatureRow),
    preprocess_data today usgs df (Some rg) c = (Ok g, c1) ->
    create_features today usgs sqrt g (Some rg) c1 = (Ok fr, c2) ->
    forall x, In x fr -> today < index (base x) ->
      mag_rolling_mean_3 x = None /\ mag_rolling_std_3 x = None
      /\ depth_rolling_mean_3 x = None /\ depth_rolling_std_3 x = None
      /\ mag_rolling_mean_10 x = None /\ mag_rolling_std_10 x = None
      /\ depth_rolling_mean_10 x = None /\ depth_rolling_std_10 x = None.
Proof.
  intros today usgs sqrt df rg c c1 c2 g fr Hp Hc x Hx Hday.
  apply create_features_Ok in Hc. destruct Hc as (g' & He & ->).
  assert (Hin : In (base x) g').
  { rewrite <- (add_features_base sqrt g'). now apply in_map. }
  destruct (extended_labelled today usgs df (Some rg) c c1 c2 g g' Hp He _ Hin)
    as (R & HR).
  destruct (extended_rows today usgs df (Some rg) c c1 c2 g g' _ R Hp He Hin HR)
    as (first & _ & Hd & E & Hidx).
  assert (Hx' : In (base x) (rows_of R g')) by now apply rows_of_In.
  rewrite E in Hx'. apply in_app_or in Hx'. destruct Hx' as [Hx'|Hx'].
  { apply (in_map index) in Hx'. destruct Hd as (Hd & _).
    rewrite Hd in Hx'. apply date_range_In in Hx'. lia. }
  unfold horizon_rows in Hx'. cbn [horizon_fill] in Hx'.
  apply ffill_from_nan_fill_region in Hx'.
  destruct Hx' as (_ & _ & Hmag & Hdepth & _).
  assert (Hcm : cell mag g' R (index (base x) - Z.of_nat 0) = None).
  { rewrite Z.sub_0_r, (contiguous_row_cell mag g' R _ _ _ Hidx Hin HR).
    exact Hmag. }
  assert (Hcd : cell depth g' R (index (base x) - Z.of_nat 0) = None).
  { rewrite Z.sub_0_r, (contiguous_row_cell depth g' R _ _ _ Hidx Hin HR).
    exact Hdepth. }
  destruct (pipeline_rolling today usgs sqrt df (Some rg) c c1 c2 g g' x R
              Hp He Hx HR) as (-> & -> & -> & -> & -> & -> & -> & ->).
  repeat split;
    first [ apply (window_stat_missing _ mag g' R _ _ 0%nat); [lia | exact Hcm]
          | apply (window_stat_missing _ depth g' R _ _ 0%nat); [lia | exact Hcd] ].
Qed.

(** X11.  Warm-up of a region.  With [first] the day of the region's
    earliest event, a row of the region at a day before [first + i] has no
    [mag_lag_i] and no [depth_lag_i]; a row before [first + 2] has none of
    the 3-day rolling statistics and a row before [first + 9] none of the
    10-day ones.  A region seen for the first time fewer than 7 days ago
    therefore has no [mag_lag_10] in any of its rows. *)
Theorem warm_up_features_absent :
  forall (today : Z) (usgs : list RawEvent) (sqrt : Q -> Q)
         (df : list RawEvent) (region_arg : option string)
         (c c1 c2 : Cache) (g : list Row) (fr : list FeatureRow)
         (x : FeatureRow) (R : string) (first : Z),
    preprocess_data today usgs df region_arg c = (Ok g, c1) ->
    create_features today usgs sqrt g region_arg c1 = (Ok fr, c2) ->
    In x fr -> region (base x) = Some R ->
    earliest_day df R first ->
    (forall i, (3 <= i <= 10)%nat -> index (base x) < first + Z.of_nat i ->
               mag_lag_ i x = None /\ depth_lag_ i x = None)
    /\ (index (base x) < first + 2 ->
        mag_rolling_mean_3 x = None /\ mag_rolling_std_3 x = None
        /\ depth_rolling_mean_3 x = None /\ depth_rolling_std_3 x = None)
    /\ (index (base x) < first + 9 ->
        mag_rolling_mean_10 x = None /\ mag_rolling_std_10 x = None
        /\ depth_rolling_mean_10 x = None /\ depth_rolling_std_10 x = None)
    /\ (today < first + 7 -> mag_lag_ 10 x = None /\ depth_lag_ 10 x = None).
Proof.
  intros today usgs sqrt df region_arg c c1 c2 g fr x R first Hp Hc Hx HR Hfirst.
  apply create_features_Ok in Hc. destruct Hc as (g' & He & ->).
  assert (Hin : In (base x) g').
  { rewrite <- (add_features_base sqrt g'). now apply in_map. }
  destruct (extended_rows today usgs df region_arg c c1 c2 g g' _ R Hp He Hin HR)
    as (first' & Hfirst' & _ & _ & Hidx).
  assert (first' = first) by exact (earliest_day_unique df R _ _ Hfirst' Hfirst).
  subst first'.
  assert (Hup : index (base x) <= today + 3).
  { assert (H : In (index (base x)) (map index (rows_of R g'))).
    { apply in_map. now apply rows_of_In. }
    rewrite Hidx in H. apply date_range_In in H. lia. }
  assert (Hlag : forall i, (3 <= i <= 10)%nat ->
             index (base x) < first + Z.of_nat i ->
             mag_lag_ i x = None /\ depth_lag_ i x = None).
  { intros i Hi Hlt.
    destruct (pipeline_lags today usgs sqrt df region_arg c c1 c2 g g' x R i
                Hp He Hx HR Hi) as [-> ->].
    split; apply (cell_before _ g' R first (today + 3)); auto; lia. }
  destruct (pipeline_rolling today usgs sqrt df region_arg c c1 c2 g g' x R
              Hp He Hx HR) as (-> & -> & -> & -> & -> & -> & -> & ->).
  split; [exact Hlag|]. split; [|split].
  - intros Hlt. repeat split;
      apply (window_stat_missing _ _ g' R _ _ 2%nat); try lia;
      apply (cell_before _ g' R first (today + 3)); auto; lia.
  - intros Hlt. repeat split;
      apply (window_stat_missing _ _ g' R _ _ 9%nat); try lia;
      apply (cell_before _ g' R first (today + 3)); auto; lia.
  - intros Hlt. apply Hlag; lia.
Qed.

(** ** The assembled table *)

Lemma join_length (fr : list FeatureRow) (fc : list (Q * Q)) :
  List.length (join fr fc) = List.length fr.
Proof.
  induction fr as [|x fr IH] in fc |- *; [reflexivity|].
  cbn [join List.length]. now rewrite IH.
Qed.

Lemma nth_error_tl {A} (l : list A) (k : nat) :
  nth_error (tl l) k = nth_error l (S k).
Proof. destruct l; [now destruct k | reflexivity]. Qed.

Lemma join_nth (fr : list FeatureRow) (fc : list (Q * Q)) (k : nat) (x : FeatureRow) :
  nth_error fr k = Some x ->
  nth_error (join fr fc) k =
  Some {| Date := index (base x);
          Magnitude := mag (base x);
          Magnitude_Forecast := option_map fst (nth_error fc k);
          Depth := depth (base x);
          Depth_Forecast := option_map snd (nth_error fc k);
          Region := region (base x);
          Latitude := latitude (base x);
          Longitude := longitude (base x) |}.
Proof.
  induction fr as [|y fr IH] in fc, k |- *; intros H; [now destruct k|].
  destruct k as [|k]; cbn [join nth_error] in H |- *.
  - injection H as ->. now destruct fc.
  - rewrite (IH (tl fc) k H), nth_error_tl. reflexivity.
Qed.

Lemma join_keys (p : option string -> Z -> bool) (fr : list FeatureRow)
    (fc : list (Q * Q)) :
  map Date (filter (fun r => p (Region r) (Date r)) (join fr fc)) =
  map index (filter (fun r => p (region r) (index r)) (map base fr)).
Proof.
  induction fr as [|x fr IH] in fc |- *; [reflexivity|].
  cbn [join filter map Region Date].
  destruct (p (region (base x)) (index (base x))); cbn [map Date]; now rewrite IH.
Qed.

Lemma join_In (fr : list FeatureRow) (fc : list (Q * Q)) (r : ForecastRow) :
  In r (join fr fc) ->
  exists x, In x fr /\ Date r = index (base x) /\ Region r = region (base x).
Proof.
  induction fr as [|y fr IH] in fc |- *; intros H; [destruct H|].
  cbn [join] in H. destruct H as [<-|H].
  - exists y. cbn. auto.
  - destruct (IH _ H) as (x & Hx & E). exists x. split; [now right | exact E].
Qed.

Lemma filter_and {A} (f g : A -> bool) (l : list A) :
  filter f (filter g l) = filter (fun x => f x && g x) l.
Proof.
  induction l as [|a l IH]; [reflexivity|].
  cbn [filter]. destruct (g a); cbn [filter].
  - rewrite andb_true_r. destruct (f a); now rewrite IH.
  - now rewrite andb_false_r.
Qed.

Lemma filter_range (L : list Row) (a b t : Z) :
  map index L = date_range a b ->
  map index (filter (fun r => t <=? index r) L) = date_range (Z.max a t) b.
Proof.
  induction L as [|r L IH] in a |- *; intros H.
  - destruct (Z_lt_le_dec b a) as [Hlt|Hle].
    + cbn. symmetry. apply date_range_nil. lia.
    + rewrite date_range_cons in H by assumption. discriminate.
  - destruct (Z_lt_le_dec b a) as [Hlt|Hle].
    { rewrite date_range_nil in H by assumption. discriminate. }
    rewrite date_range_cons in H by assumption.
    cbn [map] in H. injection H as Hr HL.
    cbn [filter]. rewrite Hr. specialize (IH _ HL).
    destruct (Z.leb_spec t a).
    + cbn [map]. rewrite Hr, IH.
      replace (Z.max (a + 1) t) with (a + 1) by lia.
      replace (Z.max a t) with a by lia.
      symmetry. now apply date_range_cons.
    + rewrite IH. f_equal. lia.
Qed.

Section Assembly.
Variable today : Z.
Variable usgs : list RawEvent.
Variable sqrt : Q -> Q.
Variable model : list (list (option Q) * option string) -> list (Q * Q).

(** A run that returns went through both stages on the cached table. *)
Lemma assemble_Ok (region_arg : option string) (c c' : Cache)
    (rows : list ForecastRow) :
  assemble today usgs sqrt model region_arg c = (Ok rows, c') ->
  exists g fr,
    preprocess_data today usgs (cached usgs c) region_arg (warm usgs c)
      = (Ok g, warm usgs c)
    /\ create_features today usgs sqrt g region_arg (warm usgs c)
       = (Ok fr, warm usgs c)
    /\ rows = join fr (model (map (fun r => (features r, region (base r))) fr))
    /\ c' = warm usgs c.
Proof.
  rewrite assemble_run. intros H.
  apply bind_Ok in H. destruct H as (g & c0 & Hp & H).
  pose proof (preprocess_data_keeps today usgs (cached usgs c) region_arg c) as Hk.
  rewrite Hp in Hk. cbn in Hk. subst c0.
  apply bind_Ok in H. destruct H as (fr & c0 & Hc & H).
  pose proof (create_features_keeps today usgs sqrt g region_arg c) as Hk.
  rewrite Hc in Hk. cbn in Hk. subst c0.
  unfold ret in H. injection H as <- <-.
  now exists g, fr.
Qed.

Lemma assemble_stages (region_arg : option string) (c : Cache)
    (g : list Row) (fr : list FeatureRow) :
  preprocess_data today usgs (cached usgs c) region_arg (warm usgs c)
    = (Ok g, warm usgs c) ->
  create_features today usgs sqrt g region_arg (warm usgs c)
    = (Ok fr, warm usgs c) ->
  assemble today usgs sqrt model region_arg c =
  (Ok (join fr (model (map (fun r => (features r, region (base r))) fr))),
   warm usgs c).
Proof.
  intros Hp Hc. rewrite assemble_run. unfold bind. now rewrite Hp, Hc.
Qed.

Lemma get_forecast_of_assemble (region_arg : option string) (c : Cache) :
  get_forecast today usgs sqrt model region_arg c =
  (result_map (filter (fun r => today - 7 <=? Date r))
              (fst (assemble today usgs sqrt model region_arg c)),
   snd (assemble today usgs sqrt model region_arg c)).
Proof.
  unfold get_forecast, bind, ret.
  now destruct (assemble today usgs sqrt model region_arg c) as [[a|e] c0].
Qed.

Lemma forecast_earthquakes_of_assemble (c : Cache) :
  forecast_earthquakes today usgs sqrt model c =
  (result_map (filter (fun r => today <=? Date r))
              (fst (assemble today usgs sqrt model None c)),
   snd (assemble today usgs sqrt model None c)).
Proof.
  unfold forecast_earthquakes, bind, ret. rewrite get_forecast_of_assemble.
  destruct (assemble today usgs sqrt model None c) as [[a|e] c0];
    cbn [fst snd result_map]; [|reflexivity].
  f_equal. f_equal. apply filter_implied.
  intros x Hx. apply Z.leb_le in Hx. apply Z.leb_le. lia.
Qed.

(** The dates of one region in a windowed view of the assembled table. *)
Lemma window_region_days (df : list RawEvent) (region_arg : option string)
    (c c1 c2 : Cache) (g g' : list Row) (fc : list (Q * Q)) (R : string) (t : Z)
    (r : ForecastRow) :
  preprocess_data today usgs df region_arg c = (Ok g, c1) ->
  extend today usgs g region_arg c1 = (Ok g', c2) ->
  In r (join (add_features sqrt g') fc) -> Region r = Some R ->
  exists first,
    earliest_day df R first /\ first <= today
    /\ map Date (filter (fun r => region_is R (Region r))
                   (filter (fun r => t <=? Date r) (join (add_features sqrt g') fc)))
       = date_range (Z.max first t) (today + 3).
Proof.
  intros Hp He Hr HR.
  apply join_In in Hr. destruct Hr as (x & Hx & _ & Ereg).
  assert (Hin : In (base x) g').
  { rewrite <- (add_features_base sqrt g'). now apply in_map. }
  rewrite HR in Ereg. symmetry in Ereg.
  destruct (extended_rows today usgs df region_arg c c1 c2 g g' _ R Hp He Hin Ereg)
    as (first & Hfirst & Hd & _ & Hidx).
  exists first. split; [exact Hfirst|]. split; [apply Hd|].
  rewrite filter_and.
  rewrite (join_keys (fun reg d => region_is R reg && (t <=? d))).
  rewrite add_features_base, <- filter_and.
  fold (rows_of R g'). rewrite filter_and.
  replace (filter (fun x0 => region_is R (region x0) && (t <=? index x0)) g')
    with (filter (fun r0 => t <=? index r0) (rows_of R g')).
  - now apply filter_range.
  - unfold rows_of. rewrite filter_and. apply filter_ext. intros a.
    apply andb_comm.
Qed.
End Assembly.

(** X12.  The assembled table follows the feature table row by row: row
    [k] carries the day, the label and the observed columns of feature row
    [k] and the [k]-th pair the model returned, magnitude first and depth
    second (nothing when the model returned fewer pairs).  When the model
    returns one pair per input row, no forecast is missing. *)
Theorem forecast_join_by_position :
  forall (today : Z) (usgs : list RawEvent) (sqrt : Q -> Q)
         (model : list (list (option Q) * option string) -> list (Q * Q))
         (region_arg : option string) (c c' : Cache) (rows : list ForecastRow),
    assemble today usgs sqrt model region_arg c = (Ok rows, c') ->
    exists g fr,
      create_features today usgs sqrt g region_arg (warm usgs c)
        = (Ok fr, warm usgs c)
      /\ List.length rows = List.length fr
      /\ (forall k x, nth_error fr k = Some x ->
            nth_error rows k =
            Some {| Date := index (base x);
                    Magnitude := mag (base x);
                    Magnitude_Forecast :=
                      option_map fst
                        (nth_error (model (map (fun r => (features r, region (base r))) fr)) k);
                    Depth := depth (base x);
                    Depth_Forecast :=
                      option_map snd
                        (nth_error (model (map (fun r => (features r, region (base r))) fr)) k);
                    Region := region (base x);
                    Latitude := latitude (base x);
                    Longitude := longitude (base x) |})
      /\ (List.length (model (map (fun r => (features r, region (base r))) fr))
          = List.length fr ->
          forall r, In r rows ->
                    Magnitude_Forecast r <> None /\ Depth_Forecast r <> None).
Proof.
  intros today usgs sqrt model region_arg c c' rows H.
  apply assemble_Ok in H. destruct H as (g & fr & _ & Hc & -> & ->).
  exists g, fr. split; [exact Hc|]. split; [apply join_length|].
  split; [intros k x; apply join_nth|].
  intros Hlen r Hr. apply In_nth_error in Hr. destruct Hr as (k & Hk).
  assert (Hlt : (k < List.length fr)%nat).
  { rewrite <- (join_length fr (model (map (fun r => (features r, region (base r))) fr))).
    apply nth_error_Some. congruence. }
  destruct (nth_error fr k) as [x|] eqn:Ex.
  2:{ apply nth_error_None in Ex. lia. }
  rewrite (join_nth fr _ k x Ex) in Hk. injection Hk as <-.
  cbn [Magnitude_Forecast Depth_Forecast].
  destruct (nth_error (model _) k) as [p|] eqn:Ep.
  - split; discriminate.
  - apply nth_error_None in Ep. lia.
Qed.

(** X13.  Every row [get_forecast] returns is labelled, and is dated from
    today - 7 through today + 3.  The rows of one region are one row per
    day, in order, from the later of today - 7 and the day of the region's
    earliest event in the cached table through today + 3. *)
Theorem get_forecast_region_days :
  forall (today : Z) (usgs : list RawEvent) (sqrt : Q -> Q)
         (model : list (list (option Q) * option string) -> list (Q * Q))
         (region_arg : option string) (c c' : Cache) (rows : list ForecastRow),
    get_forecast today usgs sqrt model region_arg c = (Ok rows, c') ->
    forall r, In r rows ->
      exists R first,
        Region r = Some R
        /\ earliest_day (cached usgs c) R first
        /\ map Date (filter (fun r => region_is R (Region r)) rows)
           = date_range (Z.max first (today - 7)) (today + 3)
        /\ today - 7 <= Date r <= today + 3.
Proof.
  intros today usgs sqrt model region_arg c c' rows H r Hr.
  rewrite get_forecast_of_assemble in H.
  destruct (assemble today usgs sqrt model region_arg c) as [[a|e] c0] eqn:Ha;
    cbn in H; [|discriminate]. injection H as <- <-.
  apply assemble_Ok in Ha. destruct Ha as (g & fr & Hp & Hc & -> & ->).
  apply create_features_Ok in Hc. destruct Hc as (g' & He & ->).
  assert (Hr' : In r (join (add_features sqrt g')
                        (model (map (fun r => (features r, region (base r)))
                                  (add_features sqrt g')))))
    by now apply filter_In in Hr.
  destruct (join_In _ _ r Hr') as (x & Hx & _ & Ereg).
  assert (Hin : In (base x) g').
  { rewrite <- (add_features_base sqrt g'). now apply in_map. }
  destruct (extended_labelled today usgs _ region_arg _ _ _ g g' Hp He _ Hin)
    as (R & HR).
  rewrite HR in Ereg.
  destruct (window_region_days today usgs sqrt _ region_arg _ _ _ g g' _ R
              (today - 7) r Hp He Hr' Ereg) as (first & Hfirst & Hle & Hdays).
  exists R, first. split; [exact Ereg|]. split; [exact Hfirst|].
  split; [exact Hdays|].
  assert (Hd : In (Date r) (date_range (Z.max first (today - 7)) (today + 3))).
  { rewrite <- Hdays. apply in_map. apply filter_In. split; [exact Hr|].
    now apply region_is_true. }
  apply date_range_In in Hd. lia.
Qed.

(** ** When a forecast is returned *)

Lemma join_covers (fr : list FeatureRow) (fc : list (Q * Q)) (x : FeatureRow) :
  In x fr ->
  exists r, In r (join fr fc) /\ Date r = index (base x)
            /\ Region r = region (base x).
Proof.
  induction fr as [|y fr IH] in fc |- *; intros H; [destruct H|].
  cbn [join]. destruct H as [->|H].
  - eexists. split; [now left|]. split; reflexivity.
  - destruct (IH (tl fc) H) as (r & Hr & E). exists r. split; [now right | exact E].
Qed.

Section Returns.
Variable today : Z.
Variable usgs : list RawEvent.
Variable sqrt : Q -> Q.
Variable model : list (list (option Q) * option string) -> list (Q * Q).

Lemma preprocess_all_present (df : list RawEvent) (c : Cache) (e : RawEvent)
    (R : string) :
  some_delim df = true ->
  some_delim (cached usgs c) = true ->
  In e df -> label e = Some R -> day_of (time e) <= today ->
  In R known_regions ->
  (exists e', In e' (cached usgs c) /\ label e' = Some R) ->
  exists g, preprocess_data today usgs df None c = (Ok g, warm usgs c)
            /\ rows_of R g <> [].
Proof.
  intros Hd Hdc He Hl Hday Hknown Hobs.
  destruct (get_regions_spec usgs c) as [Hc Hreg]. rewrite Hdc in Hreg.
  destruct Hreg as (regions & Hget & _ & Hin).
  unfold preprocess_data, bind, lift. rewrite daily_means_eq, Hd.
  destruct (get_regions usgs c) as [[regions'|err] c0]; cbn in Hget, Hc;
    [|discriminate]. injection Hget as ->. subst c0.
  destruct (groupby_apply_reindex today 0
              (filter (fun r => isin (region r) regions)
                      (groupby_resample_mean (labelled df))))
    as (out & -> & Hrows & _).
  exists out. split; [reflexivity|].
  rewrite Hrows, rows_of_filter_isin.
  assert (Hisin : isin (Some R) regions = true).
  { cbn [isin]. apply existsb_exists. exists R. split; [|apply String.eqb_refl].
    apply Hin. auto. }
  rewrite Hisin.
  assert (Hne : rows_of R (groupby_resample_mean (labelled df)) <> []).
  { apply daily_means_present. now exists e. }
  destruct (daily_means_first df R Hne) as (first & [_ Hlow] & Hmin).
  specialize (Hlow e He Hl).
  intros E. apply (f_equal (map index)) in E.
  rewrite (grid_index today 0 _ first Hmin), date_range_cons in E by lia.
  discriminate E.
Qed.

Lemma preprocess_single_eq (df : list RawEvent) (R : string) (c : Cache) :
  some_delim df = true ->
  preprocess_data today usgs df (Some R) c =
  match index_min (rows_of R (groupby_resample_mean (labelled df))) with
  | None => (Raise ValueError, c)
  | Some first =>
    (Ok (ffill (df_reindex (rows_of R (groupby_resample_mean (labelled df)))
                  (date_range first today))), c)
  end.
Proof.
  intros Hd. unfold preprocess_data, bind, lift. rewrite daily_means_eq, Hd.
  now destruct (index_min _).
Qed.

Lemma create_features_single_eq (g : list Row) (R : string) (c : Cache) :
  create_features today usgs sqrt g (Some R) c =
  match index_min g with
  | None => (Raise ValueError, c)
  | Some m =>
    (Ok (add_features sqrt (ffill_region (df_reindex g (date_range m (today + 3))))), c)
  end.
Proof.
  unfold create_features, extend, bind. now destruct (index_min g).
Qed.

Lemma existsb_event (df : list RawEvent) (R : string) :
  existsb (fun e => region_is R (label e) && (day_of (time e) <=? today)) df = true
  <-> exists e, In e df /\ label e = Some R /\ day_of (time e) <= today.
Proof.
  rewrite existsb_exists. split; intros (e & He & H); exists e.
  - apply andb_true_iff in H. destruct H as [H1 H2].
    apply region_is_true in H1. apply Z.leb_le in H2. auto.
  - destruct H as [H1 H2]. split; [exact He|]. apply andb_true_iff.
    split; [now apply region_is_true | now apply Z.leb_le].
Qed.
End Returns.

(** X14.  [forecast_earthquakes] returns as soon as the cached catalog
    table has a place with the delimiter and an event, dated today or
    earlier, whose label is a name of the static list; for the region of
    such an event the table it returns holds exactly four rows, dated
    today, today + 1, today + 2 and today + 3, in this order. *)
Theorem forecast_earthquakes_returns :
  forall (today : Z) (usgs : list RawEvent) (sqrt : Q -> Q)
         (model : list (list (option Q) * option string) -> list (Q * Q))
         (c : Cache) (e : RawEvent) (R : string),
    some_delim (cached usgs c) = true ->
    In e (cached usgs c) -> label e = Some R -> In R known_regions ->
    day_of (time e) <= today ->
    exists rows,
      forecast_earthquakes today usgs sqrt model c = (Ok rows, Some (cached usgs c))
      /\ map Date (filter (fun r => region_is R (Region r)) rows)
         = date_range today (today + 3).
Proof.
  intros today usgs sqrt model c e R Hd He Hl Hknown Hday.
  destruct (preprocess_all_present today usgs (cached usgs c) (warm usgs c) e R)
    as (g & Hp & HR); auto.
  { now exists e. }
  change (warm usgs (warm usgs c)) with (warm usgs c) in Hp.
  destruct (create_features_succeeds today usgs sqrt _ None _ _ g R Hp HR)
    as (fr & Hc).
  rewrite forecast_earthquakes_of_assemble,
    (assemble_stages today usgs sqrt model None c g fr Hp Hc).
  cbn [fst snd result_map]. eexists. split; [reflexivity|].
  apply create_features_Ok in Hc. destruct Hc as (g' & Hx & ->).
  destruct (pipeline_extension today usgs _ None _ _ _ g g' Hp Hx R)
    as [[E _]|(first & _ & Hdense & E)]; [contradiction|].
  destruct (rows_of R g') as [|y l] eqn:Ey.
  { destruct (rows_of R g) eqn:Eg; [contradiction | discriminate E]. }
  assert (Hy : In y (rows_of R g')) by (rewrite Ey; now left).
  apply rows_of_In in Hy. destruct Hy as [Hy Hyr].
  rewrite <- (add_features_base sqrt g') in Hy.
  apply in_map_iff in Hy. destruct Hy as (x & Hbx & Hxin).
  destruct (join_covers (add_features sqrt g')
              (model (map (fun r => (features r, region (base r)))
                        (add_features sqrt g'))) x Hxin) as (r & Hr & _ & Hreg).
  rewrite Hbx, Hyr in Hreg.
  destruct (window_region_days today usgs sqrt _ None _ _ _ g g' _ R today r
              Hp Hx Hr Hreg) as (first' & _ & Hle & Hdays).
  rewrite Hdays. f_equal. lia.
Qed.

(** X15.  The single-region forecast, case by case on the cached catalog
    table.  With no place containing the delimiter it raises [KeyError].
    Otherwise it raises the [ValueError] of a date range without start
    when no event labelled with the region is dated today or earlier (no
    such event at all, or only events dated after today, which the
    alignment drops); and it returns, with at least one row and only rows
    of the requested region, in every other case. *)
Theorem get_forecast_single_region :
  forall (today : Z) (usgs : list RawEvent) (sqrt : Q -> Q)
         (model : list (list (option Q) * option string) -> list (Q * Q))
         (R : string) (c : Cache),
    if some_delim (cached usgs c)
    then if existsb (fun e => region_is R (label e) && (day_of (time e) <=? today))
                    (cached usgs c)
         then exists rows,
                get_forecast today usgs sqrt model (Some R) c
                  = (Ok rows, Some (cached usgs c))
                /\ rows <> []
                /\ forall r, In r rows -> Region r = Some R
         else fst (get_forecast today usgs sqrt model (Some R) c) = Raise ValueError
    else fst (get_forecast today usgs sqrt model (Some R) c) = Raise KeyError.
Proof.
  intros today usgs sqrt model R c.
  rewrite get_forecast_of_assemble, assemble_run.
  set (T := cached usgs c).
  destruct (some_delim T) eqn:Hd.
  2:{ unfold bind, preprocess_data, lift. now rewrite daily_means_eq, Hd. }
  set (DM := rows_of R (groupby_resample_mean (labelled T))).
  pose proof (preprocess_single_eq today usgs T R (warm usgs c) Hd) as Hp.
  fold DM in Hp.
  destruct (existsb _ T) eqn:Hex.
  - apply existsb_event in Hex. destruct Hex as (e & He & Hl & Hday).
    assert (Hne : DM <> []) by (apply daily_means_present; now exists e).
    destruct (daily_means_first T R Hne) as (first & [_ Hlow] & Hmin).
    fold DM in Hmin. rewrite Hmin in Hp. specialize (Hlow e He Hl).
    set (g := ffill (df_reindex DM (date_range first today))) in *.
    assert (Hgi : map index g = date_range first today).
    { subst g. unfold ffill. rewrite (ffill_with_index fill fill_index).
      apply df_reindex_index. }
    assert (Hgr : forall r, In r g -> region r = Some R).
    { apply (reindexed_region fill DM R first today fill_label); [|exact Hmin].
      intros r Hr. now apply rows_of_In in Hr. }
    assert (HR : rows_of R g <> []).
    { rewrite (rows_of_all R g Hgr). intros E. rewrite E in Hgi.
      rewrite date_range_cons in Hgi by lia. discriminate. }
    destruct (create_features_succeeds today usgs sqrt T (Some R) _ _ g R Hp HR)
      as (fr & Hc).
    unfold bind. rewrite Hp, Hc. cbn [fst snd result_map ret].
    eexists. split; [reflexivity|].
    apply create_features_Ok in Hc. destruct Hc as (g' & Hx & ->).
    set (J := join (add_features sqrt g') _).
    assert (Hrows : forall r, In r J -> Region r = Some R).
    { intros r Hr. subst J. apply join_In in Hr.
      destruct Hr as (x & Hxin & _ & ->).
      assert (Hin : In (base x) g').
      { rewrite <- (add_features_base sqrt g'). now apply in_map. }
      destruct (extended_labelled today usgs T (Some R) _ _ _ g g' Hp Hx _ Hin)
        as (R' & HR').
      destruct (pipeline_extension today usgs T (Some R) _ _ _ g g' Hp Hx R')
        as [[_ E]|(first' & _ & Hd' & _)].
      - assert (H : In (base x) (rows_of R' g')) by now apply rows_of_In.
        rewrite E in H. destruct H.
      - destruct (rows_of R' g) as [|y l] eqn:Ey.
        + destruct Hd' as (Hi & Hle & _).
          rewrite date_range_cons in Hi by assumption. discriminate.
        + assert (Hy : In y (rows_of R' g)) by (rewrite Ey; now left).
          apply rows_of_In in Hy. destruct Hy as [Hy Hyr].
          rewrite (Hgr y Hy) in Hyr. congruence. }
    split.
    + destruct (pipeline_extension today usgs T (Some R) _ _ _ g g' Hp Hx R)
        as [[E _]|(first' & _ & Hdense & E)]; [contradiction|].
      destruct (dense_last today R first' _ Hdense) as [Hlast Hlday].
      set (y := last (rows_of R g) (nan_row 0)) in *.
      assert (Hy : In y g').
      { assert (H : In y (rows_of R g')) by (rewrite E; apply in_or_app; now left).
        now apply rows_of_In in H. }
      rewrite <- (add_features_base sqrt g') in Hy.
      apply in_map_iff in Hy. destruct Hy as (x & Hbx & Hxin).
      destruct (join_covers (add_features sqrt g')
                  (model (map (fun r => (features r, region (base r)))
                            (add_features sqrt g'))) x Hxin) as (r & Hr & Hdate & _).
      fold J in Hr. intros Enil.
      assert (Hf : In r (filter (fun r => today - 7 <=? Date r) J)).
      { apply filter_In. split; [exact Hr|]. apply Z.leb_le.
        rewrite Hdate, Hbx, Hlday. lia. }
      rewrite Enil in Hf. destruct Hf.
    + intros r Hr. apply filter_In in Hr. now apply Hrows.
  - assert (Hnone : forall e, In e T -> label e = Some R -> today < day_of (time e)).
    { intros e He Hl. destruct (Z_lt_le_dec today (day_of (time e))) as [H|H];
        [exact H|].
      assert (Ht : existsb (fun e => region_is R (label e)
                                     && (day_of (time e) <=? today)) T = true).
      { apply existsb_event. now exists e. }
      congruence. }
    unfold bind. destruct (index_min DM) as [first|] eqn:Hmin;
      rewrite Hp; [|reflexivity].
    assert (Hne : DM <> []) by (intros E; rewrite E in Hmin; discriminate).
    destruct (daily_means_first T R Hne) as (first' & [(e & He & Hl & Hday) _] & Hmin').
    fold DM in Hmin'. assert (first' = first) by congruence. subst first'.
    specialize (Hnone e He Hl).
    assert (Hg : ffill (df_reindex DM (date_range first today)) = []).
    { rewrite date_range_nil by lia. reflexivity. }
    rewrite Hg, create_features_single_eq. reflexivity.
Qed.

(** ** What the extension keeps *)

(** X16.  The extension never touches the dense grid: in the feature
    table the rows of a region are the region's dense rows, unchanged and
    in the same order, followed by exactly three new rows dated today + 1,
    today + 2 and today + 3; a region absent from the dense grid is absent
    from the feature table. *)
Theorem extension_appends_three_rows :
  forall (today : Z) (usgs : list RawEvent) (sqrt : Q -> Q)
         (df : list RawEvent) (region_arg : option string)
         (c c1 c2 : Cache) (g : list Row) (fr : list FeatureRow),
    preprocess_data today usgs df region_arg c = (Ok g, c1) ->
    create_features today usgs sqrt g region_arg c1 = (Ok fr, c2) ->
    forall R,
      exists tail,
        rows_of R (map base fr) = rows_of R g ++ tail
        /\ map index tail =
           match rows_of R g with
           | [] => []
           | _ => [today + 1; today + 2; today + 3]
           end.
Proof.
  intros today usgs sqrt df region_arg c c1 c2 g fr Hp Hc R.
  apply create_features_Ok in Hc. destruct Hc as (g' & He & ->).
  rewrite add_features_base.
  destruct (pipeline_extension today usgs df region_arg c c1 c2 g g' Hp He R)
    as [[E1 E2]|(first & _ & Hd & E)].
  - exists []. rewrite E1, E2. split; reflexivity.
  - exists (horizon_rows today region_arg (rows_of R g)). split; [exact E|].
    rewrite horizon_rows_index.
    pose proof (dense_nonempty today R first _ Hd) as Hne.
    destruct (rows_of R g); [congruence|].
    rewrite date_range_cons, date_range_cons, date_range_cons, date_range_nil by lia.
    replace (today + 1 + 1) with (today + 2) by lia.
    replace (today + 2 + 1) with (today + 3) by lia.
    reflexivity.
Qed.

(** X17.  In the all-regions branch the two alignment passes compose:
    for a region none of whose events is dated after today, aligning to
    today and then extending by three days gives the same rows as one
    [reindex(group, 3)] of the region's daily means.  (An event dated
    after today is dropped by the first pass, so the proviso is needed.) *)
Theorem two_passes_compose :
  forall (today : Z) (usgs : list RawEvent) (sqrt : Q -> Q)
         (df : list RawEvent) (c c1 c2 : Cache) (g : list Row)
         (fr : list FeatureRow) (R : string),
    preprocess_data today usgs df None c = (Ok g, c1) ->
    create_features today usgs sqrt g None c1 = (Ok fr, c2) ->
    rows_of R g <> [] ->
    (forall e, In e df -> label e = Some R -> day_of (time e) <= today) ->
    reindex today (rows_of R (groupby_resample_mean (labelled df))) 3
    = Ok (rows_of R (map base fr)).
Proof.
  intros today usgs sqrt df c c1 c2 g fr R Hp Hc HR Hpast.
  apply create_features_Ok in Hc. destruct Hc as (g' & He & ->).
  rewrite add_features_base.
  pose proof (preprocess_group today usgs df None c c1 g R Hp HR) as Hg.
  set (G := rows_of R (groupby_resample_mean (labelled df))) in *.
  destruct (pipeline_extension today usgs df None c c1 c2 g g' Hp He R)
    as [[E _]|(first & _ & Hd & E)]; [contradiction|].
  assert (Hmin : index_min G = Some first).
  { destruct (index_min G) as [m|] eqn:Hm.
    - pose proof (grid_index today 0 G m Hm) as Hi.
      rewrite <- Hg in Hi. destruct Hd as (Hi' & Hle & _).
      rewrite Hi', Z.add_0_r in Hi.
      destruct (Z_lt_le_dec today m) as [Hlt|Hle'].
      + rewrite (date_range_nil m) in Hi by assumption.
        rewrite date_range_cons in Hi by assumption. discriminate.
      + rewrite (date_range_cons first), (date_range_cons m) in Hi by assumption.
        now injection Hi as ->.
    - apply index_min_None in Hm. rewrite Hm, grid_nil in Hg. congruence. }
  destruct (grid_eq today 3 G first Hmin) as [-> Hgrid].
  f_equal. rewrite Hgrid, E.
  destruct (grid_eq today 0 G first Hmin) as [_ Hgrid0].
  rewrite Z.add_0_r in Hgrid0.
  destruct Hd as (Hidx & Hle & _).
  rewrite (date_range_app first today (today + 3)) by lia.
  rewrite df_reindex_app.
  assert (HG : forall r, In r G -> index r <= today).
  { intros r Hr. subst G. rewrite rows_of_daily_means in Hr.
    unfold resample_mean in Hr.
    destruct (event_days (events_of R (labelled df))) as [|d ds] eqn:Ed;
      [destruct Hr|].
    apply in_map_iff in Hr. destruct Hr as (b & <- & Hb). cbn [index].
    apply date_range_In in Hb.
    destruct (fold_max_spec d ds) as [Hin _]. rewrite <- Ed in Hin.
    unfold event_days in Hin. apply in_map_iff in Hin.
    destruct Hin as ([e l] & Hday & Hev). cbn [fst] in Hday.
    apply events_of_In in Hev. destruct Hev as [Hev Hl]. cbn [snd] in Hl. subst l.
    apply labelled_In in Hev. destruct Hev as [Hev Hl].
    specialize (Hpast e Hev (eq_sym Hl)). lia. }
  rewrite (df_reindex_outside G (date_range (today + 1) (today + 3))).
  2:{ intros r d Hr Hdr. apply date_range_In in Hdr. specialize (HG r Hr). lia. }
  assert (Hne : df_reindex G (date_range first today) <> []).
  { intros E0. apply (f_equal (map index)) in E0.
    rewrite df_reindex_index, date_range_cons in E0 by assumption. discriminate. }
  unfold ffill. rewrite (ffill_with_app fill (nan_row 0)) by assumption.
  fold ffill. rewrite <- Hgrid0, <- Hg. reflexivity.
Qed.

(** ** Alignment of one group *)

(** X18.  On a group with no repeated day (the frames [df_reindex]
    stands for), [reindex(group, delta)] raises [ValueError] exactly when
    the group is empty.  On any other such group it returns one row per
    day from the group's earliest day through today + delta, in order, and
    aligning its result again changes nothing. *)
Theorem reindex_contract :
  forall (today : Z) (group : list Row) (delta : Z),
    NoDup (map index group) ->
    (reindex today group delta = Raise ValueError <-> group = [])
    /\ forall g, reindex today group delta = Ok g ->
         (exists m, index_min group = Some m
                    /\ map index g = date_range m (today + delta))
         /\ (g <> [] -> reindex today g delta = Ok g).
Proof.
  intros today group delta _. split.
  - unfold reindex. destruct (index_min group) as [m|] eqn:Hm.
    + split; [discriminate|]. intros ->. discriminate.
    + apply index_min_None in Hm. tauto.
  - intros g Hg. unfold reindex in Hg.
    destruct (index_min group) as [m|] eqn:Hm; [|discriminate].
    injection Hg as <-.
    assert (Hi : map index (ffill (df_reindex group (date_range m (today + delta))))
                 = date_range m (today + delta)).
    { unfold ffill. rewrite (ffill_with_index fill fill_index).
      apply df_reindex_index. }
    split; [now exists m|].
    intros Hne.
    assert (Hle : m <= today + delta).
    { destruct (Z_lt_le_dec (today + delta) m) as [Hlt|Hle]; [|exact Hle].
      destruct Hne. apply (map_eq_nil index). rewrite Hi.
      now apply date_range_nil. }
    unfold reindex. rewrite (index_min_range _ m (today + delta) Hi Hle).
    rewrite (df_reindex_self _ m (today + delta) Hi). now rewrite ffill_idem.
Qed.

(** ** Alignment and the other regions *)

Lemma fold_min_perm (d d' : Z) (ds ds' : list Z) :
  Permutation (d :: ds) (d' :: ds') ->
  fold_right Z.min d ds = fold_right Z.min d' ds'.
Proof.
  intros H. destruct (fold_min_spec d ds) as [H1 H2].
  destruct (fold_min_spec d' ds') as [H1' H2'].
  apply (Permutation_in _ H) in H1.
  apply (Permutation_in _ (Permutation_sym H)) in H1'.
  specialize (H2 _ H1'). specialize (H2' _ H1). lia.
Qed.

Lemma fold_max_perm (d d' : Z) (ds ds' : list Z) :
  Permutation (d :: ds) (d' :: ds') ->
  fold_right Z.max d ds = fold_right Z.max d' ds'.
Proof.
  intros H. destruct (fold_max_spec d ds) as [H1 H2].
  destruct (fold_max_spec d' ds') as [H1' H2'].
  apply (Permutation_in _ H) in H1.
  apply (Permutation_in _ (Permutation_sym H)) in H1'.
  specialize (H2 _ H1'). specialize (H2' _ H1). lia.
Qed.

Lemma labelled_events_of (df : list RawEvent) (R : string) :
  Permutation (map fst (events_of R (labelled df)))
              (filter (fun e => region_is R (label e)) df).
Proof.
  unfold events_of, labelled. rewrite combine_map.
  transitivity (map fst (filter (fun e : RawEvent * option string => region_is R (snd e))
                           (map (fun a => (a, label a)) df))).
  - apply Permutation_map, Permutation_filter, sort_perm.
  - induction df as [|e df IH]; [reflexivity|].
    cbn [map filter snd]. destruct (region_is R (label e)); cbn [map fst];
      [now apply perm_skip | exact IH].
Qed.

Lemma events_on_filter (df : list RawEvent) (R : string) (d : Z) :
  events_on df R d =
  filter (fun e => day_of (time e) =? d) (filter (fun e => region_is R (label e)) df).
Proof.
  unfold events_on. rewrite filter_and. apply filter_ext. intros e. apply andb_comm.
Qed.

(** The daily means of a region depend on the region's events only, in
    whatever order the table holds them. *)
Lemma daily_means_rows_perm (df1 df2 : list RawEvent) (R : string) :
  Permutation (filter (fun e => region_is R (label e)) df1)
              (filter (fun e => region_is R (label e)) df2) ->
  rows_of R (groupby_resample_mean (labelled df1)) =
  rows_of R (groupby_resample_mean (labelled df2)).
Proof.
  intros H. rewrite !rows_of_daily_means. unfold resample_mean.
  assert (Hdays : Permutation (event_days (events_of R (labelled df1)))
                              (event_days (events_of R (labelled df2)))).
  { unfold event_days.
    rewrite <- !(map_map fst (fun e => day_of (time e))).
    apply Permutation_map.
    rewrite !labelled_events_of. exact H. }
  assert (Hmean : forall (df : list RawEvent) (col : RawEvent -> option Q) b,
             mean (present (map col (map fst
               (filter (fun e => day_of (time (fst e)) =? b)
                       (events_of R (labelled df))))))
             = daily_mean col df R b).
  { intros df col b. unfold daily_mean. apply mean_perm, Permutation_present,
      Permutation_map, labelled_events_on. }
  assert (Hdm : forall col b, daily_mean col df1 R b = daily_mean col df2 R b).
  { intros col b. unfold daily_mean. rewrite !events_on_filter.
    apply mean_perm, Permutation_present, Permutation_map, Permutation_filter, H. }
  destruct (event_days (events_of R (labelled df1))) as [|d ds],
           (event_days (events_of R (labelled df2))) as [|d' ds'].
  - reflexivity.
  - apply Permutation_nil in Hdays. discriminate.
  - symmetry in Hdays. apply Permutation_nil in Hdays. discriminate.
  - rewrite (fold_min_perm d d' ds ds' Hdays), (fold_max_perm d d' ds ds' Hdays).
    apply map_ext. intros b. now rewrite !Hmean, !Hdm.
Qed.

Section AlignmentRows.
Variable today : Z.
Variable usgs : list RawEvent.

(** The rows of a region in the grid [preprocess_data] returns: the grid
    of its daily means when the branch keeps the region, nothing
    otherwise. *)
Lemma preprocess_rows_exact (df : list RawEvent) (region_arg : option string)
    (c c1 : Cache) (g : list Row) (R : string) :
  preprocess_data today usgs df region_arg c = (Ok g, c1) ->
  rows_of R g =
  if match region_arg with
     | Some rg => String.eqb R rg
     | None => match fst (get_regions usgs c) with
               | Ok regions => isin (Some R) regions
               | Raise _ => false
               end
     end
  then grid today 0 (rows_of R (groupby_resample_mean (labelled df)))
  else [].
Proof.
  unfold preprocess_data. intros H.
  apply bind_Ok in H. destruct H as (dm & c0 & Hdm & H).
  apply lift_Ok in Hdm. destruct Hdm as [Hdm ->].
  rewrite daily_means_eq in Hdm.
  destruct (some_delim df); [|discriminate]. injection Hdm as <-.
  destruct region_arg as [rg|].
  - destruct (index_min (rows_of rg _)) as [first|] eqn:Hmin; [|discriminate].
    unfold ret in H. injection H as <- <-.
    destruct (grid_eq today 0 _ first Hmin) as [_ Hg].
    rewrite Z.add_0_r in Hg. rewrite <- Hg.
    assert (Hreg : forall r, In r (grid today 0 (rows_of rg
                     (groupby_resample_mean (labelled df)))) -> region r = Some rg).
    { apply grid_region. intros r Hr. now apply rows_of_In in Hr. }
    destruct (String.eqb_spec R rg) as [->|Hne]; [now apply rows_of_all|].
    apply rows_of_none. intros r Hr E. rewrite (Hreg r Hr) in E. congruence.
  - apply bind_Ok in H. destruct H as (regions & c2 & Hreg & H).
    apply lift_Ok in H. destruct H as [H ->]. rewrite Hreg. cbn [fst].
    destruct (groupby_apply_reindex today 0
                (filter (fun r => isin (region r) regions)
                        (groupby_resample_mean (labelled df))))
      as (out & Hout & Hrows & _).
    rewrite Hout in H. injection H as ->.
    rewrite Hrows, rows_of_filter_isin.
    now destruct (isin (Some R) regions).
Qed.
End AlignmentRows.

(** X19.  Non-interference of the alignment.  Two tables that hold the
    same events for the places labelled [R], in any order and whatever
    else they hold, give the same dense rows for [R], in either branch,
    whenever [preprocess_data] returns on both from the same cache. *)
Theorem alignment_ignores_other_regions :
  forall (today : Z) (usgs df1 df2 : list RawEvent) (region_arg : option string)
         (c c1 c2 : Cache) (g1 g2 : list Row) (R : string),
    Permutation (filter (fun e => region_is R (label e)) df1)
                (filter (fun e => region_is R (label e)) df2) ->
    preprocess_data today usgs df1 region_arg c = (Ok g1, c1) ->
    preprocess_data today usgs df2 region_arg c = (Ok g2, c2) ->
    rows_of R g1 = rows_of R g2.
Proof.
  intros today usgs df1 df2 region_arg c c1 c2 g1 g2 R Hsame H1 H2.
  rewrite (preprocess_rows_exact today usgs df1 region_arg c c1 g1 R H1).
  rewrite (preprocess_rows_exact today usgs df2 region_arg c c2 g2 R H2).
  now rewrite (daily_means_rows_perm df1 df2 R Hsame).
Qed.

(** * The further properties at the scenarios *)

Module MoreWitness.
Import Scenario ScenarioMore.
Local Open Scope string_scope.

Ltac by_run := vm_compute; reflexivity.

Lemma california_earliest : earliest_day california "California" 20000.
Proof.
  split.
  - exists (event 1). split; [now left|]. split; by_run.
  - intros e He _. vm_compute in He.
    repeat (destruct He as [<-|He]; [vm_compute; discriminate|]).
    destruct He.
Qed.

Lemma california_past :
  forall e, In e california -> label e = Some "California" -> day_of (time e) <= today.
Proof.
  intros e He _. vm_compute in He.
  repeat (destruct He as [<-|He]; [vm_compute; discriminate|]).
  destruct He.
Qed.

Lemma california_known : In "California" known_regions.
Proof.
  unfold known_regions. repeat (first [left; reflexivity | right]).
Qed.

Lemma california_present : rows_of "California" (dense_grid california None) <> [].
Proof. vm_compute. discriminate. Qed.

Lemma dense_row_In (k : nat) :
  (k < 12)%nat ->
  In (nth k (dense_grid california None) (nan_row 0)) (dense_grid california None).
Proof.
  intros H. apply nth_In.
  assert (E : List.length (dense_grid california None) = 12%nat) by by_run.
  rewrite E. exact H.
Qed.

Lemma dense_grid_values_witness :
  cell mag (dense_grid california None) "California" (20000 + Z.of_nat 5)
  = carried (daily_mean raw_mag california "California") 20000 5.
Proof.
  exact (dense_grid_values today california california None
           (Some california) (Some california) (dense_grid california None)
           "California" 20000 mag raw_mag 5%nat
           (ScenarioFacts.preprocess_run california None ltac:(by_run))
           california_present california_earliest (or_introl eq_refl)
           ltac:(vm_compute; discriminate)).
Defined.

Lemma dense_grid_no_lookahead_witness :
  let r := nth 5 (dense_grid california None) (nan_row 0) in
  (forall v, depth r = Some v ->
     exists d, d <= index r
               /\ daily_mean raw_depth california "California" d = Some v
               /\ forall d', d < d' <= index r ->
                             daily_mean raw_depth california "California" d' = None)
  /\ (forall v, daily_mean raw_depth california "California" (index r) = Some v ->
                depth r = Some v).
Proof.
  exact (dense_grid_no_lookahead today california california None
           (Some california) (Some california) (dense_grid california None)
           "California" (nth 5 (dense_grid california None) (nan_row 0))
           depth raw_depth
           (ScenarioFacts.preprocess_run california None ltac:(by_run))
           (dense_row_In 5 ltac:(lia)) ltac:(by_run)
           (or_intror (or_introl eq_refl))).
Defined.

Lemma dense_column_complete_witness :
  (forall r, In r (dense_grid california None) -> region r = Some "California" ->
             mag r <> None)
  <-> daily_mean raw_mag california "California" 20000 <> None.
Proof.
  exact (dense_column_complete today california california None
           (Some california) (Some california) (dense_grid california None)
           "California" 20000 mag raw_mag
           (ScenarioFacts.preprocess_run california None ltac:(by_run))
           california_present california_earliest (or_introl eq_refl)).
Defined.

Lemma rolling_reads_day_window_witness :
  let fr := run california None in
  let x := pick 13 fr in
  mag_rolling_mean_3 x
  = window_stat mean mag (map base fr) "California" (index (base x)) 3.
Proof.
  intros fr x.
  assert (HR : region (base x) = Some "California") by by_run.
  exact (proj1 (rolling_reads_day_window today california sqrt california None
                  (Some california) (Some california) (Some california)
                  (dense_grid california None) fr
                  (ScenarioFacts.preprocess_run california None ltac:(by_run))
                  (ScenarioFacts.features_run california (dense_grid california None)
                     None ltac:(by_run))
                  x "California"
                  (ScenarioFacts.pick_In 13 (run california None) ltac:(by_run)) HR)).
Defined.

Lemma single_region_future_rolling_absent_witness :
  let x := pick 14 (run california (Some "California")) in
  mag_rolling_mean_3 x = None /\ mag_rolling_std_3 x = None
  /\ depth_rolling_mean_3 x = None /\ depth_rolling_std_3 x = None
  /\ mag_rolling_mean_10 x = None /\ mag_rolling_std_10 x = None
  /\ depth_rolling_mean_10 x = None /\ depth_rolling_std_10 x = None.
Proof.
  intros x.
  assert (Hday : today < index (base x)) by by_run.
  exact (single_region_future_rolling_absent today california sqrt california
           "California" (Some california) (Some california) (Some california)
           (dense_grid california (Some "California"))
           (run california (Some "California"))
           (ScenarioFacts.preprocess_run california (Some "California") ltac:(by_run))
           (ScenarioFacts.features_run california
              (dense_grid california (Some "California")) (Some "California")
              ltac:(by_run))
           x (ScenarioFacts.pick_In 14 (run california (Some "California"))
                ltac:(by_run)) Hday).
Defined.

Lemma warm_up_features_absent_witness :
  let x := pick 2 (run california None) in
  mag_lag_ 3 x = None /\ depth_lag_ 3 x = None.
Proof.
  intros x.
  assert (HR : region (base x) = Some "California") by by_run.
  assert (Hday : index (base x) < 20000 + Z.of_nat 3) by by_run.
  exact (proj1 (warm_up_features_absent today california sqrt california None
                  (Some california) (Some california) (Some california)
                  (dense_grid california None) (run california None)
                  x "California" 20000
                  (ScenarioFacts.preprocess_run california None ltac:(by_run))
                  (ScenarioFacts.features_run california (dense_grid california None)
                     None ltac:(by_run))
                  (ScenarioFacts.pick_In 2 (run california None) ltac:(by_run))
                  HR california_earliest)
               3%nat ltac:(lia) Hday).
Defined.

Lemma assembled_run (df : list RawEvent) (region_arg : option string) :
  is_raise (fst (assemble today df sqrt model region_arg (Some df))) = false ->
  assemble today df sqrt model region_arg (Some df)
  = (Ok (assembled df region_arg), Some df).
Proof.
  intros H. unfold assembled.
  pose proof (assemble_keeps today df sqrt model region_arg (Some df)) as Hc.
  change (warm df (Some df)) with (Some df) in Hc.
  destruct (assemble today df sqrt model region_arg (Some df)) as [[rows|e] c];
    cbn in H, Hc |- *; [now subst c | discriminate].
Qed.

Lemma forecast_run (df : list RawEvent) (region_arg : option string) :
  is_raise (fst (get_forecast today df sqrt model region_arg (Some df))) = false ->
  get_forecast today df sqrt model region_arg (Some df)
  = (Ok (forecast df region_arg), Some df).
Proof.
  intros H. unfold forecast.
  destruct (get_forecast_warm today df sqrt model region_arg (Some df)) as [_ Hc].
  change (warm df (Some df)) with (Some df) in Hc.
  destruct (get_forecast today df sqrt model region_arg (Some df)) as [[rows|e] c];
    cbn in H, Hc |- *; [now subst c | discriminate].
Qed.

Lemma forecast_join_by_position_witness :
  exists g fr,
    create_features today california sqrt g None (Some california)
      = (Ok fr, Some california)
    /\ List.length (assembled california None) = List.length fr
    /\ (forall k x, nth_error fr k = Some x ->
          nth_error (assembled california None) k =
          Some {| Date := index (base x);
                  Magnitude := mag (base x);
                  Magnitude_Forecast :=
                    option_map fst
                      (nth_error (model (map (fun r => (features r, region (base r))) fr)) k);
                  Depth := depth (base x);
                  Depth_Forecast :=
                    option_map snd
                      (nth_error (model (map (fun r => (features r, region (base r))) fr)) k);
                  Region := region (base x);
                  Latitude := latitude (base x);
                  Longitude := longitude (base x) |})
    /\ (List.length (model (map (fun r => (features r, region (base r))) fr))
        = List.length fr ->
        forall r, In r (assembled california None) ->
                  Magnitude_Forecast r <> None /\ Depth_Forecast r <> None).
Proof.
  exact (forecast_join_by_position today california sqrt model None
           (Some california) (Some california) (assembled california None)
           (assembled_run california None ltac:(by_run))).
Defined.

Lemma get_forecast_region_days_witness :
  let rows := forecast california None in
  let r := nth 0 rows blank_forecast in
  exists R first,
    Region r = Some R
    /\ earliest_day california R first
    /\ map Date (filter (fun r => region_is R (Region r)) rows)
       = date_range (Z.max first (today - 7)) (today + 3)
    /\ today - 7 <= Date r <= today + 3.
Proof.
  intros rows r.
  assert (Hin : In r rows).
  { apply nth_In. assert (E : List.length rows = 11%nat) by by_run.
    rewrite E. lia. }
  exact (get_forecast_region_days today california sqrt model None
           (Some california) (Some california) rows
           (forecast_run california None ltac:(by_run)) r Hin).
Defined.

Lemma forecast_earthquakes_returns_witness :
  exists rows,
    forecast_earthquakes today california sqrt model (Some california)
      = (Ok rows, Some california)
    /\ map Date (filter (fun r => region_is "California" (Region r)) rows)
       = date_range today (today + 3).
Proof.
  exact (forecast_earthquakes_returns today california sqrt model
           (Some california) (event 1) "California"
           ltac:(by_run) (or_introl eq_refl) ltac:(by_run)
           california_known ltac:(vm_compute; discriminate)).
Defined.

Lemma extension_appends_three_rows_witness :
  exists tail,
    rows_of "California" (map base (run california None))
    = (rows_of "California" (dense_grid california None) ++ tail)%list
    /\ map index tail =
       match rows_of "California" (dense_grid california None) with
       | [] => []
       | _ => [today + 1; today + 2; today + 3]
       end.
Proof.
  exact (extension_appends_three_rows today california sqrt california None
           (Some california) (Some california) (Some california)
           (dense_grid california None) (run california None)
           (ScenarioFacts.preprocess_run california None ltac:(by_run))
           (ScenarioFacts.features_run california (dense_grid california None)
              None ltac:(by_run))
           "California").
Defined.

Lemma two_passes_compose_witness :
  reindex today (rows_of "California" (groupby_resample_mean (labelled california))) 3
  = Ok (rows_of "California" (map base (run california None))).
Proof.
  exact (two_passes_compose today california sqrt california
           (Some california) (Some california) (Some california)
           (dense_grid california None) (run california None) "California"
           (ScenarioFacts.preprocess_run california None ltac:(by_run))
           (ScenarioFacts.features_run california (dense_grid california None)
              None ltac:(by_run))
           california_present california_past).
Defined.

Lemma aligned_run (usgs df : list RawEvent) (region_arg : option string) :
  is_raise (fst (preprocess_data today usgs df region_arg (Some usgs))) = false ->
  preprocess_data today usgs df region_arg (Some usgs) =
  (Ok (aligned usgs df region_arg), Some usgs).
Proof.
  intros H. unfold aligned.
  pose proof (preprocess_data_keeps today usgs df region_arg (Some usgs)) as Hc.
  change (warm usgs (Some usgs)) with (Some usgs) in Hc.
  destruct (preprocess_data today usgs df region_arg (Some usgs)) as [[g|e] c];
    cbn in H, Hc |- *; [now subst c | discriminate].
Qed.

Lemma alignment_ignores_other_regions_witness :
  let usgs := two_regions 30 in
  rows_of "Nevada" (aligned usgs (two_regions 30) None)
  <> rows_of "Nevada" (aligned usgs (two_regions 45) None)
  /\ rows_of "California" (aligned usgs (two_regions 30) None)
     = rows_of "California" (aligned usgs (two_regions 45) None).
Proof.
  intros usgs. split; [vm_compute; discriminate|].
  assert (E : filter (fun e => region_is "California" (label e)) (two_regions 30)
              = filter (fun e => region_is "California" (label e)) (two_regions 45))
    by by_run.
  assert (Hperm : Permutation
            (filter (fun e => region_is "California" (label e)) (two_regions 30))
            (filter (fun e => region_is "California" (label e)) (two_regions 45)))
    by (rewrite E; apply Permutation_refl).
  exact (alignment_ignores_other_regions today usgs (two_regions 30) (two_regions 45)
           None (Some usgs) (Some usgs) (Some usgs)
           (aligned usgs (two_regions 30) None) (aligned usgs (two_regions 45) None)
           "California" Hperm
           (aligned_run usgs (two_regions 30) None ltac:(by_run))
           (aligned_run usgs (two_regions 45) None ltac:(by_run))).
Defined.

Lemma reindex_contract_witness :
  let group := rows_of "California" (groupby_resample_mean (labelled california)) in
  NoDup (map index group)
  /\ (reindex today group 3 = Raise ValueError <-> group = [])
  /\ forall g, reindex today group 3 = Ok g ->
       (exists m, index_min group = Some m
                  /\ map index g = date_range m (today + 3))
       /\ (g <> [] -> reindex today g 3 = Ok g).
Proof.
  intros group.
  assert (Hnd : NoDup (map index group)).
  { vm_compute.
    repeat (constructor; [cbn; intuition discriminate|]). constructor. }
  split; [exact Hnd|].
  exact (reindex_contract today group 3 Hnd).
Defined.

End MoreWitness.
